(** * ObsidianFrontmatterEditor: a shallow embedding of the transformation engine

    The development follows the three source modules

      - [src/core/config_manager.py]          (ConfigManager)
      - [src/core/property_change_tracker.py] (PropertyChangeTracker)
      - [src/core/property_processor.py]      (PropertyProcessor)

    Python objects that are mutated in place and reachable through more than
    one name (front-matter mappings, trackers, the [Notes] collection) live in
    typed stores indexed by locations; console output and file-system effects
    are collected in an event log. *)

From Stdlib Require Import ZArith.
From stdpp Require Import base option list gmap strings.

Set Warnings "-register-all".

Local Open Scope string_scope.
Local Open Scope list_scope.

(** ** Python values, as [yaml.safe_load] produces them *)

(** Mappings are restricted to string keys (the only keys the program ever
    looks up); floating point scalars are not represented. *)
Inductive pyvalue : Type :=
| VNone
| VBool (b : bool)
| VInt (z : Z)
| VStr (s : string)
| VList (l : list pyvalue)
| VDict (d : list (string * pyvalue)).

Inductive exn : Type :=
| AttributeError
| TypeError
| KeyboardInterrupt
| EOFError
| FileNotFoundError
| YAMLError
| OSError
| SystemExit (code : Z).

(** [except Exception] catches everything but the [BaseException]-only
    classes. *)
Definition is_Exception (e : exn) : bool :=
  match e with
  | KeyboardInterrupt | SystemExit _ => false
  | _ => true
  end.

Inductive outcome (A : Type) : Type :=
| Ret (a : A)
| Raise (e : exn).
Arguments Ret {A} a.
Arguments Raise {A} e.

(** Truth value testing: [not v] is [negb (truthy v)]. *)
Definition truthy (v : pyvalue) : bool :=
  match v with
  | VNone => false
  | VBool b => b
  | VInt z => negb (z =? 0)%Z
  | VStr s => negb (String.eqb s "")
  | VList l => match l with [] => false | _ => true end
  | VDict d => match d with [] => false | _ => true end
  end.

Fixpoint assoc (k : string) (d : list (string * pyvalue)) : option pyvalue :=
  match d with
  | [] => None
  | (k', v) :: d' => if String.eqb k k' then Some v else assoc k d'
  end.

(** Python's [==] on loaded values ([True == 1], mappings compare without
    regard to order). *)
Fixpoint py_eq (a b : pyvalue) {struct a} : bool :=
  match a with
  | VNone => match b with VNone => true | _ => false end
  | VBool x =>
      match b with
      | VBool y => Bool.eqb x y
      | VInt y => (Z.b2z x =? y)%Z
      | _ => false
      end
  | VInt x =>
      match b with
      | VInt y => (x =? y)%Z
      | VBool y => (x =? Z.b2z y)%Z
      | _ => false
      end
  | VStr x => match b with VStr y => String.eqb x y | _ => false end
  | VList x =>
      match b with
      | VList y =>
          (fix go (x y : list pyvalue) {struct x} : bool :=
             match x, y with
             | [], [] => true
             | a' :: x', b' :: y' => py_eq a' b' && go x' y'
             | _, _ => false
             end) x y
      | _ => false
      end
  | VDict x =>
      match b with
      | VDict y =>
          Nat.eqb (length x) (length y) &&
          (fix go (x : list (string * pyvalue)) {struct x} : bool :=
             match x with
             | [] => true
             | (k, v) :: x' =>
                 match assoc k y with
                 | Some v' => py_eq v v'
                 | None => false
                 end && go x'
             end) x
      | _ => false
      end
  end.

(** [x in [a, b, ...]] *)
Definition py_in (x : pyvalue) (l : list pyvalue) : bool :=
  existsb (py_eq x) l.

Definition is_none (v : pyvalue) : bool :=
  match v with VNone => true | _ => false end.
Definition is_dict (v : pyvalue) : bool :=
  match v with VDict _ => true | _ => false end.

(** [v.get(k, dflt)]: only mappings have a [get] method. *)
Definition py_get (v : pyvalue) (k : string) (dflt : pyvalue) : outcome pyvalue :=
  match v with
  | VDict d => Ret (default dflt (assoc k d))
  | _ => Raise AttributeError
  end.

Fixpoint chars (s : string) : list pyvalue :=
  match s with
  | EmptyString => []
  | String c s' => VStr (String c EmptyString) :: chars s'
  end.

(** [for x in v]: lists give their items, mappings their keys, strings their
    characters; nothing else is iterable. *)
Definition py_iter (v : pyvalue) : outcome (list pyvalue) :=
  match v with
  | VList l => Ret l
  | VDict d => Ret (map (fun kv => VStr (fst kv)) d)
  | VStr s => Ret (chars s)
  | _ => Raise TypeError
  end.

(** ** ConfigManager *)

Module ConfigManager.

Inductive level : Type := ERROR | WARNING.

(** The messages the class prints, with the values their f-strings
    interpolate. *)
Inductive message : Type :=
| NoTagsFound
| NoTagFound
| PropertiesMustBeList (tag : pyvalue)
| PropertiesMustBeListOfDicts (tag : pyvalue)
| NoActionDefined (tag_name : pyvalue)
| OldPropertyNotFound (action tag_name : pyvalue)
| NewPropertyNotFound (action tag_name : pyvalue)
| OldAndNewSame (action tag_name : pyvalue)
| FileWasNotFound (path : string)
| FileCouldNotBeRead (path : string)
| AnErrorOccurred (e : exn).

Definition diag : Type := level * message.

Definition _print_error (msg : message) : diag := (ERROR, msg).
Definition _print_warning (msg : message) : diag := (WARNING, msg).

(** Computations of the class: a result or an exception, and what was
    printed on the way. *)
Definition cfg (A : Type) : Type := outcome A * list diag.

Definition cret {A} (a : A) : cfg A := (Ret a, []).
Definition cprint (d : diag) : cfg unit := (Ret tt, [d]).
Definition clift {A} (o : outcome A) : cfg A := (o, []).
Definition cbind {A B} (m : cfg A) (k : A -> cfg B) : cfg B :=
  match m with
  | (Ret a, ds) => let '(o, ds') := k a in (o, ds ++ ds')
  | (Raise e, ds) => (Raise e, ds)
  end.

#[local] Notation "x <- m ;; k" := (cbind m (fun x => k))
  (at level 100, m at next level, right associativity).
#[local] Notation "m ;;; k" := (cbind m (fun _ => k))
  (at level 100, right associativity).

Definition _validate_tag (tag : pyvalue) : cfg bool :=
  name <- clift (py_get tag "tag" VNone) ;;
  if negb (truthy name) then
    (cprint (_print_error NoTagFound) ;;; cret false)
  else
    props <- clift (py_get tag "properties" VNone) ;;
    match props with
    | VList l =>
        if negb (forallb is_dict l) then
          (cprint (_print_error (PropertiesMustBeListOfDicts tag)) ;;; cret false)
        else cret true
    | _ => cprint (_print_error (PropertiesMustBeList tag)) ;;; cret false
    end.

(** The body of the loop of [_validate_properties] for one entry:
    [Some prop] when the entry is appended, [None] on [continue]. *)
Definition validate_property (tag prop : pyvalue) : cfg (option pyvalue) :=
  action <- clift (py_get prop "action" VNone) ;;
  tag_name <- clift (py_get tag "tag" VNone) ;;
  if negb (truthy action) then
    (cprint (_print_error (NoActionDefined tag_name)) ;;; cret None)
  else
    old <- clift (py_get prop "old" VNone) ;;
    if py_in action [VStr "rename"; VStr "remove"] && negb (truthy old) then
      (cprint (_print_error (OldPropertyNotFound action tag_name)) ;;; cret None)
    else
      new <- clift (py_get prop "new" VNone) ;;
      if py_in action [VStr "rename"; VStr "add"] && negb (truthy new) then
        (cprint (_print_error (NewPropertyNotFound action tag_name)) ;;; cret None)
      else if py_eq new old then
        (cprint (_print_warning (OldAndNewSame action tag_name)) ;;; cret None)
      else cret (Some prop).

Fixpoint validate_loop (tag : pyvalue) (props : list pyvalue) : cfg (list pyvalue) :=
  match props with
  | [] => cret []
  | prop :: rest =>
      r <- validate_property tag prop ;;
      properties <- validate_loop tag rest ;;
      cret (match r with Some p => p :: properties | None => properties end)
  end.

Definition _validate_properties (tag : pyvalue) : cfg (list pyvalue) :=
  props <- clift (py_get tag "properties" (VList [])) ;;
  l <- clift (py_iter props) ;;
  validate_loop tag l.

(** [get_next_tag] is a generator.  Its behaviour does not depend on its
    consumer, so it is represented by what it does in order: print a
    diagnostic, or yield a pair; and by how it stops: exhausted ([None]) or
    with an exception. *)
Inductive gen_item : Type :=
| GPrint (d : diag)
| GYield (tag properties : pyvalue).

Definition generator : Type := list gen_item * option exn.

Fixpoint tags_loop (tags : list pyvalue) : generator :=
  match tags with
  | [] => ([], None)
  | tag :: rest =>
      match _validate_tag tag with
      | (Raise e, ds) => (map GPrint ds, Some e)
      | (Ret false, ds) =>
          let '(items, stop) := tags_loop rest in
          (map GPrint ds ++ items, stop)
      | (Ret true, ds) =>
          match (name <- clift (py_get tag "tag" VNone) ;;
                 properties <- _validate_properties tag ;;
                 cret (name, properties)) with
          | (Raise e, ds') => (map GPrint (ds ++ ds'), Some e)
          | (Ret (name, properties), ds') =>
              let '(items, stop) := tags_loop rest in
              (map GPrint (ds ++ ds') ++ GYield name (VList properties) :: items, stop)
          end
      end
  end.

Definition get_next_tag (yaml : pyvalue) : generator :=
  match py_get yaml "tags" VNone with
  | Raise e => ([], Some e)
  | Ret t =>
      let pre :=
        if is_none t then [GPrint (_print_error NoTagsFound); GYield VNone VNone]
        else [] in
      match py_get yaml "tags" (VList []) with
      | Raise e => (pre, Some e)
      | Ret ts =>
          match py_iter ts with
          | Raise e => (pre, Some e)
          | Ret tags =>
              let '(items, stop) := tags_loop tags in (pre ++ items, stop)
          end
      end
  end.

(** The pairs a generator yields, and the diagnostics it prints. *)
Definition yields (g : generator) : list (pyvalue * pyvalue) :=
  omap (fun i => match i with GYield t p => Some (t, p) | GPrint _ => None end) (fst g).
Definition printed (g : generator) : list diag :=
  omap (fun i => match i with GPrint d => Some d | GYield _ _ => None end) (fst g).

(** What [open] and [safe_load] can do with a path. *)
Inductive file_state : Type :=
| Missing
| Malformed
| Unreadable (e : exn)
| Loaded (yaml : pyvalue).

Definition open_and_safe_load (f : file_state) : outcome pyvalue :=
  match f with
  | Missing => Raise FileNotFoundError
  | Malformed => Raise YAMLError
  | Unreadable e => Raise e
  | Loaded yaml => Ret yaml
  end.

Definition _load_yaml (path : string) (f : file_state) : cfg pyvalue :=
  match open_and_safe_load f with
  | Ret yaml => cret yaml
  | Raise FileNotFoundError =>
      cprint (_print_error (FileWasNotFound path)) ;;; clift (Raise (SystemExit (-1)))
  | Raise YAMLError =>
      cprint (_print_error (FileCouldNotBeRead path)) ;;; clift (Raise (SystemExit (-1)))
  | Raise e =>
      if is_Exception e then
        cprint (_print_error (AnErrorOccurred e)) ;;; clift (Raise (SystemExit (-1)))
      else clift (Raise e)
  end.

End ConfigManager.

(** ** PropertyChangeTracker *)

Abbreviation loc := nat.

Module PropertyChangeTracker.

(** One entry of [_changes]; an argument left out of [add_change] is
    [None]. *)
Record change : Type := Change {
  action : string;
  old_property : option string;
  new_property : option string;
  old_value : pyvalue;
  new_value : pyvalue;
}.

(** The two front-matter attributes hold references to mapping objects. *)
Record t : Type := Tracker {
  _filename : string;
  _old_frontmatter : loc;
  _new_frontmatter : loc;
  _changes : list change;
  _logs : list string;
}.

Definition __init__ (filename : string) (old_frontmatter new_frontmatter : loc) : t :=
  Tracker filename old_frontmatter new_frontmatter [] [].

Definition set_old_frontmatter (value : loc) (self : t) : t :=
  Tracker (_filename self) value (_new_frontmatter self) (_changes self) (_logs self).

Definition set_new_frontmatter (value : loc) (self : t) : t :=
  Tracker (_filename self) (_old_frontmatter self) value (_changes self) (_logs self).

Definition add_change (action : string) (old_property new_property : option string)
    (old_value new_value : pyvalue) (self : t) : t :=
  Tracker (_filename self) (_old_frontmatter self) (_new_frontmatter self)
    (_changes self ++ [Change action old_property new_property old_value new_value])
    (_logs self).

Definition add_log (message : string) (self : t) : t :=
  Tracker (_filename self) (_old_frontmatter self) (_new_frontmatter self)
    (_changes self) (_logs self ++ [message]).

(** What [show_summary] prints, block by block; a front-matter block is
    [None] when the mapping is empty. *)
Inductive block : Type :=
| Header (filename : string)
| OldFrontmatter (fm : option (gmap string pyvalue))
| NewFrontmatter (fm : option (gmap string pyvalue))
| Changes (cs : list change)
| Logs (ls : list string).

Definition nonempty_map (m : gmap string pyvalue) : option (gmap string pyvalue) :=
  if decide (m = ∅) then None else Some m.

Definition show_summary (self : t) (old new : gmap string pyvalue) : list block :=
  [Header (_filename self); OldFrontmatter (nonempty_map old);
   NewFrontmatter (nonempty_map new)]
  ++ (match _changes self with [] => [] | cs => [Changes cs] end)
  ++ (match _logs self with [] => [] | ls => [Logs ls] end).

End PropertyChangeTracker.

(** ** The storage collaborator ([src/library]) *)

Module Library.

(** Modelled from the spec: the metadata kinds of [src/library/metadata.py],
    which is not part of the sources; the processor only names
    [FRONTMATTER]. *)
Inductive MetadataType : Type := FRONTMATTER | INLINE | ALL.

(** Modelled from the spec: a note object of [src/library/note.py], which is
    not part of the sources: its path and a reference to its live
    front-matter mapping ([note.metadata.frontmatter.metadata]). *)
Record Note : Type := mkNote {
  path : string;
  metadata : loc;
}.

(** Modelled from the spec: [has(property) -> bool] of the document-metadata
    interface of [src/library/metadata.py], which is not part of the
    sources; the interface works on the front-matter mapping of the note. *)
Definition has (k : string) (m : gmap string pyvalue) : bool :=
  bool_decide (is_Some (m !! k)).
(** Modelled from the spec: [get(property) -> value] of the same
    interface. *)
Definition get (k : string) (m : gmap string pyvalue) : pyvalue :=
  default VNone (m !! k).
(** Modelled from the spec: [add(property, value, kind)] of the same
    interface; the value is written under the property, whatever was there. *)
Definition add (k : string) (v : pyvalue) (meta_type : MetadataType)
    (m : gmap string pyvalue) : gmap string pyvalue :=
  <[k := v]> m.
(** Modelled from the spec: [remove(property)] of the same interface. *)
Definition remove (k : string) (m : gmap string pyvalue) : gmap string pyvalue :=
  delete k m.

(** Modelled from the spec: the criterion of [Notes.filter] in
    [src/library/note.py]: the field under the key holds the value as one
    of possibly several values. *)
Definition has_meta (crit : string * pyvalue * option MetadataType)
    (m : gmap string pyvalue) : bool :=
  let '(k, v, _) := crit in
  match m !! k with
  | Some (VList l) => py_in v l
  | Some x => py_eq x v
  | None => false
  end.

End Library.

Import Library.

(** ** PropertyProcessor *)

Module PropertyProcessor.

Import ConfigManager.

(** What reaches the console and the file system, in order. *)
Inductive event : Type :=
| EvDiag (d : diag)
| EvSummary (s : list PropertyChangeTracker.block)
| EvPrompt
| EvCancelled
| EvMakeArchive (raised : option exn)
| EvBackupCreated
| EvBackupError (e : exn)
| EvUpdateContent
| EvWrite
| EvSaved.

(** The processor's attributes, the objects they refer to, and the files
    of the vault. *)
Record World : Type := mkWorld {
  dicts : gmap loc (gmap string pyvalue);
  trackers : gmap loc PropertyChangeTracker.t;
  collections : gmap loc (list Note);
  _notes : loc;
  _current_note : option Note;
  _all_changes : list loc;
  _change_tracker : loc;
  disk : gmap string (gmap string pyvalue);
  archive : option (gmap string (gmap string pyvalue));
}.

Definition with_dicts (f : gmap loc (gmap string pyvalue) -> gmap loc (gmap string pyvalue))
    (w : World) : World :=
  mkWorld (f (dicts w)) (trackers w) (collections w) (_notes w) (_current_note w)
    (_all_changes w) (_change_tracker w) (disk w) (archive w).
Definition with_trackers
    (f : gmap loc PropertyChangeTracker.t -> gmap loc PropertyChangeTracker.t)
    (w : World) : World :=
  mkWorld (dicts w) (f (trackers w)) (collections w) (_notes w) (_current_note w)
    (_all_changes w) (_change_tracker w) (disk w) (archive w).
Definition with_collections (f : gmap loc (list Note) -> gmap loc (list Note))
    (w : World) : World :=
  mkWorld (dicts w) (trackers w) (f (collections w)) (_notes w) (_current_note w)
    (_all_changes w) (_change_tracker w) (disk w) (archive w).
Definition with_current_note (n : option Note) (w : World) : World :=
  mkWorld (dicts w) (trackers w) (collections w) (_notes w) n
    (_all_changes w) (_change_tracker w) (disk w) (archive w).
Definition with_all_changes (f : list loc -> list loc) (w : World) : World :=
  mkWorld (dicts w) (trackers w) (collections w) (_notes w) (_current_note w)
    (f (_all_changes w)) (_change_tracker w) (disk w) (archive w).
Definition with_change_tracker (t : loc) (w : World) : World :=
  mkWorld (dicts w) (trackers w) (collections w) (_notes w) (_current_note w)
    (_all_changes w) t (disk w) (archive w).
Definition with_disk
    (f : gmap string (gmap string pyvalue) -> gmap string (gmap string pyvalue))
    (w : World) : World :=
  mkWorld (dicts w) (trackers w) (collections w) (_notes w) (_current_note w)
    (_all_changes w) (_change_tracker w) (f (disk w)) (archive w).
Definition with_archive (a : option (gmap string (gmap string pyvalue)))
    (w : World) : World :=
  mkWorld (dicts w) (trackers w) (collections w) (_notes w) (_current_note w)
    (_all_changes w) (_change_tracker w) (disk w) a.

(** *** State, exceptions and output *)

Definition M (A : Type) : Type := World -> outcome A * World * list event.

Definition ret {A} (a : A) : M A := fun w => (Ret a, w, []).
Definition raise {A} (e : exn) : M A := fun w => (Raise e, w, []).
Definition bind {A B} (m : M A) (k : A -> M B) : M B := fun w =>
  match m w with
  | (Ret a, w1, l1) => let '(o, w2, l2) := k a w1 in (o, w2, l1 ++ l2)
  | (Raise e, w1, l1) => (Raise e, w1, l1)
  end.
Definition gets {A} (f : World -> A) : M A := fun w => (Ret (f w), w, []).
Definition modify (f : World -> World) : M unit := fun w => (Ret tt, f w, []).
Definition emit (e : event) : M unit := fun w => (Ret tt, w, [e]).
Definition lift {A} (o : outcome A) : M A := fun w => (o, w, []).
Definition attr {A} (o : option A) : M A :=
  match o with Some a => ret a | None => raise AttributeError end.

Notation "x <- m ;; k" := (bind m (fun x => k))
  (at level 100, m at next level, right associativity).
Notation "m ;;; k" := (bind m (fun _ => k))
  (at level 100, right associativity).

Fixpoint for_each {A} (l : list A) (body : A -> M unit) : M unit :=
  match l with
  | [] => ret tt
  | x :: l' => body x ;;; for_each l' body
  end.

Definition world_of {A} (r : outcome A * World * list event) : World := snd (fst r).
Definition result_of {A} (r : outcome A * World * list event) : outcome A := fst (fst r).
Definition log_of {A} (r : outcome A * World * list event) : list event := snd r.

(** *** Objects *)

Definition alloc_dict (m : gmap string pyvalue) : M loc :=
  l <- gets (fun w => fresh (dom (dicts w))) ;;
  modify (with_dicts <[l := m]>) ;;;
  ret l.

(** [deepcopy(m)]: a new mapping object with the same content. *)
Definition deepcopy (l : loc) : M loc :=
  m <- gets (fun w => dicts w !! l) ;;
  m <- attr m ;;
  alloc_dict m.

Definition alloc_tracker (t : PropertyChangeTracker.t) : M loc :=
  l <- gets (fun w => fresh (dom (trackers w))) ;;
  modify (with_trackers <[l := t]>) ;;;
  ret l.

(** A method call on [self._change_tracker] that updates the tracker. *)
Definition on_change_tracker (f : PropertyChangeTracker.t -> PropertyChangeTracker.t) : M unit :=
  l <- gets _change_tracker ;;
  t <- gets (fun w => trackers w !! l) ;;
  t <- attr t ;;
  modify (with_trackers <[l := f t]>).

(** The live mapping of [self._current_note]. *)
Definition current_metadata : M (loc * gmap string pyvalue) :=
  n <- gets _current_note ;;
  n <- attr n ;;
  m <- gets (fun w => dicts w !! metadata n) ;;
  m <- attr m ;;
  ret (metadata n, m).

Definition metadata_has (k : string) : M bool :=
  lm <- current_metadata ;;
  ret (has k (snd lm)).
Definition metadata_get (k : string) : M pyvalue :=
  lm <- current_metadata ;;
  ret (get k (snd lm)).
Definition metadata_add (k : string) (v : pyvalue) (meta_type : MetadataType) : M unit :=
  lm <- current_metadata ;;
  modify (with_dicts <[fst lm := add k v meta_type (snd lm)]>).
Definition metadata_remove (k : string) : M unit :=
  lm <- current_metadata ;;
  modify (with_dicts <[fst lm := remove k (snd lm)]>).

(** *** Operations on the current note *)

Definition _rename_property (old_property new_property : string) : M unit :=
  present <- metadata_has old_property ;;
  if (present : bool) then
    value <- metadata_get old_property ;;
    metadata_add new_property value FRONTMATTER ;;;
    metadata_remove old_property ;;;
    on_change_tracker
      (PropertyChangeTracker.add_change "rename" (Some old_property) (Some new_property)
         value value)
  else
    on_change_tracker
      (PropertyChangeTracker.add_log ("Property '" +:+ old_property +:+ "' not found.")).

Definition _add_property (prop : string) (value : pyvalue) : M unit :=
  present <- metadata_has prop ;;
  if negb present then
    metadata_add prop value FRONTMATTER ;;;
    on_change_tracker
      (PropertyChangeTracker.add_change "add" None (Some prop) VNone value)
  else
    on_change_tracker
      (PropertyChangeTracker.add_log ("Property '" +:+ prop +:+ "' already exists.")).

Definition _remove_property (prop : string) : M unit :=
  present <- metadata_has prop ;;
  if (present : bool) then
    metadata_remove prop ;;;
    on_change_tracker
      (PropertyChangeTracker.add_change "remove" (Some prop) None VNone VNone)
  else
    on_change_tracker
      (PropertyChangeTracker.add_log ("Property '" +:+ prop +:+ "' not found.")).

(** Modelled from the spec: the document-metadata interface of
    [src/library/metadata.py], which is not part of the sources, is stated
    for property names, and property names are strings (the three methods
    above are annotated with [str]).  [_process_properties] hands on what
    the entry holds under [old] and [new] without a test of its own; for a
    value that is not a string the embedding ends the operation with
    [TypeError] at the point where the collaborator would be entered.  What
    is proved about how an entry goes on from there is stated for entries
    with string names. *)
Definition as_name (v : pyvalue) : M string :=
  match v with
  | VStr s => ret s
  | _ => raise TypeError
  end.

(** The body of the loop of [_process_properties]. *)
Definition process_property (prop : pyvalue) : M unit :=
  action <- lift (py_get prop "action" VNone) ;;
  if py_eq action (VStr "add") then
    new <- lift (py_get prop "new" VNone) ;;
    dflt <- lift (py_get prop "default" VNone) ;;
    new <- as_name new ;;
    _add_property new dflt
  else if py_eq action (VStr "rename") then
    old <- lift (py_get prop "old" VNone) ;;
    new <- lift (py_get prop "new" VNone) ;;
    old <- as_name old ;;
    new <- as_name new ;;
    _rename_property old new
  else if py_eq action (VStr "remove") then
    old <- lift (py_get prop "old" VNone) ;;
    old <- as_name old ;;
    _remove_property old
  else ret tt.

Definition _process_properties (properties : pyvalue) : M unit :=
  props <- lift (py_iter properties) ;;
  for_each props process_property.

(** Modelled from the spec: a note meets the criteria of [Notes.filter]
    ([src/library/note.py], not part of the sources) when its front-matter
    meets each of them. *)
Definition note_matches (ds : gmap loc (gmap string pyvalue))
    (meta_data : list (string * pyvalue * option MetadataType)) (n : Note) : bool :=
  match ds !! metadata n with
  | Some m => forallb (fun crit => has_meta crit m) meta_data
  | None => false
  end.

(** Modelled from the spec: [Notes.filter(has_meta=...)].  The processor
    ignores what the call returns and goes on with the object it called it
    on, so the call keeps, in the collection object itself, the notes that
    meet the criteria. *)
Definition notes_filter (c : loc) (meta_data : list (string * pyvalue * option MetadataType)) : M unit :=
  ns <- gets (fun w => collections w !! c) ;;
  ns <- attr ns ;;
  ds <- gets dicts ;;
  modify (with_collections
    <[c := filter (fun n => note_matches ds meta_data n = true) ns]>).

Definition _get_filtered_notes (meta_data : list (string * pyvalue * option MetadataType)) : M loc :=
  notes <- gets _notes ;;
  notes_filter notes meta_data ;;;
  ret notes.

(** *** The run *)

(** The loop body of [run] for one note of the selection. *)
Definition process_note (properties : pyvalue) (note : Note) : M unit :=
  modify (with_current_note (Some note)) ;;;
  e1 <- alloc_dict ∅ ;;
  e2 <- alloc_dict ∅ ;;
  t <- alloc_tracker (PropertyChangeTracker.__init__ (path note) e1 e2) ;;
  modify (with_change_tracker t) ;;;
  old <- deepcopy (metadata note) ;;
  on_change_tracker (PropertyChangeTracker.set_old_frontmatter old) ;;;
  _process_properties properties ;;;
  lm <- current_metadata ;;
  new <- deepcopy (fst lm) ;;
  on_change_tracker (PropertyChangeTracker.set_new_frontmatter new) ;;;
  t <- gets _change_tracker ;;
  modify (with_all_changes (fun cs => cs ++ [t])).

(** The loop body of [run] for one yielded pair.  For a selection without
    notes the inner loop has nothing to visit, whichever way the test
    [if not notes] on the collection object goes. *)
Definition rule (tag properties : pyvalue) : M unit :=
  if negb (truthy tag) || negb (truthy properties) then ret tt
  else
    notes <- _get_filtered_notes [("tags", tag, None)] ;;
    ns <- gets (fun w => collections w !! notes) ;;
    ns <- attr ns ;;
    for_each ns (process_note properties).

(** The [for] loop of [run] drives the generator: what the generator
    prints before a pair is printed before that pair is processed. *)
Fixpoint run_items (items : list gen_item) : M unit :=
  match items with
  | [] => ret tt
  | GPrint d :: rest => emit (EvDiag d) ;;; run_items rest
  | GYield tag properties :: rest => rule tag properties ;;; run_items rest
  end.

Definition run_loop (g : generator) : M unit :=
  run_items (fst g) ;;;
  match snd g with
  | Some e => raise e
  | None => ret tt
  end.

(** What the operator and the file system do during [_finish]: [input]
    returns or raises, [shutil.make_archive] returns or raises.  The archive
    is a file beside the vault, at the same path in every run, and
    [make_archive] opens it for writing before it reads the vault: a call
    that raises leaves there what it got to (the earlier archive, an empty or
    a partial one), which [left_by_failure] gives from what was there. *)
Record Env : Type := mkEnv {
  on_input : option exn;
  on_make_archive : option exn;
  left_by_failure :
    option (gmap string (gmap string pyvalue)) -> option (gmap string (gmap string pyvalue));
}.

Definition show_summaries : M unit :=
  cs <- gets _all_changes ;;
  for_each cs (fun l =>
    t <- gets (fun w => trackers w !! l) ;;
    t <- attr t ;;
    old <- gets (fun w => dicts w !! PropertyChangeTracker._old_frontmatter t) ;;
    old <- attr old ;;
    new <- gets (fun w => dicts w !! PropertyChangeTracker._new_frontmatter t) ;;
    new <- attr new ;;
    emit (EvSummary (PropertyChangeTracker.show_summary t old new))).

Definition _backup_vault (env : Env) : M unit :=
  match on_make_archive env with
  | None =>
      emit (EvMakeArchive None) ;;;
      modify (fun w => with_archive (Some (disk w)) w) ;;;
      emit EvBackupCreated
  | Some e =>
      emit (EvMakeArchive (Some e)) ;;;
      modify (fun w => with_archive (left_by_failure env (archive w)) w) ;;;
      if is_Exception e then
        emit (EvBackupError e) ;;;
        raise (SystemExit (-1))
      else raise e
  end.

(** Modelled from the spec: [Notes.update_content] and [Notes.write] of
    [src/library/note.py], which materialize the in-memory front-matter of
    the notes of the collection and write it to their files. *)
Definition notes_update_content (c : loc) : M unit :=
  emit EvUpdateContent.
(** Modelled from the spec: [Notes.write], see above. *)
Definition notes_write (c : loc) : M unit :=
  emit EvWrite ;;;
  ns <- gets (fun w => collections w !! c) ;;
  ns <- attr ns ;;
  for_each ns (fun n =>
    m <- gets (fun w => dicts w !! metadata n) ;;
    m <- attr m ;;
    modify (with_disk <[path n := m]>)).

Definition _finish (env : Env) : M unit :=
  show_summaries ;;;
  emit EvPrompt ;;;
  match on_input env with
  | Some KeyboardInterrupt => emit EvCancelled
  | Some e => raise e
  | None =>
      _backup_vault env ;;;
      notes <- gets _notes ;;
      notes_update_content notes ;;;
      notes_write notes ;;;
      emit EvSaved
  end.

Definition run (env : Env) (yaml : pyvalue) : M unit :=
  run_loop (get_next_tag yaml) ;;;
  _finish env.

(** Modelled from the spec: [Notes(vault_path)] of [src/library/note.py]
    reads every document of the vault into a note with its own front-matter
    mapping. *)
Fixpoint load_notes (files : list (string * gmap string pyvalue))
    (ds : gmap loc (gmap string pyvalue)) : list Note * gmap loc (gmap string pyvalue) :=
  match files with
  | [] => ([], ds)
  | (p, m) :: rest =>
      let l := fresh (dom ds) in
      let '(ns, ds') := load_notes rest (<[l := m]> ds) in
      (mkNote p l :: ns, ds')
  end.

(** The processor over a vault with the given documents. *)
Definition __init__ (files : list (string * gmap string pyvalue)) : World :=
  let '(ns, ds) := load_notes files ∅ in
  let e1 := fresh (dom ds) in
  let ds1 := <[e1 := ∅]> ds in
  let e2 := fresh (dom ds1) in
  mkWorld (<[e2 := ∅]> ds1) {[0 := PropertyChangeTracker.__init__ "" e1 e2]}
    {[0 := ns]} 0 None [] 0 (list_to_map files) None.

End PropertyProcessor.

(** ** Sample data *)

Module Sample.

Import ConfigManager PropertyProcessor.

(** The end-to-end scenario of the specification: one document tagged
    [draft], one document without front-matter. *)
Definition vault : list (string * gmap string pyvalue) :=
  [("a.md", {["tags" := VList [VStr "draft"]; "status" := VStr "todo"]});
   ("b.md", ∅)].

Definition rename_status : pyvalue :=
  VDict [("action", VStr "rename"); ("old", VStr "status"); ("new", VStr "state")].

Definition config : pyvalue :=
  VDict [("tags", VList [VDict [("tag", VStr "draft");
                                ("properties", VList [rename_status])]])].

(** A vault with one document per tag. *)
Definition two_tags : list (string * gmap string pyvalue) :=
  [("a.md", {["tags" := VList [VStr "draft"]; "status" := VStr "todo"]});
   ("c.md", {["tags" := VList [VStr "review"]; "status" := VStr "done"]})].

Definition draft_rule : list gen_item :=
  [GYield (VStr "draft") (VList [rename_status])].

Definition note_a : Note := mkNote "a.md" 0.

Definition frontmatter_a : gmap string pyvalue :=
  {["tags" := VList [VStr "draft"]; "status" := VStr "todo"]}.

(** The processor while it visits [a.md]. *)
Definition visiting_a : World :=
  with_current_note (Some note_a) (__init__ vault).

Definition confirm : Env := mkEnv None None id.
Definition cancel : Env := mkEnv (Some KeyboardInterrupt) None id.
(** [make_archive] raises after it has emptied the archive file. *)
Definition archive_fails : Env := mkEnv None (Some OSError) (fun _ => Some ∅).

End Sample.

(** ** Notions used to state the properties *)

Module Notions.

Import ConfigManager PropertyProcessor.

(** The notes of the processor's collection object. *)
Definition coll (w : World) : list Note :=
  default [] (collections w !! _notes w).

Definition is_persistence (e : event) : bool :=
  match e with
  | EvUpdateContent | EvWrite => true
  | _ => false
  end.

Definition is_diag (e : event) : bool :=
  match e with
  | EvDiag _ => true
  | _ => false
  end.

Definition is_summary (e : event) : bool :=
  match e with
  | EvSummary _ => true
  | _ => false
  end.

Definition is_make_archive (e : event) : bool :=
  match e with
  | EvMakeArchive _ => true
  | _ => false
  end.

(** Console output of the loop of [run] and of the summaries. *)
Definition is_console (e : event) : bool := is_diag e || is_summary e.

(** No persistence event of the log comes before the event of a
    [make_archive] that returned. *)
Fixpoint backup_before_persistence (backed_up : bool) (log : list event) : bool :=
  match log with
  | [] => true
  | EvMakeArchive None :: log' => backup_before_persistence true log'
  | e :: log' =>
      (negb (is_persistence e) || backed_up) && backup_before_persistence backed_up log'
  end.

(** A computation keeps a relation between the state before and after it,
    and prints only events of one kind. *)
Definition keeps {A} (R : World -> World -> Prop) (L : event -> bool) (m : M A) : Prop :=
  forall w, R w (world_of (m w)) /\ forallb L (log_of (m w)) = true.

(** What the loop of [run] leaves alone: the files and the archive, and
    which object is the collection; the collection itself only loses
    notes. *)
Definition run_frame (w w' : World) : Prop :=
  disk w' = disk w /\ archive w' = archive w /\ _notes w' = _notes w /\
  coll w' `sublist_of` coll w.

(** What visiting a note leaves alone. *)
Definition note_frame (w w' : World) : Prop :=
  disk w' = disk w /\ archive w' = archive w /\ _notes w' = _notes w /\
  collections w' = collections w.

(** Writing touches the files of the notes of the collection it is given,
    and nothing else. *)
Definition writes_within (ns : list Note) (w w' : World) : Prop :=
  archive w' = archive w /\ dicts w' = dicts w /\ collections w' = collections w /\
  _notes w' = _notes w /\
  (forall p, (forall n, In n ns -> path n <> p) -> disk w' !! p = disk w !! p) /\
  trackers w' = trackers w /\ _all_changes w' = _all_changes w.

(** What the operations on the current note leave alone: they update the
    mapping of the current note and the changes and logs of the current
    tracker, and no object disappears. *)
Definition ops_frame (w w' : World) : Prop :=
  _current_note w' = _current_note w /\
  _change_tracker w' = _change_tracker w /\
  _all_changes w' = _all_changes w /\
  collections w' = collections w /\
  _notes w' = _notes w /\
  (forall l, (forall n, _current_note w = Some n -> metadata n <> l) ->
     dicts w' !! l = dicts w !! l) /\
  (forall l, is_Some (dicts w !! l) -> is_Some (dicts w' !! l)) /\
  (forall l t, trackers w !! l = Some t ->
     exists t', trackers w' !! l = Some t' /\
       PropertyChangeTracker._filename t' = PropertyChangeTracker._filename t /\
       PropertyChangeTracker._old_frontmatter t' = PropertyChangeTracker._old_frontmatter t /\
       PropertyChangeTracker._new_frontmatter t' = PropertyChangeTracker._new_frontmatter t /\
       (l <> _change_tracker w -> t' = t)).

(** The notes of the collection have a mapping, and the trackers of the
    session refer to mappings that exist and that no note of the collection
    has as its own. *)
Definition session_sound (w : World) : Prop :=
  (forall n, In n (coll w) -> is_Some (dicts w !! metadata n)) /\
  (forall tl, In tl (_all_changes w) ->
     exists t, trackers w !! tl = Some t /\
       is_Some (dicts w !! PropertyChangeTracker._old_frontmatter t) /\
       is_Some (dicts w !! PropertyChangeTracker._new_frontmatter t) /\
       forall n, In n (coll w) ->
         metadata n <> PropertyChangeTracker._old_frontmatter t /\
         metadata n <> PropertyChangeTracker._new_frontmatter t).

(** The session only grows, and the trackers it had, with the mappings they
    refer to, are as they were. *)
Definition session_kept (w w' : World) : Prop :=
  (exists more, _all_changes w' = _all_changes w ++ more) /\
  (forall tl, In tl (_all_changes w) ->
     trackers w' !! tl = trackers w !! tl /\
     forall t, trackers w !! tl = Some t ->
       dicts w' !! PropertyChangeTracker._old_frontmatter t
         = dicts w !! PropertyChangeTracker._old_frontmatter t /\
       dicts w' !! PropertyChangeTracker._new_frontmatter t
         = dicts w !! PropertyChangeTracker._new_frontmatter t).

(** Computations that print nothing. *)
Definition silent : event -> bool := fun _ => false.

(** The criterion of a rule for a tag. *)
Definition tag_criterion (tag : pyvalue) : list (string * pyvalue * option MetadataType) :=
  [("tags", tag, None)].

End Notions.

(** ** The prompt loop of [main.py] *)

Module Main.



End Main.

(** ** Further notions *)

Module Validity.

Import ConfigManager PropertyProcessor.

(** [v.get(k)] on a mapping. *)
Definition field (k : string) (v : pyvalue) : pyvalue :=
  match v with
  | VDict d => default VNone (assoc k d)
  | _ => VNone
  end.

(** The four tests of [_validate_properties], as one test on an entry. *)
Definition valid_property (prop : pyvalue) : bool :=
  truthy (field "action" prop) &&
  negb (py_in (field "action" prop) [VStr "rename"; VStr "remove"] &&
        negb (truthy (field "old" prop))) &&
  negb (py_in (field "action" prop) [VStr "rename"; VStr "add"] &&
        negb (truthy (field "new" prop))) &&
  negb (py_eq (field "new" prop) (field "old" prop)).

(** The three tests of [_validate_tag], as one test on a tag entry. *)
Definition valid_tag (tag : pyvalue) : bool :=
  truthy (field "tag" tag) &&
  match field "properties" tag with
  | VList l => forallb is_dict l
  | _ => false
  end.

Definition properties_of (tag : pyvalue) : list pyvalue :=
  match field "properties" tag with
  | VList l => l
  | _ => []
  end.

(** The pair a valid tag entry gives rise to. *)
Definition rule_of (tag : pyvalue) : pyvalue * pyvalue :=
  (field "tag" tag, VList (List.filter valid_property (properties_of tag))).

Definition is_str (v : pyvalue) : bool :=
  match v with VStr _ => true | _ => false end.

(** Entries whose property names, as far as their action reads them, are
    strings, as the annotations of the three operations ask. *)
Definition well_typed (prop : pyvalue) : bool :=
  is_dict prop &&
  if py_eq (field "action" prop) (VStr "add") then is_str (field "new" prop)
  else if py_eq (field "action" prop) (VStr "rename") then
    is_str (field "old" prop) && is_str (field "new" prop)
  else if py_eq (field "action" prop) (VStr "remove") then is_str (field "old" prop)
  else true.

(** Entries that [_process_properties] hands to one of the three
    operations. *)
Definition dispatched (prop : pyvalue) : bool :=
  py_eq (field "action" prop) (VStr "add") ||
  py_eq (field "action" prop) (VStr "rename") ||
  py_eq (field "action" prop) (VStr "remove").

(** The processor has a current note with a mapping and a current
    tracker. *)
Definition ready (w : World) : Prop :=
  exists n m t,
    _current_note w = Some n /\ dicts w !! metadata n = Some m /\
    trackers w !! _change_tracker w = Some t.

(** The changes and the logs of the current tracker. *)
Definition current_changes (w : World) : list PropertyChangeTracker.change :=
  match trackers w !! _change_tracker w with
  | Some t => PropertyChangeTracker._changes t
  | None => []
  end.
Definition current_logs (w : World) : list string :=
  match trackers w !! _change_tracker w with
  | Some t => PropertyChangeTracker._logs t
  | None => []
  end.

(** The summary of the tracker at a location, when the tracker and its two
    snapshots exist. *)
Definition summary_at (w : World) (tl : loc) : option event :=
  t ← trackers w !! tl;
  old ← dicts w !! PropertyChangeTracker._old_frontmatter t;
  new ← dicts w !! PropertyChangeTracker._new_frontmatter t;
  Some (EvSummary (PropertyChangeTracker.show_summary t old new)).

End Validity.

(** ** More sample data *)

Module MoreSamples.

Definition nameless_tag : pyvalue := VDict [("properties", VList [])].

Definition draft_tag : pyvalue :=
  VDict [("tag", VStr "draft"); ("properties", VList [Sample.rename_status])].

(** A configuration with a tag entry without a name before a good one. *)
Definition mixed_tags : list pyvalue := [nameless_tag; draft_tag].
Definition mixed_config : list (string * pyvalue) := [("tags", VList mixed_tags)].

(** A configuration whose [tags] key is present and empty. *)
Definition null_tags : list (string * pyvalue) := [("tags", VNone)].

(** A configuration with a tag entry that is not a mapping after a good
    one. *)
Definition broken_config : pyvalue :=
  VDict [("tags", VList [draft_tag; VStr "draft"])].

(** A rename, a remove of a property no note has, and an entry with an
    action the processor does not know. *)
Definition three_ops : list pyvalue :=
  [Sample.rename_status; VDict [("action", VStr "remove"); ("old", VStr "x")];
   VDict [("action", VStr "move")]].

(** A second rename, of the property the sample rule has produced. *)
Definition rename_state : pyvalue :=
  VDict [("action", VStr "rename"); ("old", VStr "state"); ("new", VStr "phase")].

(** The processor after the rule for [draft] of the sample configuration:
    the session holds the tracker of [a.md], and [a.md] is still in the
    collection. *)
Definition after_draft : PropertyProcessor.World :=
  PropertyProcessor.world_of
    (PropertyProcessor.run_items Sample.draft_rule (PropertyProcessor.__init__ Sample.vault)).


(** An entry with an action the processor does not know, and a tag entry
    that holds it after the sample rename. *)
Definition move_entry : list (string * pyvalue) :=
  [("action", VStr "move"); ("old", VStr "a")].
Definition draft_with_move : list (string * pyvalue) :=
  [("tag", VStr "draft"); ("properties", VList [Sample.rename_status; VDict move_entry])].

End MoreSamples.

(** * Properties *)

Import ConfigManager PropertyProcessor Notions Validity.

(** ** Evaluation of the sequencing operators *)

Lemma bind_ret_l {A B} (m : M A) (k : A -> M B) w a w1 l1 :
  m w = (Ret a, w1, l1) ->
  bind m k w = (let '(o, w2, l2) := k a w1 in (o, w2, l1 ++ l2)).
Proof. intros H. unfold bind. by rewrite H. Qed.

Lemma bind_raise_l {A B} (m : M A) (k : A -> M B) w e w1 l1 :
  m w = (Raise e, w1, l1) ->
  bind m k w = (Raise e, w1, l1).
Proof. intros H. unfold bind. by rewrite H. Qed.

Lemma current_metadata_live w n m :
  _current_note w = Some n ->
  dicts w !! metadata n = Some m ->
  current_metadata w = (Ret (metadata n, m), w, []).
Proof.
  intros Hn Hm. unfold current_metadata, bind, gets, attr. simpl.
  rewrite Hn. simpl. rewrite Hm. reflexivity.
Qed.

Lemma on_change_tracker_live w t f :
  trackers w !! _change_tracker w = Some t ->
  on_change_tracker f w = (Ret tt, with_trackers <[_change_tracker w := f t]> w, []).
Proof.
  intros Ht. unfold on_change_tracker, bind, gets, attr, modify. simpl.
  rewrite Ht. reflexivity.
Qed.

Lemma metadata_has_live w n m k :
  _current_note w = Some n ->
  dicts w !! metadata n = Some m ->
  metadata_has k w = (Ret (has k m), w, []).
Proof.
  intros Hn Hm. unfold metadata_has.
  rewrite (bind_ret_l _ _ _ _ _ _ (current_metadata_live _ _ _ Hn Hm)). reflexivity.
Qed.

Lemma metadata_get_live w n m k :
  _current_note w = Some n ->
  dicts w !! metadata n = Some m ->
  metadata_get k w = (Ret (get k m), w, []).
Proof.
  intros Hn Hm. unfold metadata_get.
  rewrite (bind_ret_l _ _ _ _ _ _ (current_metadata_live _ _ _ Hn Hm)). reflexivity.
Qed.

Lemma metadata_add_live w n m k v ty :
  _current_note w = Some n ->
  dicts w !! metadata n = Some m ->
  metadata_add k v ty w = (Ret tt, with_dicts <[metadata n := add k v ty m]> w, []).
Proof.
  intros Hn Hm. unfold metadata_add.
  rewrite (bind_ret_l _ _ _ _ _ _ (current_metadata_live _ _ _ Hn Hm)). reflexivity.
Qed.

Lemma metadata_remove_live w n m k :
  _current_note w = Some n ->
  dicts w !! metadata n = Some m ->
  metadata_remove k w = (Ret tt, with_dicts <[metadata n := remove k m]> w, []).
Proof.
  intros Hn Hm. unfold metadata_remove.
  rewrite (bind_ret_l _ _ _ _ _ _ (current_metadata_live _ _ _ Hn Hm)). reflexivity.
Qed.

Lemma has_true k (m : gmap string pyvalue) v : m !! k = Some v -> has k m = true.
Proof. intros H. unfold has. apply bool_decide_eq_true. eauto. Qed.

Lemma has_false k (m : gmap string pyvalue) : m !! k = None -> has k m = false.
Proof.
  intros H. unfold has. apply bool_decide_eq_false. rewrite H. by intros [? ?].
Qed.

(** ** The three operations *)

Lemma rename_present w n m t old new v :
  _current_note w = Some n ->
  dicts w !! metadata n = Some m ->
  trackers w !! _change_tracker w = Some t ->
  m !! old = Some v ->
  _rename_property old new w =
    (Ret tt,
     with_trackers
       <[_change_tracker w :=
           PropertyChangeTracker.add_change "rename" (Some old) (Some new) v v t]>
       (with_dicts <[metadata n := delete old (<[new := v]> m)]> w),
     []).
Proof.
  intros Hn Hm Ht Hv. unfold _rename_property.
  rewrite (bind_ret_l _ _ _ _ _ _ (metadata_has_live _ _ _ old Hn Hm)).
  rewrite (has_true _ _ _ Hv).
  rewrite (bind_ret_l _ _ _ _ _ _ (metadata_get_live _ _ _ old Hn Hm)).
  rewrite (bind_ret_l _ _ _ _ _ _ (metadata_add_live _ _ _ new (get old m) FRONTMATTER Hn Hm)).
  set (w1 := with_dicts _ w).
  assert (Hm1 : dicts w1 !! metadata n = Some (add new (get old m) FRONTMATTER m))
    by (subst w1; simpl; apply lookup_insert_eq).
  rewrite (bind_ret_l _ _ _ _ _ _ (metadata_remove_live w1 _ _ old Hn Hm1)).
  set (w2 := with_dicts _ w1).
  assert (Ht2 : trackers w2 !! _change_tracker w2 = Some t) by exact Ht.
  rewrite (on_change_tracker_live _ _ _ Ht2).
  subst w2 w1. unfold with_dicts, with_trackers, add, remove, get. simpl.
  rewrite insert_insert_eq, Hv. reflexivity.
Qed.

Lemma rename_absent w n m t old new :
  _current_note w = Some n ->
  dicts w !! metadata n = Some m ->
  trackers w !! _change_tracker w = Some t ->
  m !! old = None ->
  _rename_property old new w =
    (Ret tt,
     with_trackers
       <[_change_tracker w :=
           PropertyChangeTracker.add_log ("Property '" +:+ old +:+ "' not found.") t]> w,
     []).
Proof.
  intros Hn Hm Ht Hv. unfold _rename_property.
  rewrite (bind_ret_l _ _ _ _ _ _ (metadata_has_live _ _ _ old Hn Hm)).
  rewrite (has_false _ _ Hv).
  rewrite (on_change_tracker_live _ _ _ Ht). reflexivity.
Qed.

Lemma add_absent w n m t prop value :
  _current_note w = Some n ->
  dicts w !! metadata n = Some m ->
  trackers w !! _change_tracker w = Some t ->
  m !! prop = None ->
  _add_property prop value w =
    (Ret tt,
     with_trackers
       <[_change_tracker w :=
           PropertyChangeTracker.add_change "add" None (Some prop) VNone value t]>
       (with_dicts <[metadata n := <[prop := value]> m]> w),
     []).
Proof.
  intros Hn Hm Ht Hv. unfold _add_property.
  rewrite (bind_ret_l _ _ _ _ _ _ (metadata_has_live _ _ _ prop Hn Hm)).
  rewrite (has_false _ _ Hv). simpl.
  rewrite (bind_ret_l _ _ _ _ _ _ (metadata_add_live _ _ _ prop value FRONTMATTER Hn Hm)).
  set (w1 := with_dicts _ w).
  assert (Ht1 : trackers w1 !! _change_tracker w1 = Some t) by exact Ht.
  rewrite (on_change_tracker_live _ _ _ Ht1). reflexivity.
Qed.

Lemma add_present w n m t prop value v :
  _current_note w = Some n ->
  dicts w !! metadata n = Some m ->
  trackers w !! _change_tracker w = Some t ->
  m !! prop = Some v ->
  _add_property prop value w =
    (Ret tt,
     with_trackers
       <[_change_tracker w :=
           PropertyChangeTracker.add_log ("Property '" +:+ prop +:+ "' already exists.") t]> w,
     []).
Proof.
  intros Hn Hm Ht Hv. unfold _add_property.
  rewrite (bind_ret_l _ _ _ _ _ _ (metadata_has_live _ _ _ prop Hn Hm)).
  rewrite (has_true _ _ _ Hv). simpl.
  rewrite (on_change_tracker_live _ _ _ Ht). reflexivity.
Qed.

(** C3. Applying [rename(old_property, new_property)] to a document: when
    [old_property] is present, its value is written under [new_property]
    (whatever was there before, without any test of it), [old_property] is
    deleted, and exactly one change record is appended that carries the value
    both as old and as new value; when it is absent, the metadata is left as
    it was and exactly one log entry "Property '...' not found." is appended,
    with no change record. *)
Theorem rename_property_effect (w : World) (n : Note) (m : gmap string pyvalue)
    (t : PropertyChangeTracker.t) (old_property new_property : string) :
  _current_note w = Some n ->
  dicts w !! metadata n = Some m ->
  trackers w !! _change_tracker w = Some t ->
  let r := _rename_property old_property new_property w in
  result_of r = Ret tt /\ log_of r = [] /\
  match m !! old_property with
  | Some value =>
      dicts (world_of r)
        = <[metadata n := delete old_property (<[new_property := value]> m)]> (dicts w) /\
      (old_property <> new_property ->
         delete old_property (<[new_property := value]> m) !! new_property = Some value) /\
      delete old_property (<[new_property := value]> m) !! old_property = None /\
      (forall k, k <> old_property -> k <> new_property ->
         delete old_property (<[new_property := value]> m) !! k = m !! k) /\
      trackers (world_of r)
        = <[_change_tracker w :=
              PropertyChangeTracker.Tracker
                (PropertyChangeTracker._filename t)
                (PropertyChangeTracker._old_frontmatter t)
                (PropertyChangeTracker._new_frontmatter t)
                (PropertyChangeTracker._changes t ++
                   [PropertyChangeTracker.Change "rename" (Some old_property)
                      (Some new_property) value value])
                (PropertyChangeTracker._logs t)]> (trackers w)
  | None =>
      dicts (world_of r) = dicts w /\
      trackers (world_of r)
        = <[_change_tracker w :=
              PropertyChangeTracker.Tracker
                (PropertyChangeTracker._filename t)
                (PropertyChangeTracker._old_frontmatter t)
                (PropertyChangeTracker._new_frontmatter t)
                (PropertyChangeTracker._changes t)
                (PropertyChangeTracker._logs t ++
                   ["Property '" +:+ old_property +:+ "' not found."])]> (trackers w)
  end.
Proof.
  intros Hn Hm Ht r. subst r.
  destruct (m !! old_property) as [value|] eqn:Hv.
  - rewrite (rename_present _ _ _ _ _ new_property _ Hn Hm Ht Hv).
    repeat split.
    + intros Hne. rewrite lookup_delete_ne by congruence. apply lookup_insert_eq.
    + apply lookup_delete_eq.
    + intros k Hk1 Hk2. rewrite lookup_delete_ne by congruence.
      apply lookup_insert_ne. congruence.
  - rewrite (rename_absent _ _ _ _ _ new_property Hn Hm Ht Hv).
    repeat split.
Qed.

Lemma rename_property_effect_witness :
  (_current_note Sample.visiting_a = Some Sample.note_a /\
   dicts Sample.visiting_a !! metadata Sample.note_a = Some Sample.frontmatter_a /\
   trackers Sample.visiting_a !! _change_tracker Sample.visiting_a
     = Some (PropertyChangeTracker.__init__ "" 2 3)) /\
  dicts (world_of (_rename_property "status" "state" Sample.visiting_a)) !! 0
    = Some {["tags" := VList [VStr "draft"]; "state" := VStr "todo"]}.
Proof.
  assert (H1 : _current_note Sample.visiting_a = Some Sample.note_a) by reflexivity.
  assert (H2 : dicts Sample.visiting_a !! metadata Sample.note_a = Some Sample.frontmatter_a)
    by (vm_compute; reflexivity).
  assert (H3 : trackers Sample.visiting_a !! _change_tracker Sample.visiting_a
               = Some (PropertyChangeTracker.__init__ "" 2 3))
    by (vm_compute; reflexivity).
  split; [auto|].
  destruct (rename_property_effect _ _ _ _ "status" "state" H1 H2 H3) as (_ & _ & H).
  change (Sample.frontmatter_a !! "status") with (Some (VStr "todo")) in H.
  destruct H as (-> & _). vm_compute. reflexivity.
Defined.

Lemma process_property_add d new w :
  assoc "action" d = Some (VStr "add") ->
  assoc "new" d = Some (VStr new) ->
  process_property (VDict d) w
    = _add_property new (default VNone (assoc "default" d)) w.
Proof.
  intros Ha Hn. unfold process_property, bind, lift, py_get, as_name, ret.
  rewrite Ha, Hn. simpl.
  destruct (_add_property new (default VNone (assoc "default" d)) w) as [[o w'] l].
  reflexivity.
Qed.

(** C4. Applying [add(new_property, default_value)] to a document: when
    [new_property] is absent it is set to the entry's default, which is
    Python's empty value [None] when the entry has no [default] key, and
    exactly one change record is appended; applying the same entry again
    changes nothing and appends a log entry.  When [new_property] is present
    the metadata is left as it was, a log entry "Property '...' already
    exists." is appended, and no change record. *)
Theorem add_property_effect (w : World) (n : Note) (m : gmap string pyvalue)
    (t : PropertyChangeTracker.t) (d : list (string * pyvalue)) (new_property : string) :
  _current_note w = Some n ->
  dicts w !! metadata n = Some m ->
  trackers w !! _change_tracker w = Some t ->
  assoc "action" d = Some (VStr "add") ->
  assoc "new" d = Some (VStr new_property) ->
  let default_value := default VNone (assoc "default" d) in
  let r := process_property (VDict d) w in
  result_of r = Ret tt /\ log_of r = [] /\
  (assoc "default" d = None -> default_value = VNone) /\
  match m !! new_property with
  | None =>
      dicts (world_of r) = <[metadata n := <[new_property := default_value]> m]> (dicts w) /\
      trackers (world_of r)
        = <[_change_tracker w :=
              PropertyChangeTracker.Tracker
                (PropertyChangeTracker._filename t)
                (PropertyChangeTracker._old_frontmatter t)
                (PropertyChangeTracker._new_frontmatter t)
                (PropertyChangeTracker._changes t ++
                   [PropertyChangeTracker.Change "add" None (Some new_property)
                      VNone default_value])
                (PropertyChangeTracker._logs t)]> (trackers w) /\
      let r' := process_property (VDict d) (world_of r) in
      result_of r' = Ret tt /\ log_of r' = [] /\
      dicts (world_of r') = dicts (world_of r) /\
      trackers (world_of r')
        = <[_change_tracker w :=
              PropertyChangeTracker.Tracker
                (PropertyChangeTracker._filename t)
                (PropertyChangeTracker._old_frontmatter t)
                (PropertyChangeTracker._new_frontmatter t)
                (PropertyChangeTracker._changes t ++
                   [PropertyChangeTracker.Change "add" None (Some new_property)
                      VNone default_value])
                (PropertyChangeTracker._logs t ++
                   ["Property '" +:+ new_property +:+ "' already exists."])]> (trackers w)
  | Some _ =>
      dicts (world_of r) = dicts w /\
      trackers (world_of r)
        = <[_change_tracker w :=
              PropertyChangeTracker.Tracker
                (PropertyChangeTracker._filename t)
                (PropertyChangeTracker._old_frontmatter t)
                (PropertyChangeTracker._new_frontmatter t)
                (PropertyChangeTracker._changes t)
                (PropertyChangeTracker._logs t ++
                   ["Property '" +:+ new_property +:+ "' already exists."])]> (trackers w)
  end.
Proof.
  intros Hn Hm Ht Ha Hnew default_value r. subst r.
  rewrite (process_property_add _ _ _ Ha Hnew). fold default_value.
  destruct (m !! new_property) as [v|] eqn:Hv.
  - rewrite (add_present _ _ _ _ _ default_value _ Hn Hm Ht Hv).
    repeat split. intros Hd. subst default_value. by rewrite Hd.
  - rewrite (add_absent _ _ _ _ _ default_value Hn Hm Ht Hv).
    split; [reflexivity|]. split; [reflexivity|].
    split; [intros Hd; subst default_value; by rewrite Hd|].
    split; [reflexivity|]. split; [reflexivity|].
    unfold world_of at 1 2 3. simpl fst. simpl snd.
    set (w1 := with_trackers _ _).
    rewrite (process_property_add _ _ _ Ha Hnew). fold default_value.
    assert (Hn1 : _current_note w1 = Some n) by exact Hn.
    assert (Hm1 : dicts w1 !! metadata n = Some (<[new_property := default_value]> m))
      by (subst w1; simpl; apply lookup_insert_eq).
    assert (Ht1 : trackers w1 !! _change_tracker w1
                  = Some (PropertyChangeTracker.add_change "add" None (Some new_property)
                            VNone default_value t))
      by (subst w1; simpl; apply lookup_insert_eq).
    assert (Hv1 : <[new_property := default_value]> m !! new_property = Some default_value)
      by apply lookup_insert_eq.
    rewrite (add_present _ _ _ _ _ default_value _ Hn1 Hm1 Ht1 Hv1).
    repeat split.
    subst w1. unfold world_of. simpl. apply insert_insert_eq.
Qed.

Lemma add_property_effect_witness :
  (_current_note Sample.visiting_a = Some Sample.note_a /\
   dicts Sample.visiting_a !! metadata Sample.note_a = Some Sample.frontmatter_a /\
   trackers Sample.visiting_a !! _change_tracker Sample.visiting_a
     = Some (PropertyChangeTracker.__init__ "" 2 3) /\
   assoc "action" [("action", VStr "add"); ("new", VStr "owner")] = Some (VStr "add") /\
   assoc "new" [("action", VStr "add"); ("new", VStr "owner")] = Some (VStr "owner")) /\
  dicts (world_of (process_property
                     (VDict [("action", VStr "add"); ("new", VStr "owner")])
                     Sample.visiting_a)) !! 0
    = Some {["tags" := VList [VStr "draft"]; "status" := VStr "todo"; "owner" := VNone]}.
Proof.
  assert (H1 : _current_note Sample.visiting_a = Some Sample.note_a) by reflexivity.
  assert (H2 : dicts Sample.visiting_a !! metadata Sample.note_a = Some Sample.frontmatter_a)
    by (vm_compute; reflexivity).
  assert (H3 : trackers Sample.visiting_a !! _change_tracker Sample.visiting_a
               = Some (PropertyChangeTracker.__init__ "" 2 3))
    by (vm_compute; reflexivity).
  assert (H4 : assoc "action" [("action", VStr "add"); ("new", VStr "owner")]
               = Some (VStr "add")) by reflexivity.
  assert (H5 : assoc "new" [("action", VStr "add"); ("new", VStr "owner")]
               = Some (VStr "owner")) by reflexivity.
  split; [auto|].
  destruct (add_property_effect _ _ _ _ _ _ H1 H2 H3 H4 H5) as (_ & _ & _ & H).
  change (Sample.frontmatter_a !! "owner") with (@None pyvalue) in H.
  destruct H as (-> & _). vm_compute. reflexivity.
Defined.

(** ** Validation *)

Lemma cbind_fst {A B} (m : cfg A) (k : A -> cfg B) :
  fst (cbind m k) = match fst m with Ret a => fst (k a) | Raise e => Raise e end.
Proof.
  destruct m as [[a|e] ds]; simpl; [|reflexivity].
  destruct (k a) as [o ds']. reflexivity.
Qed.

Lemma validate_loop_cons tag prop rest :
  fst (validate_loop tag (prop :: rest)) =
    match fst (validate_property tag prop) with
    | Ret r =>
        match fst (validate_loop tag rest) with
        | Ret properties =>
            Ret (match r with Some p => p :: properties | None => properties end)
        | Raise e => Raise e
        end
    | Raise e => Raise e
    end.
Proof.
  simpl. rewrite cbind_fst.
  destruct (fst (validate_property tag prop)) as [r|e]; [|reflexivity].
  rewrite cbind_fst.
  destruct (fst (validate_loop tag rest)) as [ps|e]; reflexivity.
Qed.


Lemma validate_loop_kept tag prop props properties :
  fst (validate_property tag prop) = Ret (Some prop) ->
  In prop props ->
  fst (validate_loop tag props) = Ret properties ->
  In prop properties.
Proof.
  intros Hp. revert properties.
  induction props as [|p props IH]; intros properties Hin Hl; [destruct Hin|].
  rewrite validate_loop_cons in Hl.
  destruct (fst (validate_property tag p)) as [r|e] eqn:Hr; [|discriminate].
  destruct (fst (validate_loop tag props)) as [ps|e] eqn:Hps; [|discriminate].
  injection Hl as <-.
  destruct Hin as [->|Hin].
  - rewrite Hp in Hr. injection Hr as <-. left. reflexivity.
  - specialize (IH ps Hin eq_refl). destruct r; [right|]; exact IH.
Qed.


(** C7, as the code has it.  Without a [tags] key the generator prints one
    diagnostic and yields exactly one pair, [(None, None)]; the loop of [run]
    skips that pair without touching anything. *)
Theorem get_next_tag_without_tags (yaml : list (string * pyvalue)) :
  assoc "tags" yaml = None ->
  get_next_tag (VDict yaml) = ([GPrint (ERROR, NoTagsFound); GYield VNone VNone], None) /\
  printed (get_next_tag (VDict yaml)) = [(ERROR, NoTagsFound)] /\
  yields (get_next_tag (VDict yaml)) = [(VNone, VNone)] /\
  (forall w, rule VNone VNone w = (Ret tt, w, [])).
Proof.
  intros H.
  assert (Hg : get_next_tag (VDict yaml)
               = ([GPrint (ERROR, NoTagsFound); GYield VNone VNone], None)).
  { unfold get_next_tag, py_get. rewrite H. reflexivity. }
  rewrite Hg. repeat split.
Qed.

Lemma get_next_tag_without_tags_witness :
  assoc "tags" [("vault", VStr "notes")] = None /\
  yields (get_next_tag (VDict [("vault", VStr "notes")])) = [(VNone, VNone)].
Proof.
  split; [reflexivity|].
  apply (get_next_tag_without_tags [("vault", VStr "notes")]). reflexivity.
Defined.

(** C7 as stated fails: for the configuration without any key the generator
    does yield a pair, and the pair is [(None, None)]. *)
Lemma get_next_tag_yields_none_pair :
  assoc "tags" [] = None /\
  yields (get_next_tag (VDict [])) <> [] /\
  In (VNone, VNone) (yields (get_next_tag (VDict []))).
Proof.
  split; [reflexivity|]. split; [discriminate|]. left. reflexivity.
Qed.

(** C6, on the code: for a missing file, a file that does not parse and a
    file that cannot be read, [_load_yaml] prints its message and leaves
    through [exit(-1)]; the caller gets no result and the exit status is the
    same in the three cases. *)
Theorem load_yaml_exits (path : string) :
  _load_yaml path Missing
    = (Raise (SystemExit (-1)), [(ERROR, FileWasNotFound path)]) /\
  _load_yaml path Malformed
    = (Raise (SystemExit (-1)), [(ERROR, FileCouldNotBeRead path)]) /\
  _load_yaml path (Unreadable OSError)
    = (Raise (SystemExit (-1)), [(ERROR, AnErrorOccurred OSError)]).
Proof. repeat split. Qed.

(** ** What a run depends on *)

Lemma bind_result {A B} (m : M A) (k : A -> M B) w :
  result_of (bind m k w) =
    match result_of (m w) with
    | Ret a => result_of (k a (world_of (m w)))
    | Raise e => Raise e
    end.
Proof.
  unfold bind, result_of, world_of. destruct (m w) as [[[a|e] w1] l1]; simpl; [|reflexivity].
  destruct (k a w1) as [[o w2] l2]. reflexivity.
Qed.

Lemma bind_world {A B} (m : M A) (k : A -> M B) w :
  world_of (bind m k w) =
    match result_of (m w) with
    | Ret a => world_of (k a (world_of (m w)))
    | Raise e => world_of (m w)
    end.
Proof.
  unfold bind, result_of, world_of. destruct (m w) as [[[a|e] w1] l1]; simpl; [|reflexivity].
  destruct (k a w1) as [[o w2] l2]. reflexivity.
Qed.

Lemma bind_log {A B} (m : M A) (k : A -> M B) w :
  log_of (bind m k w) =
    match result_of (m w) with
    | Ret a => log_of (m w) ++ log_of (k a (world_of (m w)))
    | Raise e => log_of (m w)
    end.
Proof.
  unfold bind, result_of, world_of, log_of.
  destruct (m w) as [[[a|e] w1] l1]; simpl; [|reflexivity].
  destruct (k a w1) as [[o w2] l2]. reflexivity.
Qed.

(** The diagnostics of the generator reach the console only: the state
    after the loop of [run] is decided by the yielded pairs. *)
Lemma run_items_yields items stop w :
  result_of (run_items items w)
    = result_of (run_items (map (fun tp => GYield (fst tp) (snd tp)) (yields (items, stop))) w) /\
  world_of (run_items items w)
    = world_of (run_items (map (fun tp => GYield (fst tp) (snd tp)) (yields (items, stop))) w).
Proof.
  revert w. induction items as [|[d|tag properties] items IH]; intros w.
  - split; reflexivity.
  - change (yields (GPrint d :: items, stop)) with (yields (items, stop)).
    destruct (IH w) as [<- <-]. cbn [run_items].
    rewrite bind_result, bind_world. split; reflexivity.
  - change (yields (GYield tag properties :: items, stop))
      with ((tag, properties) :: yields (items, stop)).
    cbn [map run_items fst snd]. rewrite !bind_result, !bind_world.
    destruct (result_of (rule tag properties w)); [|split; reflexivity].
    apply IH.
Qed.


Lemma yields_prints ds items stop :
  yields (map GPrint ds ++ items, stop) = yields (items, stop).
Proof.
  unfold yields. cbn [fst]. induction ds as [|d ds IH]; [reflexivity|exact IH].
Qed.

(** The pairs of [tags_loop], read off the results of the two validations. *)
Lemma tags_loop_yields tag rest :
  yields (tags_loop (tag :: rest)) =
    match fst (_validate_tag tag) with
    | Raise _ => []
    | Ret false => yields (tags_loop rest)
    | Ret true =>
        match py_get tag "tag" VNone, fst (_validate_properties tag) with
        | Ret name, Ret properties => (name, VList properties) :: yields (tags_loop rest)
        | _, _ => []
        end
    end.
Proof.
  cbn [tags_loop]. destruct (_validate_tag tag) as [[[|]|e] ds]; cbn [fst].
  - destruct (py_get tag "tag" VNone) as [name|e]; unfold clift.
    + destruct (_validate_properties tag) as [[properties|e] ds']; cbn -[yields].
      * destruct (tags_loop rest) as [items stop] eqn:Hr.
        rewrite yields_prints. reflexivity.
      * rewrite <- (app_nil_r (map GPrint _)). apply yields_prints.
    + cbn -[yields]. rewrite <- (app_nil_r (map GPrint _)). apply yields_prints.
  - destruct (tags_loop rest) as [items stop] eqn:Hr. apply yields_prints.
  - rewrite <- (app_nil_r (map GPrint _)). apply yields_prints.
Qed.

Lemma tags_loop_stop tag rest :
  snd (tags_loop (tag :: rest)) =
    match fst (_validate_tag tag) with
    | Raise e => Some e
    | Ret false => snd (tags_loop rest)
    | Ret true =>
        match py_get tag "tag" VNone, fst (_validate_properties tag) with
        | Ret name, Ret properties => snd (tags_loop rest)
        | Raise e, _ => Some e
        | _, Raise e => Some e
        end
    end.
Proof.
  cbn [tags_loop]. destruct (_validate_tag tag) as [[[|]|e] ds]; cbn [fst].
  - destruct (py_get tag "tag" VNone) as [name|e]; unfold clift.
    + destruct (_validate_properties tag) as [[properties|e] ds']; cbn.
      * destruct (tags_loop rest) as [items stop]. reflexivity.
      * reflexivity.
    + reflexivity.
  - destruct (tags_loop rest) as [items stop]. reflexivity.
  - reflexivity.
Qed.





Lemma get_next_tag_list yaml tags :
  assoc "tags" yaml = Some (VList tags) ->
  get_next_tag (VDict yaml) = tags_loop tags.
Proof.
  intros H. unfold get_next_tag, py_get, py_iter. rewrite H. cbn.
  destruct (tags_loop tags) as [items stop]. reflexivity.
Qed.

(** ** Validation decides entry by entry *)

Lemma validate_property_decides entry d :
  exists ds,
    validate_property (VDict entry) (VDict d)
      = (Ret (if valid_property (VDict d) then Some (VDict d) else None), ds) /\
    length ds = (if valid_property (VDict d) then 0 else 1).
Proof.
  unfold validate_property, valid_property, field, py_get, clift, py_in.
  cbn [cbind existsb].
  destruct (truthy (default VNone (assoc "action" d)));
    destruct (py_eq (default VNone (assoc "action" d)) (VStr "rename"));
    destruct (py_eq (default VNone (assoc "action" d)) (VStr "remove"));
    destruct (py_eq (default VNone (assoc "action" d)) (VStr "add"));
    destruct (truthy (default VNone (assoc "old" d)));
    destruct (truthy (default VNone (assoc "new" d)));
    destruct (py_eq (default VNone (assoc "new" d)) (default VNone (assoc "old" d)));
    cbn; eexists; split; reflexivity.
Qed.

Lemma validate_loop_filter entry props :
  forallb is_dict props = true ->
  exists ds,
    validate_loop (VDict entry) props = (Ret (List.filter valid_property props), ds) /\
    length ds + length (List.filter valid_property props) = length props.
Proof.
  induction props as [|p props IH]; intros Hd.
  - exists []. split; reflexivity.
  - cbn [forallb] in Hd. apply andb_prop in Hd as [Hp Hd].
    destruct p as [| | | | |d]; try discriminate.
    destruct (validate_property_decides entry d) as (ds1 & H1 & L1).
    destruct (IH Hd) as (ds2 & H2 & L2).
    exists (ds1 ++ ds2). cbn [validate_loop List.filter]. rewrite H1, H2.
    destruct (valid_property (VDict d)); cbn; rewrite ?app_nil_r;
      (split; [reflexivity|]); rewrite length_app, L1; cbn; lia.
Qed.

Lemma validate_properties_filter entry props :
  assoc "properties" entry = Some (VList props) ->
  forallb is_dict props = true ->
  exists ds,
    _validate_properties (VDict entry) = (Ret (List.filter valid_property props), ds) /\
    length ds = length props - length (List.filter valid_property props).
Proof.
  intros Hp Hd. destruct (validate_loop_filter entry props Hd) as (ds & H & L).
  exists ds. split; [|lia].
  unfold _validate_properties, clift, py_get, py_iter. rewrite Hp. cbn. rewrite H.
  reflexivity.
Qed.

Lemma validate_tag_mapping entry :
  exists ds,
    _validate_tag (VDict entry) = (Ret (valid_tag (VDict entry)), ds) /\
    length ds = (if valid_tag (VDict entry) then 0 else 1) /\
    forallb (fun d => match fst d with ERROR => true | WARNING => false end) ds = true.
Proof.
  unfold _validate_tag, valid_tag, field, py_get, clift. cbn [cbind].
  destruct (truthy (default VNone (assoc "tag" entry))); cbn;
    [|eexists; repeat split].
  destruct (default VNone (assoc "properties" entry)) as [| | | |l|]; cbn;
    try solve [eexists; split; [reflexivity|split; reflexivity]].
  destruct (forallb is_dict l); cbn; eexists; split; [reflexivity|split; reflexivity
                                                     |reflexivity|split; reflexivity].
Qed.

Lemma tags_loop_filter tags :
  forallb is_dict tags = true ->
  snd (tags_loop tags) = None /\
  yields (tags_loop tags) = map rule_of (List.filter valid_tag tags).
Proof.
  induction tags as [|tag tags IH]; intros Hd; [split; reflexivity|].
  cbn [forallb] in Hd. apply andb_prop in Hd as [Ht Hd].
  destruct tag as [| | | | |entry]; try discriminate.
  destruct (IH Hd) as [IHs IHy].
  destruct (validate_tag_mapping entry) as (ds & Hv & _).
  rewrite tags_loop_yields, tags_loop_stop, Hv. cbn [fst List.filter].
  destruct (valid_tag (VDict entry)) eqn:Hvalid; [|split; assumption].
  unfold valid_tag in Hvalid. apply andb_prop in Hvalid as [_ Hprops].
  unfold field in Hprops.
  destruct (assoc "properties" entry) as [[| | | |props|]|] eqn:Hp; try discriminate.
  destruct (validate_properties_filter entry props Hp Hprops) as (ds' & Hvp & _).
  rewrite Hvp. cbn [py_get fst map]. split; [exact IHs|].
  rewrite IHy. unfold rule_of at 2, properties_of, field. rewrite Hp. reflexivity.
Qed.

Lemma tags_loop_mapping entry rest :
  yields (tags_loop (VDict entry :: rest))
    = (if valid_tag (VDict entry) then [rule_of (VDict entry)] else [])
      ++ yields (tags_loop rest).
Proof.
  destruct (validate_tag_mapping entry) as (ds & Hv & _).
  rewrite tags_loop_yields, Hv. cbn [fst].
  destruct (valid_tag (VDict entry)) eqn:Hvalid; [|reflexivity].
  unfold valid_tag in Hvalid. apply andb_prop in Hvalid as [_ Hprops].
  unfold field in Hprops.
  destruct (assoc "properties" entry) as [[| | | |props|]|] eqn:Hp; try discriminate.
  destruct (validate_properties_filter entry props Hp Hprops) as (ds' & Hvp & _).
  rewrite Hvp. cbn [py_get fst app]. unfold rule_of, properties_of, field. rewrite Hp.
  reflexivity.
Qed.

Lemma tags_loop_reaches ts1 ts2 entry :
  forallb is_dict ts1 = true ->
  valid_tag (VDict entry) = true ->
  In (rule_of (VDict entry)) (yields (tags_loop (ts1 ++ VDict entry :: ts2))).
Proof.
  intros Hd Hv. induction ts1 as [|t ts1 IH].
  - cbn [app]. rewrite tags_loop_mapping, Hv. left. reflexivity.
  - cbn [forallb] in Hd. apply andb_prop in Hd as [Ht Hd].
    destruct t as [| | | | |e]; try discriminate.
    rewrite <- app_comm_cons, tags_loop_mapping. apply in_or_app. right. apply IH, Hd.
Qed.

(** C10. An entry whose action is non-empty but is none of [rename],
    [add], [remove], and whose old and new names differ, passes validation
    without a diagnostic: [_validate_properties] returns it at its place
    among the surviving operations of its tag, with diagnostics for the
    dropped entries only, and [get_next_tag] yields the tag with that
    sequence.  Applying the entry to a document does nothing at all: the
    metadata, the tracker's changes and logs are as before and nothing is
    printed. *)
Theorem unknown_action_is_silent_noop (tag_entry d : list (string * pyvalue)) :
  let action := default VNone (assoc "action" d) in
  truthy action = true ->
  py_in action [VStr "rename"; VStr "add"; VStr "remove"] = false ->
  py_eq (default VNone (assoc "new" d)) (default VNone (assoc "old" d)) = false ->
  validate_property (VDict tag_entry) (VDict d) = (Ret (Some (VDict d)), []) /\
  (forall props properties,
     In (VDict d) props ->
     fst (validate_loop (VDict tag_entry) props) = Ret properties ->
     In (VDict d) properties) /\
  (forall pre post,
     assoc "properties" tag_entry = Some (VList (pre ++ VDict d :: post)) ->
     forallb is_dict (pre ++ post) = true ->
     exists ds,
       _validate_properties (VDict tag_entry)
         = (Ret (List.filter valid_property pre ++ VDict d :: List.filter valid_property post),
            ds) /\
       length ds + length (List.filter valid_property (pre ++ post)) = length (pre ++ post)) /\
  (forall yaml ts1 ts2 pre post,
     assoc "tags" yaml = Some (VList (ts1 ++ VDict tag_entry :: ts2)) ->
     forallb is_dict ts1 = true ->
     truthy (default VNone (assoc "tag" tag_entry)) = true ->
     assoc "properties" tag_entry = Some (VList (pre ++ VDict d :: post)) ->
     forallb is_dict (pre ++ post) = true ->
     In (default VNone (assoc "tag" tag_entry),
         VList (List.filter valid_property pre ++ VDict d :: List.filter valid_property post))
        (yields (get_next_tag (VDict yaml)))) /\
  (forall w, process_property (VDict d) w = (Ret tt, w, [])).
Proof.
  intros action Ht Hin Hne.
  unfold py_in in Hin. simpl in Hin.
  apply orb_false_elim in Hin as [Hren Hin].
  apply orb_false_elim in Hin as [Hadd Hin].
  apply orb_false_elim in Hin as [Hrem _].
  assert (Hv : validate_property (VDict tag_entry) (VDict d) = (Ret (Some (VDict d)), [])).
  { unfold validate_property, py_get, clift, py_in. simpl. fold action.
    rewrite Ht. simpl. rewrite Hren, Hrem, Hadd. simpl. rewrite Hne. reflexivity. }
  assert (Hvalid : valid_property (VDict d) = true).
  { unfold valid_property, field, py_in. cbn [existsb]. fold action.
    rewrite Ht, Hren, Hrem, Hadd, Hne. reflexivity. }
  assert (Hfilter : forall pre post,
            List.filter valid_property (pre ++ VDict d :: post)
              = List.filter valid_property pre ++ VDict d :: List.filter valid_property post).
  { intros pre post. rewrite List.filter_app. cbn [List.filter]. rewrite Hvalid. reflexivity. }
  assert (Hdicts : forall pre post,
            forallb is_dict (pre ++ post) = true ->
            forallb is_dict (pre ++ VDict d :: post) = true).
  { intros pre post. rewrite !forallb_app. cbn [forallb is_dict andb]. auto. }
  split; [exact Hv|]. split; [|split; [|split]].
  - intros props properties Hp Hl.
    apply (validate_loop_kept (VDict tag_entry) (VDict d) props); [|assumption..].
    rewrite Hv. reflexivity.
  - intros pre post Hp Hd.
    destruct (validate_loop_filter tag_entry _ (Hdicts pre post Hd)) as (ds & H & L).
    exists ds. split.
    + unfold _validate_properties, clift, py_get, py_iter. rewrite Hp. cbn.
      rewrite H, Hfilter. reflexivity.
    + rewrite Hfilter in L. rewrite List.filter_app, !length_app in *. cbn [length] in L. lia.
  - intros yaml ts1 ts2 pre post Hy Hd1 Htag Hp Hd.
    rewrite (get_next_tag_list _ _ Hy).
    assert (Hvt : valid_tag (VDict tag_entry) = true).
    { unfold valid_tag, field. rewrite Htag, Hp. apply (Hdicts pre post Hd). }
    pose proof (tags_loop_reaches ts1 ts2 tag_entry Hd1 Hvt) as Hreach.
    unfold rule_of, properties_of, field in Hreach. rewrite Hp in Hreach.
    cbn [default from_option id] in Hreach. rewrite Hfilter in Hreach. exact Hreach.
  - intros w. unfold process_property, bind, lift, py_get. simpl. fold action.
    rewrite Hadd, Hren, Hrem. reflexivity.
Qed.

Lemma unknown_action_is_silent_noop_witness :
  (truthy (default VNone (assoc "action" MoreSamples.move_entry)) = true /\
   py_in (default VNone (assoc "action" MoreSamples.move_entry))
     [VStr "rename"; VStr "add"; VStr "remove"] = false /\
   py_eq (default VNone (assoc "new" MoreSamples.move_entry))
     (default VNone (assoc "old" MoreSamples.move_entry)) = false) /\
  (exists ds,
     _validate_properties (VDict MoreSamples.draft_with_move)
       = (Ret [Sample.rename_status; VDict MoreSamples.move_entry], ds)) /\
  In (VStr "draft", VList [Sample.rename_status; VDict MoreSamples.move_entry])
     (yields (get_next_tag (VDict [("tags", VList [VDict MoreSamples.draft_with_move])]))) /\
  process_property (VDict MoreSamples.move_entry) Sample.visiting_a
    = (Ret tt, Sample.visiting_a, []).
Proof.
  split; [repeat split|].
  destruct (unknown_action_is_silent_noop MoreSamples.draft_with_move MoreSamples.move_entry
              eq_refl eq_refl eq_refl) as (_ & _ & Hprops & Hgen & Hnoop).
  split; [|split; [|exact (Hnoop Sample.visiting_a)]].
  - destruct (Hprops [Sample.rename_status] [] eq_refl eq_refl) as (ds & H & _).
    exists ds. exact H.
  - exact (Hgen [("tags", VList [VDict MoreSamples.draft_with_move])] [] []
             [Sample.rename_status] [] eq_refl eq_refl eq_refl eq_refl eq_refl).
Defined.





(** ** Relations kept by the run *)

Section Keeps.

Context (R : World -> World -> Prop) (L : event -> bool) `{!PreOrder R}.

Lemma keeps_ret {A} (a : A) : keeps R L (ret a).
Proof. intros w. split; [apply reflexivity|reflexivity]. Qed.

Lemma keeps_raise {A} (e : exn) : keeps R L (@raise A e).
Proof. intros w. split; [apply reflexivity|reflexivity]. Qed.

Lemma keeps_gets {A} (f : World -> A) : keeps R L (gets f).
Proof. intros w. split; [apply reflexivity|reflexivity]. Qed.

Lemma keeps_lift {A} (o : outcome A) : keeps R L (lift o).
Proof. intros w. split; [apply reflexivity|reflexivity]. Qed.

Lemma keeps_attr {A} (o : option A) : keeps R L (attr o).
Proof. destruct o; [apply keeps_ret|apply keeps_raise]. Qed.

Lemma keeps_emit e : L e = true -> keeps R L (emit e).
Proof. intros H w. split; [apply reflexivity|]. cbn. rewrite H. reflexivity. Qed.

Lemma keeps_modify f : (forall w, R w (f w)) -> keeps R L (modify f).
Proof. intros H w. split; [apply H|reflexivity]. Qed.

Lemma keeps_bind {A B} (m : M A) (k : A -> M B) :
  keeps R L m -> (forall a, keeps R L (k a)) -> keeps R L (bind m k).
Proof.
  intros Hm Hk w. rewrite bind_world, bind_log.
  destruct (Hm w) as [HR HL].
  destruct (result_of (m w)) as [a|e]; [|split; assumption].
  destruct (Hk a (world_of (m w))) as [HR' HL']. split.
  - etransitivity; eassumption.
  - rewrite forallb_app, HL, HL'. reflexivity.
Qed.

Lemma keeps_for_each {A} (l : list A) (body : A -> M unit) :
  (forall x, keeps R L (body x)) -> keeps R L (for_each l body).
Proof.
  intros H. induction l as [|x l IH]; [apply keeps_ret|].
  apply keeps_bind; [apply H|intros _; exact IH].
Qed.

End Keeps.

Ltac keeps_step :=
  first
    [ apply keeps_bind; [typeclasses eauto| |intros ?]
    | apply keeps_for_each; [typeclasses eauto|intros ?]
    | apply keeps_ret; typeclasses eauto
    | apply keeps_raise; typeclasses eauto
    | apply keeps_gets; typeclasses eauto
    | apply keeps_lift; typeclasses eauto
    | apply keeps_attr; typeclasses eauto
    | apply keeps_emit; [typeclasses eauto|reflexivity]
    | match goal with
      | |- keeps _ _ (if ?c then _ else _) => destruct c
      | |- keeps _ _ (match ?x with _ => _ end) => destruct x
      end ].

#[local] Instance run_frame_preorder : PreOrder run_frame.
Proof.
  split.
  - intros w. repeat split. reflexivity.
  - intros w1 w2 w3 (Hd & Ha & Hn & Hc) (Hd' & Ha' & Hn' & Hc').
    repeat split; try congruence. etransitivity; eassumption.
Qed.

#[local] Instance note_frame_preorder : PreOrder note_frame.
Proof.
  split.
  - intros w. repeat split.
  - intros w1 w2 w3 (Hd & Ha & Hn & Hc) (Hd' & Ha' & Hn' & Hc').
    repeat split; congruence.
Qed.

Lemma note_frame_run_frame w w' : note_frame w w' -> run_frame w w'.
Proof.
  intros (Hd & Ha & Hn & Hc). repeat split; try assumption.
  unfold coll. rewrite Hn, Hc. reflexivity.
Qed.

Lemma keeps_weaken {A} (R R' : World -> World -> Prop) L (m : M A) :
  (forall w w', R w w' -> R' w w') -> keeps R L m -> keeps R' L m.
Proof. intros H Hm w. destruct (Hm w). split; [apply H|]; assumption. Qed.

Ltac keeps_modify_frame :=
  apply keeps_modify; intros ?; repeat split.

Ltac keeps_auto := repeat first [keeps_step | keeps_modify_frame | assumption].

Lemma current_metadata_keeps : keeps note_frame is_diag current_metadata.
Proof. unfold current_metadata. keeps_auto. Qed.

Lemma on_change_tracker_keeps f : keeps note_frame is_diag (on_change_tracker f).
Proof. unfold on_change_tracker. keeps_auto. Qed.

Lemma alloc_dict_keeps m : keeps note_frame is_diag (alloc_dict m).
Proof. unfold alloc_dict. keeps_auto. Qed.

Lemma deepcopy_keeps l : keeps note_frame is_diag (deepcopy l).
Proof. unfold deepcopy. keeps_auto; try apply alloc_dict_keeps. Qed.

Lemma alloc_tracker_keeps t : keeps note_frame is_diag (alloc_tracker t).
Proof. unfold alloc_tracker. keeps_auto. Qed.

Lemma metadata_has_keeps k : keeps note_frame is_diag (metadata_has k).
Proof. unfold metadata_has. keeps_auto; try apply current_metadata_keeps. Qed.

Lemma metadata_get_keeps k : keeps note_frame is_diag (metadata_get k).
Proof. unfold metadata_get. keeps_auto; try apply current_metadata_keeps. Qed.

Lemma metadata_add_keeps k v ty : keeps note_frame is_diag (metadata_add k v ty).
Proof. unfold metadata_add. keeps_auto; try apply current_metadata_keeps. Qed.

Lemma metadata_remove_keeps k : keeps note_frame is_diag (metadata_remove k).
Proof. unfold metadata_remove. keeps_auto; try apply current_metadata_keeps. Qed.

Lemma rename_property_keeps old new : keeps note_frame is_diag (_rename_property old new).
Proof.
  unfold _rename_property.
  repeat first [ apply metadata_has_keeps | apply metadata_get_keeps
               | apply metadata_add_keeps | apply metadata_remove_keeps
               | apply on_change_tracker_keeps | keeps_step ].
Qed.

Lemma add_property_keeps prop value : keeps note_frame is_diag (_add_property prop value).
Proof.
  unfold _add_property.
  repeat first [ apply metadata_has_keeps | apply metadata_add_keeps
               | apply on_change_tracker_keeps | keeps_step ].
Qed.

Lemma remove_property_keeps prop : keeps note_frame is_diag (_remove_property prop).
Proof.
  unfold _remove_property.
  repeat first [ apply metadata_has_keeps | apply metadata_remove_keeps
               | apply on_change_tracker_keeps | keeps_step ].
Qed.

Lemma as_name_keeps v : keeps note_frame is_diag (as_name v).
Proof. unfold as_name. keeps_auto. Qed.

Lemma process_property_keeps prop : keeps note_frame is_diag (process_property prop).
Proof.
  unfold process_property.
  repeat first [ apply as_name_keeps | apply rename_property_keeps
               | apply add_property_keeps | apply remove_property_keeps | keeps_step ].
Qed.

Lemma process_properties_keeps properties :
  keeps note_frame is_diag (_process_properties properties).
Proof.
  unfold _process_properties.
  repeat first [apply process_property_keeps | keeps_step].
Qed.

Lemma process_note_keeps properties note :
  keeps note_frame is_diag (process_note properties note).
Proof.
  unfold process_note.
  repeat first [ apply alloc_dict_keeps | apply alloc_tracker_keeps | apply deepcopy_keeps
               | apply on_change_tracker_keeps | apply process_properties_keeps
               | apply current_metadata_keeps | keeps_step | keeps_modify_frame ].
Qed.

(** Filtering works on the collection object it is given, and only removes
    notes from it. *)
Lemma notes_filter_live c meta_data w ns :
  collections w !! c = Some ns ->
  notes_filter c meta_data w =
    (Ret tt,
     with_collections
       <[c := filter (fun n => note_matches (dicts w) meta_data n = true) ns]> w,
     []).
Proof.
  intros H. unfold notes_filter, bind, gets, attr, modify. cbn. rewrite H. reflexivity.
Qed.

Lemma notes_filter_dangling c meta_data w :
  collections w !! c = None ->
  notes_filter c meta_data w = (Raise AttributeError, w, []).
Proof.
  intros H. unfold notes_filter, bind, gets, attr, modify. cbn. rewrite H. reflexivity.
Qed.

Lemma get_filtered_notes_keeps meta_data :
  keeps run_frame is_diag (_get_filtered_notes meta_data).
Proof.
  intros w. unfold _get_filtered_notes.
  rewrite bind_world, bind_log. cbn [gets result_of world_of log_of fst snd].
  rewrite bind_world, bind_log.
  destruct (collections w !! _notes w) as [ns|] eqn:Hc.
  - rewrite (notes_filter_live _ _ _ _ Hc). cbn. split; [|reflexivity].
    repeat split. unfold coll. cbn. rewrite lookup_insert_eq, Hc. cbn.
    apply sublist_filter.
  - rewrite (notes_filter_dangling _ _ _ Hc). cbn. split; reflexivity.
Qed.

Lemma rule_keeps tag properties : keeps run_frame is_diag (rule tag properties).
Proof.
  unfold rule.
  repeat first [ apply get_filtered_notes_keeps
               | apply (keeps_weaken note_frame run_frame);
                 [exact note_frame_run_frame|apply process_note_keeps]
               | keeps_step ].
Qed.

Lemma run_items_keeps items : keeps run_frame is_diag (run_items items).
Proof.
  induction items as [|[d|tag properties] items IH]; cbn [run_items].
  - keeps_auto.
  - keeps_auto.
  - apply keeps_bind; [typeclasses eauto|apply rule_keeps|intros _; exact IH].
Qed.

Lemma run_loop_keeps g : keeps run_frame is_diag (run_loop g).
Proof.
  unfold run_loop.
  apply keeps_bind; [typeclasses eauto|apply run_items_keeps|intros _].
  keeps_auto.
Qed.

(** ** The end of the run *)

Lemma show_summaries_keeps : keeps eq is_summary show_summaries.
Proof. unfold show_summaries. keeps_auto. Qed.

Lemma forallb_weaken {A} (P Q : A -> bool) l :
  (forall x, P x = true -> Q x = true) -> forallb P l = true -> forallb Q l = true.
Proof.
  intros H. induction l as [|x l IH]; [reflexivity|]. cbn.
  intros [Hx Hl]%andb_prop. rewrite (H _ Hx), (IH Hl). reflexivity.
Qed.

Lemma silent_nil (l : list event) : forallb (fun _ => false) l = true -> l = [].
Proof. destruct l; [reflexivity|discriminate]. Qed.

Lemma console_backup_before_persistence b l1 l2 :
  forallb is_console l1 = true ->
  backup_before_persistence b (l1 ++ l2) = backup_before_persistence b l2.
Proof.
  induction l1 as [|e l1 IH]; [reflexivity|]. cbn [forallb app].
  intros [He Hl]%andb_prop. destruct e; try discriminate; cbn; apply IH; assumption.
Qed.

Lemma console_no_persistence l1 l2 :
  forallb is_console l1 = true ->
  existsb is_persistence (l1 ++ l2) = existsb is_persistence l2.
Proof.
  induction l1 as [|e l1 IH]; [reflexivity|]. cbn [forallb app].
  intros [He Hl]%andb_prop. destruct e; try discriminate; cbn; apply IH; assumption.
Qed.

Lemma console_in (e : event) l1 l2 :
  forallb is_console l1 = true -> is_console e = false -> In e (l1 ++ l2) -> In e l2.
Proof.
  intros Hl He [Hin|Hin]%in_app_or; [|assumption].
  rewrite forallb_forall in Hl. specialize (Hl _ Hin). congruence.
Qed.

#[local] Instance writes_within_preorder ns : PreOrder (writes_within ns).
Proof.
  split.
  - intros w. repeat split.
  - intros w1 w2 w3 (Ha & Hd & Hc & Hn & Hp & Ht & Hs) (Ha' & Hd' & Hc' & Hn' & Hp' & Ht' & Hs').
    repeat split; try congruence. intros p H. rewrite (Hp' p H). apply Hp, H.
Qed.

Lemma write_notes_keeps ns l :
  (forall n, In n l -> In n ns) ->
  keeps (writes_within ns) (fun _ => false)
    (for_each l (fun n =>
       m <- gets (fun w => dicts w !! metadata n) ;;
       m <- attr m ;;
       modify (with_disk <[path n := m]>))).
Proof.
  induction l as [|n l IH]; intros Hl; cbn [for_each].
  - apply keeps_ret. typeclasses eauto.
  - apply keeps_bind; [typeclasses eauto| |intros _; apply IH; intros; apply Hl; by right].
    apply keeps_bind; [typeclasses eauto|apply keeps_gets; typeclasses eauto|intros o].
    apply keeps_bind; [typeclasses eauto|apply keeps_attr; typeclasses eauto|intros m].
    apply keeps_modify. intros w. repeat split. intros p Hp. cbn.
    apply lookup_insert_ne. apply Hp, Hl. by left.
Qed.

Lemma notes_write_spec c w :
  log_of (notes_write c w) = [EvWrite] /\
  writes_within (default [] (collections w !! c)) w (world_of (notes_write c w)).
Proof.
  unfold notes_write. rewrite bind_log, bind_world.
  cbn [emit result_of world_of log_of fst snd].
  rewrite bind_log, bind_world. cbn [gets result_of world_of log_of fst snd app].
  rewrite bind_log, bind_world.
  destruct (collections w !! c) as [ns|]; cbn [attr default].
  - cbn [ret result_of world_of log_of fst snd app].
    destruct (write_notes_keeps ns ns (fun n H => H) w) as [HR HL].
    apply silent_nil in HL. rewrite HL. split; [reflexivity|exact HR].
  - cbn. split; [reflexivity|]. repeat split.
Qed.

(** [_finish], case by case. *)
Lemma finish_eval env w :
  exists ls, forallb is_summary ls = true /\
  ((exists e, _finish env w = (Raise e, w, ls)) \/
   match on_input env with
   | Some KeyboardInterrupt => _finish env w = (Ret tt, w, ls ++ [EvPrompt; EvCancelled])
   | Some e => _finish env w = (Raise e, w, ls ++ [EvPrompt])
   | None =>
       match on_make_archive env with
       | Some e =>
           _finish env w =
             if is_Exception e then
               (Raise (SystemExit (-1)), with_archive (left_by_failure env (archive w)) w,
                ls ++ [EvPrompt; EvMakeArchive (Some e); EvBackupError e])
             else (Raise e, with_archive (left_by_failure env (archive w)) w,
                   ls ++ [EvPrompt; EvMakeArchive (Some e)])
       | None =>
           exists o w',
             writes_within (coll w) (with_archive (Some (disk w)) w) w' /\
             _finish env w =
               (o, w',
                ls ++ [EvPrompt; EvMakeArchive None; EvBackupCreated; EvUpdateContent; EvWrite]
                   ++ match o with Ret _ => [EvSaved] | Raise _ => [] end)
       end
   end).
Proof.
  destruct (show_summaries_keeps w) as [Hw Hl].
  destruct (show_summaries w) as [[o ws] ls] eqn:Hs.
  unfold world_of, log_of in Hw, Hl. cbn in Hw, Hl. subst ws.
  exists ls. split; [exact Hl|].
  unfold _finish.
  destruct o as [[]|e];
    [|left; exists e; apply (bind_raise_l _ _ _ _ _ _ Hs)].
  right. rewrite (bind_ret_l _ _ _ _ _ _ Hs).
  destruct (on_input env) as [e|].
  - destruct e; cbn; reflexivity.
  - unfold _backup_vault. destruct (on_make_archive env) as [e|].
    + destruct (is_Exception e); cbn; reflexivity.
    + cbn -[notes_write].
      destruct (notes_write_spec (_notes w) (with_archive (Some (disk w)) w)) as [Hlog Hr].
      destruct (notes_write (_notes w) (with_archive (Some (disk w)) w))
        as [[o2 w2] l2] eqn:Hn.
      unfold log_of, world_of in Hlog, Hr. cbn in Hlog, Hr. subst l2.
      destruct o2 as [[]|e].
      * exists (Ret tt), w2. split; [exact Hr|].
        rewrite (bind_ret_l _ _ _ _ _ _ Hn). cbn. reflexivity.
      * exists (Raise e), w2. split; [exact Hr|].
        rewrite (bind_raise_l _ _ _ _ _ _ Hn). cbn. reflexivity.
Qed.

Lemma run_split env yaml w :
  exists o1 w1 l1,
    run_loop (get_next_tag yaml) w = (o1, w1, l1) /\
    run_frame w w1 /\ forallb is_console l1 = true /\
    run env yaml w =
      match o1 with
      | Ret _ => let '(o, w2, l2) := _finish env w1 in (o, w2, l1 ++ l2)
      | Raise e => (Raise e, w1, l1)
      end.
Proof.
  destruct (run_loop_keeps (get_next_tag yaml) w) as [HR HL].
  destruct (run_loop (get_next_tag yaml) w) as [[o1 w1] l1] eqn:Hrun.
  exists o1, w1, l1. split; [reflexivity|]. split; [exact HR|]. split.
  - revert HL. apply forallb_weaken. intros e He. unfold is_console. by rewrite He.
  - unfold run. destruct o1 as [[]|e].
    + apply (bind_ret_l _ (fun _ => _finish env) _ _ _ _ Hrun).
    + apply (bind_raise_l _ (fun _ => _finish env) _ _ _ _ Hrun).
Qed.

Lemma summaries_console ls : forallb is_summary ls = true -> forallb is_console ls = true.
Proof.
  apply forallb_weaken. intros e He. unfold is_console. rewrite He. apply orb_true_r.
Qed.

(** C1. In every run, persistence ([update_content], [write]) is invoked
    only after [make_archive] has returned; when [make_archive] raises,
    persistence is not invoked, the files of the vault are as before the
    run, and the run ends with an exception ([exit(-1)] for an [Exception]);
    the archive file is then what the failed call left of it, which need not
    be an earlier archive.  Whenever persistence was invoked the archive
    holds the files as they were before the run. *)
Theorem persistence_only_after_backup (env : Env) (yaml : pyvalue) (w : World) :
  let r := run env yaml w in
  backup_before_persistence false (log_of r) = true /\
  (forall e, In (EvMakeArchive (Some e)) (log_of r) ->
     existsb is_persistence (log_of r) = false /\
     disk (world_of r) = disk w /\
     archive (world_of r) = left_by_failure env (archive w) /\
     result_of r = Raise (if is_Exception e then SystemExit (-1) else e)) /\
  (existsb is_persistence (log_of r) = true -> archive (world_of r) = Some (disk w)).
Proof.
  intros r. subst r.
  destruct (run_split env yaml w) as (o1 & w1 & l1 & Hloop & HR & HL & ->).
  destruct HR as (Hd & Ha & _ & _).
  destruct o1 as [[]|e1].
  - destruct (finish_eval env w1) as (ls & Hls%summaries_console & [[e Hf]|Hf]).
    { rewrite Hf. unfold log_of, world_of, result_of. cbn [fst snd].
      rewrite <- (app_nil_r ls).
      rewrite !console_backup_before_persistence, !console_no_persistence by assumption.
      split; [reflexivity|]. split; [|discriminate].
      intros e' Hin. do 2 (apply console_in in Hin; [|assumption|reflexivity]).
      destruct Hin. }
    destruct (on_input env) as [ei|].
    { assert (Hf' : exists o tl, _finish env w1 = (o, w1, ls ++ EvPrompt :: tl) /\
                      (tl = [] \/ tl = [EvCancelled]))
        by (destruct ei; eexists _, _; (split; [exact Hf|]); auto).
      destruct Hf' as (o & tl & -> & Htl). unfold log_of, world_of, result_of. cbn [fst snd].
      rewrite !console_backup_before_persistence, !console_no_persistence by assumption.
      split; [destruct Htl as [->| ->]; reflexivity|].
      split; [|destruct Htl as [->| ->]; discriminate].
      intros e' Hin. do 2 (apply console_in in Hin; [|assumption|reflexivity]).
      destruct Htl as [->| ->]; cbn in Hin; intuition discriminate. }
    destruct (on_make_archive env) as [ea|].
    + rewrite Hf. destruct (is_Exception ea) eqn:Hex;
        unfold log_of, world_of, result_of; cbn [fst snd];
        rewrite !console_backup_before_persistence, !console_no_persistence by assumption;
        (split; [reflexivity|]); (split; [|discriminate]);
        intros e' Hin; do 2 (apply console_in in Hin; [|assumption|reflexivity]);
        cbn in Hin;
        (destruct Hin as [Hin|[Hin|Hin]];
         [discriminate
         |injection Hin as <-; rewrite Hex; cbn; rewrite ?Ha; repeat split; assumption
         |cbn in Hin; intuition discriminate]).
    + destruct Hf as (o & w' & Hw & ->). unfold log_of, world_of, result_of. cbn [fst snd].
      rewrite !console_backup_before_persistence, !console_no_persistence by assumption.
      destruct Hw as (Harch & _). cbn in Harch.
      split; [destruct o; reflexivity|]. split.
      * intros e' Hin. do 2 (apply console_in in Hin; [|assumption|reflexivity]).
        destruct o; cbn in Hin; intuition discriminate.
      * intros _. rewrite Harch, Hd. reflexivity.
  - unfold log_of, world_of, result_of. cbn [fst snd].
    rewrite <- (app_nil_r l1).
    rewrite console_backup_before_persistence, console_no_persistence by assumption.
    split; [reflexivity|]. split; [|discriminate].
    intros e' Hin. apply console_in in Hin; [|assumption|reflexivity]. destruct Hin.
Qed.

Lemma persistence_only_after_backup_witness :
  In (EvMakeArchive (Some OSError))
     (log_of (run Sample.archive_fails Sample.config (__init__ Sample.vault))) /\
  existsb is_persistence
     (log_of (run Sample.archive_fails Sample.config (__init__ Sample.vault))) = false /\
  disk (world_of (run Sample.archive_fails Sample.config (__init__ Sample.vault)))
    = disk (__init__ Sample.vault) /\
  archive (world_of (run Sample.archive_fails Sample.config (__init__ Sample.vault)))
    = Some ∅ /\
  result_of (run Sample.archive_fails Sample.config (__init__ Sample.vault))
    = Raise (SystemExit (-1)).
Proof.
  assert (Hin : In (EvMakeArchive (Some OSError))
            (log_of (run Sample.archive_fails Sample.config (__init__ Sample.vault))))
    by (vm_compute; right; right; left; reflexivity).
  split; [exact Hin|].
  destruct (persistence_only_after_backup Sample.archive_fails Sample.config
              (__init__ Sample.vault)) as (_ & H & _).
  destruct (H OSError Hin) as (Hp & Hd & Ha & Hr).
  split; [exact Hp|]. split; [exact Hd|]. split; [exact Ha|exact Hr].
Defined.

Lemma console_no_make_archive l1 l2 :
  forallb is_console l1 = true ->
  existsb is_make_archive (l1 ++ l2) = existsb is_make_archive l2.
Proof.
  induction l1 as [|e l1 IH]; [reflexivity|]. cbn [forallb app].
  intros [He Hl]%andb_prop. destruct e; try discriminate; cbn; apply IH; assumption.
Qed.

(** C2. When the operator interrupts the prompt of [_finish], the run
    returns normally after printing that the operation was cancelled;
    [make_archive] is not called, persistence is not invoked, and the archive
    and the files are as they were before the run. *)
Theorem cancel_at_confirmation (env : Env) (yaml : pyvalue) (w : World) :
  on_input env = Some KeyboardInterrupt ->
  let r := run env yaml w in
  (In EvPrompt (log_of r) -> result_of r = Ret tt /\ In EvCancelled (log_of r)) /\
  existsb is_make_archive (log_of r) = false /\
  existsb is_persistence (log_of r) = false /\
  archive (world_of r) = archive w /\
  disk (world_of r) = disk w.
Proof.
  intros Hin r. subst r.
  destruct (run_split env yaml w) as (o1 & w1 & l1 & Hloop & HR & HL & ->).
  destruct HR as (Hd & Ha & _ & _).
  destruct o1 as [[]|e1].
  - destruct (finish_eval env w1) as (ls & Hls%summaries_console & [[e Hf]|Hf]).
    + rewrite Hf. unfold log_of, world_of, result_of. cbn [fst snd].
      rewrite <- (app_nil_r ls).
      rewrite !console_no_make_archive, !console_no_persistence by assumption.
      repeat split; try assumption.
      all: do 2 (apply console_in in H; [|assumption|reflexivity]); destruct H.
    + rewrite Hin in Hf. rewrite Hf. unfold log_of, world_of, result_of. cbn [fst snd].
      rewrite !console_no_make_archive, !console_no_persistence by assumption.
      repeat split; try assumption.
      apply in_or_app. right. apply in_or_app. right. right. left. reflexivity.
  - unfold log_of, world_of, result_of. cbn [fst snd].
    rewrite <- (app_nil_r l1).
    rewrite !console_no_make_archive, !console_no_persistence by assumption.
    repeat split; try assumption.
    all: apply console_in in H; [|assumption|reflexivity]; destruct H.
Qed.

Lemma cancel_at_confirmation_witness :
  on_input Sample.cancel = Some KeyboardInterrupt /\
  archive (world_of (run Sample.cancel Sample.config (__init__ Sample.vault))) = None /\
  disk (world_of (run Sample.cancel Sample.config (__init__ Sample.vault)))
    = list_to_map Sample.vault.
Proof.
  split; [reflexivity|].
  destruct (cancel_at_confirmation Sample.cancel Sample.config (__init__ Sample.vault)
              eq_refl) as (_ & _ & _ & Ha & Hd).
  split; [exact Ha|exact Hd].
Defined.

(** ** Selection works on one shared collection *)

Lemma get_filtered_notes_live meta_data w ns :
  collections w !! _notes w = Some ns ->
  _get_filtered_notes meta_data w =
    (Ret (_notes w),
     with_collections
       <[_notes w := filter (fun n => note_matches (dicts w) meta_data n = true) ns]> w,
     []).
Proof.
  intros H. unfold _get_filtered_notes.
  rewrite (bind_ret_l (gets _notes) _ w (_notes w) w [] eq_refl).
  rewrite (bind_ret_l _ _ _ _ _ _ (notes_filter_live _ meta_data _ _ H)).
  reflexivity.
Qed.

Lemma for_each_process_note_frame properties ns w :
  note_frame w (world_of (for_each ns (process_note properties) w)).
Proof.
  apply (keeps_for_each note_frame is_diag). intros n. apply process_note_keeps.
Qed.

Lemma rule_live tag properties w ns :
  truthy tag = true ->
  truthy properties = true ->
  collections w !! _notes w = Some ns ->
  let selected := filter (fun n => note_matches (dicts w) (tag_criterion tag) n = true) ns in
  let w0 := with_collections <[_notes w := selected]> w in
  rule tag properties w = for_each selected (process_note properties) w0 /\
  coll (world_of (rule tag properties w)) = selected.
Proof.
  intros Ht Hp Hc selected w0.
  assert (Hr : rule tag properties w = for_each selected (process_note properties) w0).
  { unfold rule. rewrite Ht, Hp. cbn [negb orb].
    rewrite (bind_ret_l _ _ _ _ _ _ (get_filtered_notes_live (tag_criterion tag) w ns Hc)).
    fold selected. fold w0.
    unfold bind at 1. cbn [gets].
    assert (Hl : collections w0 !! _notes w = Some selected)
      by (subst w0; cbn; apply lookup_insert_eq).
    rewrite Hl. unfold bind at 1. cbn [attr ret].
    destruct (for_each selected (process_note properties) w0) as [[o w2] l2].
    reflexivity. }
  split; [exact Hr|]. rewrite Hr.
  destruct (for_each_process_note_frame properties selected w0) as (_ & _ & Hn & Hcs).
  unfold coll. rewrite Hn, Hcs. subst w0. cbn. rewrite lookup_insert_eq. reflexivity.
Qed.

Lemma run_items_app_world l1 l2 w :
  world_of (run_items (l1 ++ l2) w) =
    match result_of (run_items l1 w) with
    | Ret _ => world_of (run_items l2 (world_of (run_items l1 w)))
    | Raise _ => world_of (run_items l1 w)
    end.
Proof.
  revert w. induction l1 as [|[d|tag properties] l1 IH]; intros w.
  - reflexivity.
  - cbn [app run_items]. rewrite !bind_world, !bind_result. cbn. apply IH.
  - cbn [app run_items]. rewrite !bind_world, !bind_result.
    destruct (result_of (rule tag properties w)); [apply IH|reflexivity].
Qed.

(** C5. [_get_filtered_notes] filters the processor's own collection
    object in place and returns that object.  A rule that passes the guard of
    the loop selects from the collection as the earlier rules have left it,
    and leaves in it exactly the notes it selected; across the loop the
    collection only loses notes; and at the end of the run no file is written
    but those of notes still in the collection. *)
Theorem selection_is_cumulative :
  (forall meta_data w ns,
     collections w !! _notes w = Some ns ->
     _get_filtered_notes meta_data w =
       (Ret (_notes w),
        with_collections
          <[_notes w := filter (fun n => note_matches (dicts w) meta_data n = true) ns]> w,
        [])) /\
  (forall earlier tag properties later w,
     let w1 := world_of (run_items earlier w) in
     result_of (run_items earlier w) = Ret tt ->
     truthy tag = true ->
     truthy properties = true ->
     is_Some (collections w1 !! _notes w1) ->
     let selected :=
       filter (fun n => note_matches (dicts w1) (tag_criterion tag) n = true) (coll w1) in
     world_of (run_items (earlier ++ GYield tag properties :: later) w)
       = world_of ((rule tag properties ;;; run_items later) w1) /\
     rule tag properties w1
       = for_each selected (process_note properties)
           (with_collections <[_notes w1 := selected]> w1) /\
     coll (world_of (rule tag properties w1)) = selected /\
     coll w1 `sublist_of` coll w) /\
  (forall items w,
     _notes (world_of (run_items items w)) = _notes w /\
     coll (world_of (run_items items w)) `sublist_of` coll w) /\
  (forall env yaml w p,
     (forall n, In n (coll (world_of (run_loop (get_next_tag yaml) w))) -> path n <> p) ->
     disk (world_of (run env yaml w)) !! p = disk w !! p).
Proof.
  split; [exact get_filtered_notes_live|]. split; [|split].
  - intros earlier tag properties later w w1 Hret Ht Hp [ns Hns] selected.
    split; [|split; [|split]].
    + rewrite run_items_app_world, Hret. reflexivity.
    + subst selected. unfold coll. rewrite Hns. cbn [default].
      apply (rule_live tag properties w1 ns Ht Hp Hns).
    + subst selected. unfold coll at 2. rewrite Hns. cbn [default].
      apply (rule_live tag properties w1 ns Ht Hp Hns).
    + destruct (run_items_keeps earlier w) as [(_ & _ & _ & H) _]. exact H.
  - intros items w. destruct (run_items_keeps items w) as [(_ & _ & Hn & H) _].
    split; assumption.
  - intros env yaml w p Hp.
    destruct (run_split env yaml w) as (o1 & w1 & l1 & Hloop & HR & HL & ->).
    rewrite Hloop in Hp. unfold world_of in Hp. cbn [fst snd] in Hp.
    destruct HR as (Hd & _).
    destruct o1 as [[]|e1]; [|unfold world_of; cbn [fst snd]; by rewrite Hd].
    destruct (finish_eval env w1) as (ls & _ & [[e Hf]|Hf]).
    { rewrite Hf. unfold world_of. cbn [fst snd]. by rewrite Hd. }
    destruct (on_input env) as [ei|].
    { assert (Hf' : exists o l, _finish env w1 = (o, w1, l))
        by (destruct ei; eexists _, _; exact Hf).
      destruct Hf' as (o & l & ->). unfold world_of. cbn [fst snd]. by rewrite Hd. }
    destruct (on_make_archive env) as [ea|].
    + rewrite Hf. destruct (is_Exception ea); unfold world_of; cbn; by rewrite Hd.
    + destruct Hf as (o & w' & Hw & ->). unfold world_of. cbn [fst snd].
      destruct Hw as (_ & _ & _ & _ & Hdisk & _). rewrite (Hdisk p Hp). cbn. by rewrite Hd.
Qed.

Lemma selection_is_cumulative_witness :
  (result_of (run_items Sample.draft_rule (__init__ Sample.two_tags)) = Ret tt /\
   truthy (VStr "review") = true /\
   truthy (VList [Sample.rename_status]) = true /\
   is_Some (collections (world_of (run_items Sample.draft_rule (__init__ Sample.two_tags)))
              !! _notes (world_of (run_items Sample.draft_rule (__init__ Sample.two_tags))))) /\
  coll (world_of (rule (VStr "review") (VList [Sample.rename_status])
                    (world_of (run_items Sample.draft_rule (__init__ Sample.two_tags)))))
    = filter (fun n =>
                note_matches
                  (dicts (world_of (run_items Sample.draft_rule (__init__ Sample.two_tags))))
                  (tag_criterion (VStr "review")) n = true)
        (coll (world_of (run_items Sample.draft_rule (__init__ Sample.two_tags)))).
Proof.
  assert (H1 : result_of (run_items Sample.draft_rule (__init__ Sample.two_tags)) = Ret tt)
    by (vm_compute; reflexivity).
  assert (H2 : is_Some
            (collections (world_of (run_items Sample.draft_rule (__init__ Sample.two_tags)))
               !! _notes (world_of (run_items Sample.draft_rule (__init__ Sample.two_tags)))))
    by (vm_compute; eauto).
  split; [repeat split; assumption|].
  destruct selection_is_cumulative as (_ & H & _).
  exact (proj1 (proj2 (proj2
           (H Sample.draft_rule (VStr "review") (VList [Sample.rename_status]) []
              (__init__ Sample.two_tags) H1 eq_refl eq_refl H2)))).
Defined.

(** In the vault with one document per tag, the rule for [review] comes
    after the rule for [draft] and finds nothing to select: [c.md] has
    already left the collection. *)
Example review_after_draft_selects_nothing :
  coll (world_of (run_items
                    (Sample.draft_rule ++ [GYield (VStr "review") (VList [Sample.rename_status])])
                    (__init__ Sample.two_tags))) = [] /\
  length (_all_changes
            (world_of (run_items
               (Sample.draft_rule ++ [GYield (VStr "review") (VList [Sample.rename_status])])
               (__init__ Sample.two_tags)))) = 1.
Proof. split; vm_compute; reflexivity. Qed.

(** ** The operations work on the current note and the current tracker *)

#[local] Instance ops_frame_preorder : PreOrder ops_frame.
Proof.
  split.
  - intros w. repeat split; try done. intros l t Ht. exists t. repeat split; done.
  - intros w1 w2 w3 (Hn & Hc & Ha & Hcs & Hns & Hd & Hl & Ht)
      (Hn' & Hc' & Ha' & Hcs' & Hns' & Hd' & Hl' & Ht').
    repeat split; try congruence.
    + intros l H. rewrite Hd'; [apply Hd, H|]. intros n. rewrite Hn. apply H.
    + intros l H. apply Hl', Hl, H.
    + intros l t H. destruct (Ht l t H) as (t' & H' & Hf & Ho & Hnw & He).
      destruct (Ht' l t' H') as (t'' & H'' & Hf' & Ho' & Hnw' & He').
      exists t''. repeat split; try congruence.
      intros Hne. rewrite He', He; congruence.
Qed.

Lemma current_metadata_cases w :
  (exists n m, _current_note w = Some n /\ dicts w !! metadata n = Some m /\
               current_metadata w = (Ret (metadata n, m), w, [])) \/
  current_metadata w = (Raise AttributeError, w, []).
Proof.
  destruct (_current_note w) as [n|] eqn:Hn.
  - destruct (dicts w !! metadata n) as [m|] eqn:Hm.
    + left. exists n, m. repeat split; try assumption.
      apply current_metadata_live; assumption.
    + right. unfold current_metadata, bind, gets, attr. cbn. rewrite Hn. cbn.
      rewrite Hm. reflexivity.
  - right. unfold current_metadata, bind, gets, attr. cbn. rewrite Hn. reflexivity.
Qed.

Lemma on_change_tracker_dead w f :
  trackers w !! _change_tracker w = None ->
  on_change_tracker f w = (Raise AttributeError, w, []).
Proof.
  intros H. unfold on_change_tracker, bind, gets, attr. cbn. rewrite H. reflexivity.
Qed.

Lemma ops_frame_set_dict w n m m' :
  _current_note w = Some n ->
  dicts w !! metadata n = Some m ->
  ops_frame w (with_dicts <[metadata n := m']> w).
Proof.
  intros Hn Hm. repeat split; cbn.
  - intros l H. apply lookup_insert_ne. apply H, Hn.
  - intros l H. destruct (decide (metadata n = l)) as [<-|Hne].
    + rewrite lookup_insert_eq. eauto.
    + rewrite lookup_insert_ne by assumption. exact H.
  - intros l t Ht. exists t. repeat split; done.
Qed.

Lemma ops_frame_set_tracker w t f :
  trackers w !! _change_tracker w = Some t ->
  PropertyChangeTracker._filename (f t) = PropertyChangeTracker._filename t ->
  PropertyChangeTracker._old_frontmatter (f t) = PropertyChangeTracker._old_frontmatter t ->
  PropertyChangeTracker._new_frontmatter (f t) = PropertyChangeTracker._new_frontmatter t ->
  ops_frame w (with_trackers <[_change_tracker w := f t]> w).
Proof.
  intros Ht Hf Ho Hn. repeat split; cbn; try done.
  intros l t0 Hl. destruct (decide (_change_tracker w = l)) as [<-|Hne].
  - rewrite lookup_insert_eq. exists (f t).
    assert (t0 = t) by congruence. subst t0. repeat split; try assumption. done.
  - rewrite lookup_insert_ne by assumption. exists t0. repeat split; done.
Qed.

Lemma metadata_has_ops k : keeps ops_frame silent (metadata_has k).
Proof.
  intros w. unfold metadata_has.
  destruct (current_metadata_cases w) as [(n & m & Hn & Hm & Hc)|Hc].
  - rewrite (bind_ret_l _ _ _ _ _ _ Hc). cbn. split; reflexivity.
  - rewrite (bind_raise_l _ _ _ _ _ _ Hc). cbn. split; reflexivity.
Qed.

Lemma metadata_get_ops k : keeps ops_frame silent (metadata_get k).
Proof.
  intros w. unfold metadata_get.
  destruct (current_metadata_cases w) as [(n & m & Hn & Hm & Hc)|Hc].
  - rewrite (bind_ret_l _ _ _ _ _ _ Hc). cbn. split; reflexivity.
  - rewrite (bind_raise_l _ _ _ _ _ _ Hc). cbn. split; reflexivity.
Qed.

Lemma metadata_add_ops k v ty : keeps ops_frame silent (metadata_add k v ty).
Proof.
  intros w. unfold metadata_add.
  destruct (current_metadata_cases w) as [(n & m & Hn & Hm & Hc)|Hc].
  - rewrite (bind_ret_l _ _ _ _ _ _ Hc). cbn. split; [|reflexivity].
    apply (ops_frame_set_dict w n m); assumption.
  - rewrite (bind_raise_l _ _ _ _ _ _ Hc). cbn. split; reflexivity.
Qed.

Lemma metadata_remove_ops k : keeps ops_frame silent (metadata_remove k).
Proof.
  intros w. unfold metadata_remove.
  destruct (current_metadata_cases w) as [(n & m & Hn & Hm & Hc)|Hc].
  - rewrite (bind_ret_l _ _ _ _ _ _ Hc). cbn. split; [|reflexivity].
    apply (ops_frame_set_dict w n m); assumption.
  - rewrite (bind_raise_l _ _ _ _ _ _ Hc). cbn. split; reflexivity.
Qed.

Lemma on_change_tracker_ops f :
  (forall t, PropertyChangeTracker._filename (f t) = PropertyChangeTracker._filename t /\
             PropertyChangeTracker._old_frontmatter (f t)
               = PropertyChangeTracker._old_frontmatter t /\
             PropertyChangeTracker._new_frontmatter (f t)
               = PropertyChangeTracker._new_frontmatter t) ->
  keeps ops_frame silent (on_change_tracker f).
Proof.
  intros Hf w. destruct (trackers w !! _change_tracker w) as [t|] eqn:Ht.
  - rewrite (on_change_tracker_live _ _ _ Ht). cbn. split; [|reflexivity].
    destruct (Hf t) as (H1 & H2 & H3). apply ops_frame_set_tracker; assumption.
  - rewrite (on_change_tracker_dead _ _ Ht). cbn. split; reflexivity.
Qed.

Ltac ops_step :=
  first [ apply metadata_has_ops | apply metadata_get_ops | apply metadata_add_ops
        | apply metadata_remove_ops
        | apply on_change_tracker_ops; intros ?; repeat split
        | keeps_step ].

Lemma rename_property_ops old new : keeps ops_frame silent (_rename_property old new).
Proof. unfold _rename_property. repeat ops_step. Qed.

Lemma add_property_ops prop value : keeps ops_frame silent (_add_property prop value).
Proof. unfold _add_property. repeat ops_step. Qed.

Lemma remove_property_ops prop : keeps ops_frame silent (_remove_property prop).
Proof. unfold _remove_property. repeat ops_step. Qed.

Lemma as_name_ops v : keeps ops_frame silent (as_name v).
Proof. unfold as_name. repeat keeps_step. Qed.

Lemma process_property_ops prop : keeps ops_frame silent (process_property prop).
Proof.
  unfold process_property.
  repeat first [ apply as_name_ops | apply rename_property_ops | apply add_property_ops
               | apply remove_property_ops | keeps_step ].
Qed.

Lemma process_properties_ops properties :
  keeps ops_frame silent (_process_properties properties).
Proof.
  unfold _process_properties.
  repeat first [apply process_property_ops | keeps_step].
Qed.

(** ** Visiting a note *)

Lemma bind_ret_nil {A B} (m : M A) (k : A -> M B) w a w1 :
  m w = (Ret a, w1, []) -> bind m k w = k a w1.
Proof.
  intros H. unfold bind. rewrite H. destruct (k a w1) as [[o w2] l2]. reflexivity.
Qed.

Lemma alloc_dict_eval m w :
  alloc_dict m w
    = (Ret (fresh (dom (dicts w))), with_dicts <[fresh (dom (dicts w)) := m]> w, []).
Proof. reflexivity. Qed.

Lemma alloc_tracker_eval t w :
  alloc_tracker t w
    = (Ret (fresh (dom (trackers w))), with_trackers <[fresh (dom (trackers w)) := t]> w, []).
Proof. reflexivity. Qed.

Lemma deepcopy_live l m w :
  dicts w !! l = Some m ->
  deepcopy l w
    = (Ret (fresh (dom (dicts w))), with_dicts <[fresh (dom (dicts w)) := m]> w, []).
Proof.
  intros H. unfold deepcopy.
  rewrite (bind_ret_nil (gets (fun w => dicts w !! l)) _ w (Some m) w
             (f_equal (fun o => (Ret o, w, [])) H)).
  reflexivity.
Qed.

Lemma fresh_ne {V} (d : gmap loc V) (l : loc) : is_Some (d !! l) -> fresh (dom d) <> l.
Proof.
  intros H Heq. apply (is_fresh (dom d)). rewrite Heq. apply elem_of_dom. exact H.
Qed.

Ltac norm_world :=
  unfold with_dicts, with_trackers, with_collections, with_current_note,
    with_all_changes, with_change_tracker, with_disk, with_archive;
  cbn [dicts trackers collections _notes _current_note _all_changes _change_tracker
       disk archive].

Lemma process_note_start properties n w m :
  dicts w !! metadata n = Some m ->
  let e1 := fresh (dom (dicts w)) in
  let d1 := <[e1 := ∅]> (dicts w) in
  let e2 := fresh (dom d1) in
  let d2 := <[e2 := ∅]> d1 in
  let c := fresh (dom d2) in
  let tl := fresh (dom (trackers w)) in
  process_note properties n w =
    (_process_properties properties ;;;
     lm <- current_metadata ;;
     new <- deepcopy (fst lm) ;;
     on_change_tracker (PropertyChangeTracker.set_new_frontmatter new) ;;;
     t <- gets _change_tracker ;;
     modify (with_all_changes (fun cs => cs ++ [t])))
      (mkWorld (<[c := m]> d2)
         (<[tl := PropertyChangeTracker.Tracker (path n) c e2 [] []]> (trackers w))
         (collections w) (_notes w) (Some n) (_all_changes w) tl (disk w) (archive w)).
Proof.
  intros Hm e1 d1 e2 d2 c tl.
  destruct w as [ds ts cs ns cn ac ct dk ar].
  cbn [dicts trackers collections _notes _current_note _all_changes _change_tracker
       disk archive] in *.
  unfold process_note.
  rewrite (bind_ret_nil (modify _) _ _ tt _ eq_refl). norm_world.
  rewrite (bind_ret_nil _ _ _ _ _ (alloc_dict_eval ∅ _)). norm_world.
  fold e1. fold d1.
  rewrite (bind_ret_nil _ _ _ _ _ (alloc_dict_eval ∅ _)). norm_world.
  fold e2. fold d2.
  rewrite (bind_ret_nil _ _ _ _ _ (alloc_tracker_eval _ _)). norm_world.
  fold tl.
  rewrite (bind_ret_nil (modify _) _ _ tt _ eq_refl). norm_world.
  assert (Hm2 : d2 !! metadata n = Some m).
  { subst d2 d1. rewrite !lookup_insert_ne; [exact Hm|..].
    - subst e1. apply fresh_ne. eauto.
    - subst e2. apply fresh_ne. rewrite lookup_insert_ne; [eauto|].
      apply fresh_ne. eauto. }
  match goal with
  | |- bind (deepcopy (metadata n)) ?k ?w0 = _ =>
      rewrite (bind_ret_nil (deepcopy (metadata n)) k w0 _ _ (deepcopy_live _ m w0 Hm2))
  end.
  norm_world. fold c.
  match goal with
  | |- bind (on_change_tracker ?f) ?k ?w0 = _ =>
      rewrite (bind_ret_nil (on_change_tracker f) k w0 tt _
                 (on_change_tracker_live w0 (PropertyChangeTracker.__init__ (path n) e1 e2) f
                    (lookup_insert_eq _ _ _)))
  end.
  norm_world. rewrite insert_insert_eq. reflexivity.
Qed.

Lemma process_note_end w n m' t :
  _current_note w = Some n ->
  dicts w !! metadata n = Some m' ->
  trackers w !! _change_tracker w = Some t ->
  (lm <- current_metadata ;;
   new <- deepcopy (fst lm) ;;
   on_change_tracker (PropertyChangeTracker.set_new_frontmatter new) ;;;
   t <- gets _change_tracker ;;
   modify (with_all_changes (fun cs => cs ++ [t]))) w
  = (Ret tt,
     mkWorld (<[fresh (dom (dicts w)) := m']> (dicts w))
       (<[_change_tracker w :=
            PropertyChangeTracker.set_new_frontmatter (fresh (dom (dicts w))) t]> (trackers w))
       (collections w) (_notes w) (_current_note w)
       (_all_changes w ++ [_change_tracker w]) (_change_tracker w) (disk w) (archive w),
     []).
Proof.
  intros Hn Hm Ht.
  rewrite (bind_ret_nil _ _ _ _ _ (current_metadata_live w n m' Hn Hm)).
  cbn [fst].
  rewrite (bind_ret_nil _ _ _ _ _ (deepcopy_live _ m' w Hm)).
  match goal with
  | |- bind (on_change_tracker ?f) ?k ?w0 = _ =>
      rewrite (bind_ret_nil (on_change_tracker f) k w0 tt _
                 (on_change_tracker_live w0 t f Ht))
  end.
  reflexivity.
Qed.

(** The state in which the operations of a visit start, and what they make
    of it. *)
Lemma process_note_ops properties n w m :
  session_sound w ->
  In n (coll w) ->
  dicts w !! metadata n = Some m ->
  let e1 := fresh (dom (dicts w)) in
  let d1 := <[e1 := ∅]> (dicts w) in
  let e2 := fresh (dom d1) in
  let d2 := <[e2 := ∅]> d1 in
  let c := fresh (dom d2) in
  let tl := fresh (dom (trackers w)) in
  let w0 := mkWorld (<[c := m]> d2)
              (<[tl := PropertyChangeTracker.Tracker (path n) c e2 [] []]> (trackers w))
              (collections w) (_notes w) (Some n) (_all_changes w) tl (disk w) (archive w) in
  let w1 := world_of (_process_properties properties w0) in
  _current_note w1 = Some n /\ _change_tracker w1 = tl /\
  _all_changes w1 = _all_changes w /\ coll w1 = coll w /\
  (forall l, is_Some (dicts w !! l) -> is_Some (dicts w1 !! l)) /\
  (forall l, is_Some (dicts w !! l) -> l <> metadata n -> dicts w1 !! l = dicts w !! l) /\
  dicts w1 !! c = Some m /\ c <> metadata n /\ ~ is_Some (dicts w !! c) /\
  (forall l t, trackers w !! l = Some t -> trackers w1 !! l = Some t /\ l <> tl) /\
  (exists t', trackers w1 !! tl = Some t' /\
              PropertyChangeTracker._old_frontmatter t' = c).
Proof.
  intros [Hlive Hsess] Hin Hm e1 d1 e2 d2 c tl w0 w1.
  destruct (process_properties_ops properties w0)
    as [(Hcn & Hct & Hac & Hcs & Hns & Hd & Hl & Ht) _].
  fold w1 in Hcn, Hct, Hac, Hcs, Hns, Hd, Hl, Ht.
  assert (Hfresh : forall l, is_Some (dicts w !! l) -> l <> e1 /\ l <> e2 /\ l <> c).
  { intros l Hsome. repeat split; intros ->.
    - apply (fresh_ne (dicts w) e1 Hsome). reflexivity.
    - apply (fresh_ne d1 e2); [|reflexivity].
      apply lookup_insert_is_Some'. right. exact Hsome.
    - apply (fresh_ne d2 c); [|reflexivity].
      apply lookup_insert_is_Some'. right.
      apply lookup_insert_is_Some'. right. exact Hsome. }
  assert (Hw0 : forall l, is_Some (dicts w !! l) -> dicts w0 !! l = dicts w !! l).
  { intros l Hsome. destruct (Hfresh l Hsome) as (H1 & H2 & H3).
    subst w0 d2 d1. cbn. rewrite !lookup_insert_ne by congruence. reflexivity. }
  assert (Hcm : c <> metadata n) by (intros Heq; apply (Hfresh (metadata n)); eauto).
  assert (Hnc : ~ is_Some (dicts w !! c)) by (intros Hs; apply (Hfresh c Hs); reflexivity).
  split; [exact Hcn|]. split; [exact Hct|]. split; [exact Hac|].
  split; [unfold coll; rewrite Hns, Hcs; reflexivity|].
  split; [intros l Hsome; apply Hl; rewrite Hw0; assumption|].
  split.
  { intros l Hsome Hne. rewrite Hd; [apply Hw0, Hsome|].
    intros n0 Hn0. cbn in Hn0. injection Hn0 as <-. congruence. }
  split.
  { rewrite Hd; [subst w0; cbn; apply lookup_insert_eq|].
    intros n0 Hn0. cbn in Hn0. injection Hn0 as <-. congruence. }
  split; [exact Hcm|]. split; [exact Hnc|]. split.
  - intros l t Hlt.
    assert (Hne : l <> tl).
    { intros ->. apply (fresh_ne (trackers w) tl); [eauto|reflexivity]. }
    split; [|exact Hne].
    destruct (Ht l t) as (t' & Ht' & _ & _ & _ & Heq).
    { subst w0. cbn. rewrite lookup_insert_ne by congruence. exact Hlt. }
    rewrite Ht', Heq; [reflexivity|exact Hne].
  - destruct (Ht tl (PropertyChangeTracker.Tracker (path n) c e2 [] []))
      as (t' & Ht' & _ & Ho & _).
    { subst w0. cbn. apply lookup_insert_eq. }
    exists t'. split; [exact Ht'|exact Ho].
Qed.

Lemma process_note_session properties n w :
  session_sound w ->
  In n (coll w) ->
  let r := process_note properties n w in
  session_sound (world_of r) /\ session_kept w (world_of r) /\
  collections (world_of r) = collections w /\ _notes (world_of r) = _notes w /\
  (result_of r = Ret tt ->
   exists tl t m m',
     dicts w !! metadata n = Some m /\
     dicts (world_of r) !! metadata n = Some m' /\
     _all_changes (world_of r) = _all_changes w ++ [tl] /\
     trackers (world_of r) !! tl = Some t /\
     PropertyChangeTracker._old_frontmatter t <> metadata n /\
     PropertyChangeTracker._new_frontmatter t <> metadata n /\
     PropertyChangeTracker._old_frontmatter t <> PropertyChangeTracker._new_frontmatter t /\
     dicts (world_of r) !! PropertyChangeTracker._old_frontmatter t = Some m /\
     dicts (world_of r) !! PropertyChangeTracker._new_frontmatter t = Some m').
Proof.
  intros Hs Hin r. pose proof Hs as [Hlive Hsess].
  destruct (Hlive n Hin) as [m Hm].
  destruct (process_note_keeps properties n w) as [(_ & _ & Hnotes & Hcolls) _].
  fold r in Hnotes, Hcolls.
  assert (Hcoll' : coll (world_of r) = coll w) by (unfold coll; rewrite Hnotes, Hcolls; done).
  split; [|split; [|split; [exact Hcolls|split; [exact Hnotes|]]]];
    revert Hcoll'; clear Hnotes Hcolls; subst r;
    pose proof (process_note_ops properties n w m Hs Hin Hm) as Hops; cbv zeta in Hops;
    rewrite (process_note_start properties n w m Hm); cbv zeta;
    set (w0 := mkWorld _ _ _ _ _ _ _ _ _) in *;
    rewrite bind_world, ?bind_result;
    set (w1 := world_of (_process_properties properties w0)) in *;
    destruct Hops
      as (Hcn & Hct & Hac & Hcoll & Hl & Hd & Hc & Hcm & Hnc & Ht & (t' & Ht' & Ho));
    destruct (result_of (_process_properties properties w0)) as [[]|e];
    try (destruct (Hl (metadata n)) as [m' Hm']; [eauto|];
         rewrite <- Hct in Ht';
         rewrite (process_note_end w1 n m' t' Hcn Hm' Ht');
         unfold world_of, result_of; cbn [fst snd]);
    intros Hcoll'.
  - (* sound, operations returned *)
    split.
    + intros n' Hn'. change (In n' (coll w1)) in Hn'; rewrite Hcoll in Hn'. cbn.
      apply lookup_insert_is_Some'. right. apply Hl, Hlive, Hn'.
    + intros tl'. cbn [_all_changes]. rewrite Hac.
      intros [Hold|[<-|[]]]%in_app_or.
      * destruct (Hsess tl' Hold) as (t0 & Ht0 & Hso & Hsn & Hna).
        destruct (Ht tl' t0 Ht0) as [Ht1 Hne].
        exists t0. cbn. rewrite lookup_insert_ne by congruence.
        split; [exact Ht1|].
        split; [apply lookup_insert_is_Some'; right; apply Hl, Hso|].
        split; [apply lookup_insert_is_Some'; right; apply Hl, Hsn|].
        intros n' Hn'. change (In n' (coll w1)) in Hn'; rewrite Hcoll in Hn'. apply Hna, Hn'.
      * eexists. cbn. rewrite lookup_insert_eq. split; [reflexivity|]. cbn. rewrite Ho.
        split; [apply lookup_insert_is_Some'; right; eauto|].
        split; [rewrite lookup_insert_eq; eauto|].
        intros n' Hn'. change (In n' (coll w1)) in Hn'; rewrite Hcoll in Hn'. split.
        -- intros Heq. apply Hnc. rewrite <- Heq. apply Hlive, Hn'.
        -- apply not_eq_sym, fresh_ne. apply Hl, Hlive, Hn'.
  - (* sound, operations raised *)
    split.
    + intros n' Hn'. change (In n' (coll w1)) in Hn'; rewrite Hcoll in Hn'. apply Hl, Hlive, Hn'.
    + intros tl'. rewrite Hac. intros Hold.
      destruct (Hsess tl' Hold) as (t0 & Ht0 & Hso & Hsn & Hna).
      destruct (Ht tl' t0 Ht0) as [Ht1 Hne].
      exists t0. split; [exact Ht1|]. split; [apply Hl, Hso|]. split; [apply Hl, Hsn|].
      intros n' Hn'. change (In n' (coll w1)) in Hn'; rewrite Hcoll in Hn'. apply Hna, Hn'.
  - (* kept, operations returned *)
    split; [exists [_change_tracker w1]; cbn; rewrite Hac; reflexivity|].
    intros tl' Hold.
    destruct (Hsess tl' Hold) as (t0 & Ht0 & Hso & Hsn & Hna).
    destruct (Ht tl' t0 Ht0) as [Ht1 Hne]. cbn.
    split; [rewrite lookup_insert_ne by congruence; congruence|].
    intros t0' Ht0'. assert (t0' = t0) by congruence. subst t0'.
    destruct (Hna n Hin) as [Hno Hnn].
    split.
    + rewrite lookup_insert_ne by (apply fresh_ne, Hl, Hso). apply Hd; [exact Hso|congruence].
    + rewrite lookup_insert_ne by (apply fresh_ne, Hl, Hsn). apply Hd; [exact Hsn|congruence].
  - (* kept, operations raised *)
    split; [exists []; rewrite Hac, app_nil_r; reflexivity|].
    intros tl' Hold.
    destruct (Hsess tl' Hold) as (t0 & Ht0 & Hso & Hsn & Hna).
    destruct (Ht tl' t0 Ht0) as [Ht1 Hne].
    split; [congruence|].
    intros t0' Ht0'. assert (t0' = t0) by congruence. subst t0'.
    destruct (Hna n Hin) as [Hno Hnn].
    split; apply Hd; try assumption; congruence.
  - (* the new tracker *)
    intros _.
    exists (_change_tracker w1), (PropertyChangeTracker.set_new_frontmatter
                                    (fresh (dom (dicts w1))) t'), m, m'.
    cbn. rewrite Hac, !lookup_insert_eq, Ho.
    assert (Hfm : fresh (dom (dicts w1)) <> metadata n) by (apply fresh_ne; eauto).
    split; [exact Hm|].
    split; [rewrite lookup_insert_ne by exact Hfm; exact Hm'|].
    split; [reflexivity|].
    split; [reflexivity|].
    split; [exact Hcm|].
    split; [exact Hfm|].
    split; [apply not_eq_sym, fresh_ne; eauto|].
    split; [rewrite lookup_insert_ne by (apply fresh_ne; eauto); exact Hc|].
    reflexivity.
  - (* no new tracker when the operations raise *)
    discriminate.
Qed.

(** ** The session across the run *)

Lemma session_kept_refl w : session_kept w w.
Proof. split; [exists []; by rewrite app_nil_r|]. intros tl _. split; done. Qed.

Lemma session_kept_trans w1 w2 w3 :
  session_kept w1 w2 -> session_kept w2 w3 -> session_kept w1 w3.
Proof.
  intros [[m1 Hm1] H1] [[m2 Hm2] H2]. split.
  - exists (m1 ++ m2). rewrite Hm2, Hm1, app_assoc. reflexivity.
  - intros tl Hin.
    assert (Hin2 : In tl (_all_changes w2)) by (rewrite Hm1; apply in_or_app; by left).
    destruct (H1 tl Hin) as [Ht1 Hd1]. destruct (H2 tl Hin2) as [Ht2 Hd2].
    split; [congruence|]. intros t Ht.
    destruct (Hd1 t Ht) as [Ho1 Hn1].
    destruct (Hd2 t) as [Ho2 Hn2]; [congruence|].
    split; congruence.
Qed.

(** A step that touches neither mappings nor trackers nor the session, and
    adds no note to the collection. *)
Lemma session_shrink w w' :
  dicts w' = dicts w ->
  trackers w' = trackers w ->
  _all_changes w' = _all_changes w ->
  (forall n, In n (coll w') -> In n (coll w)) ->
  session_sound w ->
  session_sound w' /\ session_kept w w'.
Proof.
  intros Hd Ht Ha Hc [Hlive Hsess]. split; [split|split].
  - intros n Hn. rewrite Hd. apply Hlive, Hc, Hn.
  - intros tl. rewrite Ha, Ht, Hd. intros Hin.
    destruct (Hsess tl Hin) as (t & H1 & H2 & H3 & H4).
    exists t. repeat split; try assumption; apply H4, Hc; assumption.
  - exists []. rewrite Ha, app_nil_r. reflexivity.
  - intros tl _. rewrite Ht, Hd. split; done.
Qed.

Lemma for_each_process_note_session properties l w :
  session_sound w ->
  (forall n, In n l -> In n (coll w)) ->
  let w' := world_of (for_each l (process_note properties) w) in
  session_sound w' /\ session_kept w w'.
Proof.
  revert w. induction l as [|n l IH]; intros w Hs Hl w'; subst w'.
  - split; [exact Hs|apply session_kept_refl].
  - cbn [for_each]. rewrite bind_world.
    destruct (process_note_session properties n w Hs (Hl n (or_introl eq_refl)))
      as (Hs1 & Hk1 & Hc1 & Hn1 & _).
    destruct (result_of (process_note properties n w)); [|split; assumption].
    destruct (IH (world_of (process_note properties n w)) Hs1) as [Hs2 Hk2].
    { intros n' Hn'. unfold coll. rewrite Hn1, Hc1. apply Hl. by right. }
    split; [exact Hs2|]. eapply session_kept_trans; eassumption.
Qed.

Lemma get_filtered_notes_dangling meta_data w :
  collections w !! _notes w = None ->
  _get_filtered_notes meta_data w = (Raise AttributeError, w, []).
Proof.
  intros H. unfold _get_filtered_notes.
  rewrite (bind_ret_l (gets _notes) _ w (_notes w) w [] eq_refl).
  rewrite (bind_raise_l _ _ _ _ _ _ (notes_filter_dangling _ meta_data _ H)).
  reflexivity.
Qed.

Lemma rule_session tag properties w :
  session_sound w ->
  session_sound (world_of (rule tag properties w)) /\
  session_kept w (world_of (rule tag properties w)).
Proof.
  intros Hs.
  destruct (truthy tag) eqn:Ht;
    [|unfold rule; rewrite Ht; split; [exact Hs|apply session_kept_refl]].
  destruct (truthy properties) eqn:Hp;
    [|unfold rule; rewrite Ht, Hp; split; [exact Hs|apply session_kept_refl]].
  destruct (collections w !! _notes w) as [ns|] eqn:Hc.
  - destruct (rule_live tag properties w ns Ht Hp Hc) as [-> _]. cbv zeta.
    set (selected := filter _ ns).
    set (w0 := with_collections _ w).
    assert (Hc0 : coll w0 = selected)
      by (unfold coll; subst w0; cbn; by rewrite lookup_insert_eq).
    destruct (session_shrink w w0) as [Hs0 Hk0]; try done.
    { intros n. rewrite Hc0. unfold coll. rewrite Hc. cbn. subst selected.
      rewrite <- !list_elem_of_In. intros Hn%list_elem_of_filter. apply Hn. }
    destruct (for_each_process_note_session properties selected w0 Hs0) as [Hs1 Hk1].
    { intros n. by rewrite Hc0. }
    split; [exact Hs1|]. exact (session_kept_trans _ _ _ Hk0 Hk1).
  - unfold rule. rewrite Ht, Hp. cbn [negb orb].
    rewrite (bind_raise_l _ _ _ _ _ _ (get_filtered_notes_dangling _ w Hc)).
    split; [exact Hs|apply session_kept_refl].
Qed.

Lemma run_items_session items w :
  session_sound w ->
  session_sound (world_of (run_items items w)) /\
  session_kept w (world_of (run_items items w)).
Proof.
  revert w. induction items as [|[d|tag properties] items IH]; intros w Hs.
  - split; [exact Hs|apply session_kept_refl].
  - cbn [run_items]. rewrite bind_world. cbn. apply IH, Hs.
  - cbn [run_items]. rewrite bind_world.
    destruct (rule_session tag properties w Hs) as [Hs1 Hk1].
    destruct (result_of (rule tag properties w)); [|split; assumption].
    destruct (IH _ Hs1) as [Hs2 Hk2].
    split; [exact Hs2|]. eapply session_kept_trans; eassumption.
Qed.

Lemma run_loop_session g w :
  session_sound w ->
  session_sound (world_of (run_loop g w)) /\ session_kept w (world_of (run_loop g w)).
Proof.
  intros Hs. unfold run_loop. rewrite bind_world.
  destruct (run_items_session (fst g) w Hs) as [Hs1 Hk1].
  destruct (result_of (run_items (fst g) w)); [|split; assumption].
  destruct (snd g); cbn; split; assumption.
Qed.

Lemma finish_session env w :
  session_sound w ->
  session_sound (world_of (_finish env w)) /\ session_kept w (world_of (_finish env w)).
Proof.
  intros Hs.
  assert (Hsame : forall o l, session_sound (world_of (o : outcome unit, w, l : list event)) /\
                              session_kept w (world_of (o, w, l)))
    by (intros; split; [exact Hs|apply session_kept_refl]).
  destruct (finish_eval env w) as (ls & _ & [[e ->]|Hf]); [apply Hsame|].
  destruct (on_input env) as [ei|].
  { destruct ei; rewrite Hf; apply Hsame. }
  destruct (on_make_archive env) as [ea|].
  - rewrite Hf. destruct (is_Exception ea); unfold world_of; cbn [fst snd];
      apply session_shrink; try done; intros n Hn; exact Hn.
  - destruct Hf as (o & w' & (_ & Hd & Hc & Hn & _ & Ht & Ha) & ->).
    unfold world_of. cbn [fst snd].
    apply session_shrink; try assumption.
    intros n. unfold coll. rewrite Hn, Hc. cbn. done.
Qed.

Lemma load_notes_live files ds :
  (forall n, In n (fst (load_notes files ds)) ->
     is_Some (snd (load_notes files ds) !! metadata n)) /\
  (forall l, is_Some (ds !! l) -> is_Some (snd (load_notes files ds) !! l)).
Proof.
  revert ds. induction files as [|[p m] files IH]; intros ds.
  - split; [intros n []|done].
  - cbn [load_notes].
    destruct (IH (<[fresh (dom ds) := m]> ds)) as [IH1 IH2].
    destruct (load_notes files (<[fresh (dom ds) := m]> ds)) as [ns ds'].
    cbn [fst snd] in *. split.
    + intros n [<-|Hn]; [|apply IH1, Hn]. cbn. apply IH2.
      rewrite lookup_insert_eq. eauto.
    + intros l Hl. apply IH2. apply lookup_insert_is_Some'. by right.
Qed.

Lemma init_sound files : session_sound (__init__ files).
Proof.
  unfold __init__. destruct (load_notes_live files ∅) as [H1 _].
  destruct (load_notes files ∅) as [ns ds]. cbn [fst snd] in H1.
  split; [|intros tl []].
  intros n Hn. unfold coll in Hn. cbn in Hn. rewrite lookup_singleton_eq in Hn. cbn in Hn.
  cbn. apply lookup_insert_is_Some'. right. apply lookup_insert_is_Some'. right.
  apply H1, Hn.
Qed.

(** C9. The processor starts with a sound session.  Visiting a note of the
    collection appends one tracker whose old and new front-matter are
    mapping objects of their own, different from each other and from the
    mapping of every note of the collection, holding what the note's mapping
    held before and after its operations.  Every later step of the run
    (another rule and its visits, the rest of the loop, [_finish]) leaves the
    trackers of the session and the mappings they refer to as they were. *)
Theorem snapshots_are_independent :
  (forall files, session_sound (__init__ files)) /\
  (forall properties n w,
     session_sound w ->
     In n (coll w) ->
     let r := process_note properties n w in
     session_sound (world_of r) /\ session_kept w (world_of r) /\
     (result_of r = Ret tt ->
      exists tl t m m',
        dicts w !! metadata n = Some m /\
        dicts (world_of r) !! metadata n = Some m' /\
        _all_changes (world_of r) = _all_changes w ++ [tl] /\
        trackers (world_of r) !! tl = Some t /\
        PropertyChangeTracker._old_frontmatter t <> metadata n /\
        PropertyChangeTracker._new_frontmatter t <> metadata n /\
        PropertyChangeTracker._old_frontmatter t
          <> PropertyChangeTracker._new_frontmatter t /\
        dicts (world_of r) !! PropertyChangeTracker._old_frontmatter t = Some m /\
        dicts (world_of r) !! PropertyChangeTracker._new_frontmatter t = Some m')) /\
  (forall w,
     session_sound w ->
     (forall tag properties,
        session_sound (world_of (rule tag properties w)) /\
        session_kept w (world_of (rule tag properties w))) /\
     (forall items,
        session_sound (world_of (run_items items w)) /\
        session_kept w (world_of (run_items items w))) /\
     (forall env,
        session_sound (world_of (_finish env w)) /\
        session_kept w (world_of (_finish env w))) /\
     (forall env yaml,
        session_sound (world_of (run env yaml w)) /\
        session_kept w (world_of (run env yaml w)))).
Proof.
  split; [exact init_sound|]. split.
  - intros properties n w Hs Hin r.
    destruct (process_note_session properties n w Hs Hin) as (H1 & H2 & _ & _ & H3).
    split; [exact H1|]. split; [exact H2|exact H3].
  - intros w Hs. split; [intros; apply rule_session, Hs|].
    split; [intros; apply run_items_session, Hs|].
    split; [intros; apply finish_session, Hs|].
    intros env yaml. unfold run. rewrite bind_world.
    destruct (run_loop_session (get_next_tag yaml) w Hs) as [Hs1 Hk1].
    destruct (result_of (run_loop (get_next_tag yaml) w)); [|split; assumption].
    destruct (finish_session env _ Hs1) as [Hs2 Hk2].
    split; [exact Hs2|]. exact (session_kept_trans _ _ _ Hk1 Hk2).
Qed.

Lemma snapshots_are_independent_witness :
  (session_sound MoreSamples.after_draft /\
   In Sample.note_a (coll MoreSamples.after_draft)) /\
  In 1 (_all_changes MoreSamples.after_draft) /\
  (PropertyChangeTracker._old_frontmatter <$> trackers MoreSamples.after_draft !! 1) = Some 6 /\
  (PropertyChangeTracker._new_frontmatter <$> trackers MoreSamples.after_draft !! 1) = Some 7 /\
  (dicts MoreSamples.after_draft !! 0 ≫= (.!! "state")) = Some (VStr "todo") /\
  (dicts (world_of (process_note (VList [MoreSamples.rename_state]) Sample.note_a
                      MoreSamples.after_draft)) !! 0 ≫= (.!! "state")) = None /\
  trackers (world_of (process_note (VList [MoreSamples.rename_state]) Sample.note_a
                        MoreSamples.after_draft)) !! 1
    = trackers MoreSamples.after_draft !! 1 /\
  dicts (world_of (process_note (VList [MoreSamples.rename_state]) Sample.note_a
                     MoreSamples.after_draft)) !! 6
    = dicts MoreSamples.after_draft !! 6 /\
  dicts (world_of (process_note (VList [MoreSamples.rename_state]) Sample.note_a
                     MoreSamples.after_draft)) !! 7
    = dicts MoreSamples.after_draft !! 7.
Proof.
  destruct snapshots_are_independent as (Hinit & Hvisit & Hlater).
  assert (Hs : session_sound MoreSamples.after_draft)
    by exact (proj1 (proj1 (proj2 (Hlater _ (Hinit Sample.vault))) Sample.draft_rule)).
  assert (Hin : In Sample.note_a (coll MoreSamples.after_draft))
    by (vm_compute; left; reflexivity).
  assert (H1 : In 1 (_all_changes MoreSamples.after_draft))
    by (vm_compute; left; reflexivity).
  assert (Ht : exists t, trackers MoreSamples.after_draft !! 1 = Some t /\
                 PropertyChangeTracker._old_frontmatter t = 6 /\
                 PropertyChangeTracker._new_frontmatter t = 7)
    by (vm_compute; eexists; repeat split).
  destruct Ht as (t & Ht & Hold & Hnew).
  pose proof (proj1 (proj2 (Hvisit (VList [MoreSamples.rename_state]) Sample.note_a
                              MoreSamples.after_draft Hs Hin))) as [_ Hkept].
  destruct (Hkept 1 H1) as [Hsame Hsnap].
  destruct (Hsnap t Ht) as [Ho Hn]. rewrite Hold in Ho. rewrite Hnew in Hn.
  split; [split; [exact Hs|exact Hin]|].
  split; [exact H1|].
  split; [vm_compute; reflexivity|]. split; [vm_compute; reflexivity|].
  split; [vm_compute; reflexivity|]. split; [vm_compute; reflexivity|].
  split; [exact Hsame|]. split; [exact Ho|exact Hn].
Defined.

(** The scenario of the specification, run to the end: the tracker of
    [a.md] holds the front-matter with [status] as old and with [state] as
    new snapshot, in two mappings that are not the note's. *)
Example end_to_end_snapshots :
  let w := world_of (run Sample.confirm Sample.config (__init__ Sample.vault)) in
  _all_changes w = [1] /\
  (PropertyChangeTracker._old_frontmatter <$> trackers w !! 1) = Some 6 /\
  (PropertyChangeTracker._new_frontmatter <$> trackers w !! 1) = Some 7 /\
  dicts w !! 6 = Some {["tags" := VList [VStr "draft"]; "status" := VStr "todo"]} /\
  dicts w !! 7 = Some {["tags" := VList [VStr "draft"]; "state" := VStr "todo"]} /\
  dicts w !! 0 = Some {["tags" := VList [VStr "draft"]; "state" := VStr "todo"]} /\
  disk w !! "a.md" = Some {["tags" := VList [VStr "draft"]; "state" := VStr "todo"]} /\
  disk w !! "b.md" = Some ∅ /\
  archive w = Some (list_to_map Sample.vault).
Proof.
  cbv zeta. repeat (split; [vm_compute; reflexivity|]). vm_compute. reflexivity.
Qed.

(** * Further properties of the code *)


(** ** Removing, and how operations compose *)

Lemma remove_present w n m t prop v :
  _current_note w = Some n ->
  dicts w !! metadata n = Some m ->
  trackers w !! _change_tracker w = Some t ->
  m !! prop = Some v ->
  _remove_property prop w =
    (Ret tt,
     with_trackers
       <[_change_tracker w :=
           PropertyChangeTracker.add_change "remove" (Some prop) None VNone VNone t]>
       (with_dicts <[metadata n := delete prop m]> w),
     []).
Proof.
  intros Hn Hm Ht Hv. unfold _remove_property.
  rewrite (bind_ret_l _ _ _ _ _ _ (metadata_has_live _ _ _ prop Hn Hm)).
  rewrite (has_true _ _ _ Hv).
  rewrite (bind_ret_l _ _ _ _ _ _ (metadata_remove_live _ _ _ prop Hn Hm)).
  set (w1 := with_dicts _ w).
  assert (Ht1 : trackers w1 !! _change_tracker w1 = Some t) by exact Ht.
  rewrite (on_change_tracker_live _ _ _ Ht1). reflexivity.
Qed.

Lemma remove_absent w n m t prop :
  _current_note w = Some n ->
  dicts w !! metadata n = Some m ->
  trackers w !! _change_tracker w = Some t ->
  m !! prop = None ->
  _remove_property prop w =
    (Ret tt,
     with_trackers
       <[_change_tracker w :=
           PropertyChangeTracker.add_log ("Property '" +:+ prop +:+ "' not found.") t]> w,
     []).
Proof.
  intros Hn Hm Ht Hv. unfold _remove_property.
  rewrite (bind_ret_l _ _ _ _ _ _ (metadata_has_live _ _ _ prop Hn Hm)).
  rewrite (has_false _ _ Hv).
  rewrite (on_change_tracker_live _ _ _ Ht). reflexivity.
Qed.

(** X1. [_remove_property]: a property that is present is deleted, the other
    properties stay, and one change record with action "remove" is appended;
    for a property that is absent the mapping is left as it was and one log
    entry "Property '...' not found." is appended, so that removing twice
    gives one change record and one log entry. *)
Theorem remove_property_effect (w : World) (n : Note) (m : gmap string pyvalue)
    (t : PropertyChangeTracker.t) (prop : string) :
  _current_note w = Some n ->
  dicts w !! metadata n = Some m ->
  trackers w !! _change_tracker w = Some t ->
  let r := _remove_property prop w in
  let r' := (_remove_property prop ;;; _remove_property prop) w in
  result_of r = Ret tt /\ log_of r = [] /\
  dicts (world_of r) = <[metadata n := delete prop m]> (dicts w) /\
  (forall k, k <> prop -> delete prop m !! k = m !! k) /\
  delete prop m !! prop = None /\
  current_logs (world_of r')
    = current_logs (world_of r) ++ ["Property '" +:+ prop +:+ "' not found."] /\
  current_changes (world_of r') = current_changes (world_of r) /\
  dicts (world_of r') = dicts (world_of r) /\
  match m !! prop with
  | Some _ =>
      current_changes (world_of r)
        = PropertyChangeTracker._changes t ++
            [PropertyChangeTracker.Change "remove" (Some prop) None VNone VNone] /\
      current_logs (world_of r) = PropertyChangeTracker._logs t
  | None =>
      current_changes (world_of r) = PropertyChangeTracker._changes t /\
      current_logs (world_of r)
        = PropertyChangeTracker._logs t ++ ["Property '" +:+ prop +:+ "' not found."]
  end.
Proof.
  intros Hn Hm Ht r r'.
  assert (Hstep : exists t1,
            _remove_property prop w =
              (Ret tt,
               with_trackers <[_change_tracker w := t1]>
                 (with_dicts <[metadata n := delete prop m]> w), []) /\
            match m !! prop with
            | Some _ =>
                PropertyChangeTracker._changes t1
                  = PropertyChangeTracker._changes t ++
                      [PropertyChangeTracker.Change "remove" (Some prop) None VNone VNone] /\
                PropertyChangeTracker._logs t1 = PropertyChangeTracker._logs t
            | None =>
                PropertyChangeTracker._changes t1 = PropertyChangeTracker._changes t /\
                PropertyChangeTracker._logs t1
                  = PropertyChangeTracker._logs t ++
                      ["Property '" +:+ prop +:+ "' not found."]
            end).
  { destruct (m !! prop) as [v|] eqn:Hv.
    - eexists. split; [apply (remove_present _ _ _ _ _ _ Hn Hm Ht Hv)|]. split; reflexivity.
    - exists (PropertyChangeTracker.add_log ("Property '" +:+ prop +:+ "' not found.") t).
      split; [|split; reflexivity].
      rewrite (remove_absent _ _ _ _ _ Hn Hm Ht Hv).
      unfold with_dicts, with_trackers. cbn. repeat f_equal.
      rewrite delete_id by assumption. symmetry. apply insert_id. assumption. }
  destruct Hstep as (t1 & Hr & Ht1).
  set (w1 := with_trackers <[_change_tracker w := t1]>
               (with_dicts <[metadata n := delete prop m]> w)) in *.
  assert (Hn1 : _current_note w1 = Some n) by exact Hn.
  assert (Hm1 : dicts w1 !! metadata n = Some (delete prop m))
    by (subst w1; cbn; apply lookup_insert_eq).
  assert (Htr1 : trackers w1 !! _change_tracker w1 = Some t1)
    by (subst w1; cbn; apply lookup_insert_eq).
  assert (Hr' : r' = (Ret tt,
                      with_trackers
                        <[_change_tracker w1 :=
                            PropertyChangeTracker.add_log
                              ("Property '" +:+ prop +:+ "' not found.") t1]> w1, [])).
  { subst r'. rewrite (bind_ret_l _ _ _ _ _ _ Hr).
    rewrite (remove_absent _ _ _ _ _ Hn1 Hm1 Htr1 (lookup_delete_eq _ _)). reflexivity. }
  subst r. rewrite Hr' , Hr. unfold world_of, result_of, log_of. cbn [fst snd].
  unfold current_logs, current_changes. cbn [trackers with_trackers _change_tracker].
  rewrite Htr1, !lookup_insert_eq. cbn.
  split; [reflexivity|]. split; [reflexivity|]. split; [reflexivity|].
  split; [intros k Hk; apply lookup_delete_ne; congruence|].
  split; [apply lookup_delete_eq|].
  split; [reflexivity|]. split; [reflexivity|]. split; [reflexivity|].
  exact Ht1.
Qed.

Lemma remove_property_effect_witness :
  (_current_note Sample.visiting_a = Some Sample.note_a /\
   dicts Sample.visiting_a !! metadata Sample.note_a = Some Sample.frontmatter_a /\
   trackers Sample.visiting_a !! _change_tracker Sample.visiting_a
     = Some (PropertyChangeTracker.__init__ "" 2 3)) /\
  dicts (world_of (_remove_property "status" Sample.visiting_a))
    = <[metadata Sample.note_a := delete "status" Sample.frontmatter_a]>
        (dicts Sample.visiting_a).
Proof.
  assert (H1 : _current_note Sample.visiting_a = Some Sample.note_a) by reflexivity.
  assert (H2 : dicts Sample.visiting_a !! metadata Sample.note_a = Some Sample.frontmatter_a)
    by (vm_compute; reflexivity).
  assert (H3 : trackers Sample.visiting_a !! _change_tracker Sample.visiting_a
               = Some (PropertyChangeTracker.__init__ "" 2 3))
    by (vm_compute; reflexivity).
  split; [auto|].
  exact (proj1 (proj2 (proj2 (remove_property_effect _ _ _ _ "status" H1 H2 H3)))).
Defined.

Lemma bind_assoc {A B C} (m : M A) (k : A -> M B) (k' : B -> M C) w :
  bind (bind m k) k' w = bind m (fun a => bind (k a) k') w.
Proof.
  unfold bind. destruct (m w) as [[[a|e] w1] l1]; [|reflexivity].
  destruct (k a w1) as [[[b|e] w2] l2]; [|reflexivity].
  destruct (k' b w2) as [[o w3] l3]. rewrite app_assoc. reflexivity.
Qed.

Lemma bind_ext {A B} (m : M A) (k k' : A -> M B) w :
  (forall a w', k a w' = k' a w') -> bind m k w = bind m k' w.
Proof.
  intros H. unfold bind. destruct (m w) as [[[a|e] w1] l1]; [|reflexivity].
  rewrite H. reflexivity.
Qed.

Lemma bind_ret_tt (m : M unit) w : bind (ret tt) (fun _ => m) w = m w.
Proof. unfold bind, ret. destruct (m w) as [[o w'] l]. reflexivity. Qed.

Lemma for_each_app {A} (l1 l2 : list A) (body : A -> M unit) w :
  for_each (l1 ++ l2) body w = (for_each l1 body ;;; for_each l2 body) w.
Proof.
  revert w. induction l1 as [|x l1 IH]; intros w.
  - cbn [app for_each]. symmetry. apply bind_ret_tt.
  - cbn [app for_each]. rewrite bind_assoc. apply bind_ext. intros _ w'. apply IH.
Qed.

Lemma process_properties_list props w :
  _process_properties (VList props) w = for_each props process_property w.
Proof.
  unfold _process_properties, py_iter, lift, bind.
  destruct (for_each props process_property w) as [[o w'] l]. reflexivity.
Qed.

(** X2. The operations of a list are applied one after the other to the
    same note: processing a list is processing a first part and then, in the
    state the first part leaves, the rest; when an operation of the first
    part raises, the rest is not applied. *)
Theorem process_properties_sequential (first rest : list pyvalue) (w : World) :
  _process_properties (VList (first ++ rest)) w
    = (_process_properties (VList first) ;;; _process_properties (VList rest)) w /\
  (forall e, result_of (_process_properties (VList first) w) = Raise e ->
     _process_properties (VList (first ++ rest)) w = _process_properties (VList first) w).
Proof.
  assert (H : _process_properties (VList (first ++ rest)) w
              = (_process_properties (VList first) ;;;
                 _process_properties (VList rest)) w).
  { rewrite process_properties_list, for_each_app.
    unfold bind. rewrite (process_properties_list first).
    destruct (for_each first process_property w) as [[[[]|e] w1] l1]; [|reflexivity].
    rewrite (process_properties_list rest). reflexivity. }
  split; [exact H|].
  intros e He. rewrite H. unfold bind.
  destruct (_process_properties (VList first) w) as [[[[]|e'] w1] l1];
    [discriminate|reflexivity].
Qed.

(** The state after an operation that has replaced the mapping of the
    current note and the current tracker. *)
Lemma after_operation w n m1 t1 :
  _current_note w = Some n ->
  let w1 := with_trackers <[_change_tracker w := t1]>
              (with_dicts <[metadata n := m1]> w) in
  _current_note w1 = Some n /\
  dicts w1 !! metadata n = Some m1 /\
  trackers w1 !! _change_tracker w1 = Some t1.
Proof.
  intros Hn w1. split; [exact Hn|]. split; subst w1; cbn; apply lookup_insert_eq.
Qed.

(** X3. Renaming a property and renaming it back restores the mapping of
    the note exactly, when the intermediate name is not in use; the tracker
    records the two renames, in order, with the value carried along. *)
Theorem rename_round_trip (w : World) (n : Note) (m : gmap string pyvalue)
    (t : PropertyChangeTracker.t) (a b : string) (v : pyvalue) :
  _current_note w = Some n ->
  dicts w !! metadata n = Some m ->
  trackers w !! _change_tracker w = Some t ->
  m !! a = Some v ->
  m !! b = None ->
  let r := (_rename_property a b ;;; _rename_property b a) w in
  result_of r = Ret tt /\ log_of r = [] /\
  dicts (world_of r) = dicts w /\
  current_changes (world_of r)
    = PropertyChangeTracker._changes t ++
        [PropertyChangeTracker.Change "rename" (Some a) (Some b) v v;
         PropertyChangeTracker.Change "rename" (Some b) (Some a) v v] /\
  current_logs (world_of r) = PropertyChangeTracker._logs t.
Proof.
  intros Hn Hm Ht Ha Hb r. subst r.
  assert (Hne : a <> b) by congruence.
  rewrite (bind_ret_l _ _ _ _ _ _ (rename_present _ _ _ _ _ b _ Hn Hm Ht Ha)).
  destruct (after_operation w n (delete a (<[b := v]> m))
              (PropertyChangeTracker.add_change "rename" (Some a) (Some b) v v t) Hn)
    as (Hn1 & Hm1 & Ht1).
  set (w1 := with_trackers _ (with_dicts _ w)) in *.
  assert (Hb1 : delete a (<[b := v]> m) !! b = Some v)
    by (rewrite lookup_delete_ne by congruence; apply lookup_insert_eq).
  rewrite (rename_present _ _ _ _ _ a _ Hn1 Hm1 Ht1 Hb1).
  unfold world_of, result_of, log_of, current_changes, current_logs. cbn.
  rewrite !lookup_insert_eq. cbn. rewrite <- app_assoc. cbn.
  repeat split.
  rewrite insert_insert_eq.
  assert (Hback : delete b (<[a := v]> (delete a (<[b := v]> m))) = m).
  { apply map_eq. intros k.
    destruct (decide (k = b)) as [->|Hkb]; [rewrite lookup_delete_eq; congruence|].
    rewrite lookup_delete_ne by congruence.
    destruct (decide (k = a)) as [->|Hka]; [rewrite lookup_insert_eq; congruence|].
    rewrite lookup_insert_ne by congruence.
    rewrite lookup_delete_ne by congruence.
    rewrite lookup_insert_ne by congruence. reflexivity. }
  rewrite Hback. apply insert_id. exact Hm.
Qed.

Lemma rename_round_trip_witness :
  (_current_note Sample.visiting_a = Some Sample.note_a /\
   dicts Sample.visiting_a !! metadata Sample.note_a = Some Sample.frontmatter_a /\
   trackers Sample.visiting_a !! _change_tracker Sample.visiting_a
     = Some (PropertyChangeTracker.__init__ "" 2 3) /\
   Sample.frontmatter_a !! "status" = Some (VStr "todo") /\
   Sample.frontmatter_a !! "state" = None) /\
  dicts (world_of ((_rename_property "status" "state" ;;;
                    _rename_property "state" "status") Sample.visiting_a))
    = dicts Sample.visiting_a.
Proof.
  assert (H1 : _current_note Sample.visiting_a = Some Sample.note_a) by reflexivity.
  assert (H2 : dicts Sample.visiting_a !! metadata Sample.note_a = Some Sample.frontmatter_a)
    by (vm_compute; reflexivity).
  assert (H3 : trackers Sample.visiting_a !! _change_tracker Sample.visiting_a
               = Some (PropertyChangeTracker.__init__ "" 2 3))
    by (vm_compute; reflexivity).
  assert (H4 : Sample.frontmatter_a !! "status" = Some (VStr "todo"))
    by (vm_compute; reflexivity).
  assert (H5 : Sample.frontmatter_a !! "state" = None) by (vm_compute; reflexivity).
  split; [auto 6|].
  exact (proj1 (proj2 (proj2 (rename_round_trip _ _ _ _ "status" "state" _ H1 H2 H3 H4 H5)))).
Defined.

(** X4. A later operation of a list sees what an earlier one has done: after
    [add] of a property the note lacks, [rename] of that property finds it;
    the note ends with the default value under the new name only, and the
    tracker holds the two change records and no log entry. *)
Theorem add_then_rename (w : World) (n : Note) (m : gmap string pyvalue)
    (t : PropertyChangeTracker.t) (p q : string) (v : pyvalue) :
  _current_note w = Some n ->
  dicts w !! metadata n = Some m ->
  trackers w !! _change_tracker w = Some t ->
  m !! p = None ->
  p <> q ->
  let r := (_add_property p v ;;; _rename_property p q) w in
  result_of r = Ret tt /\ log_of r = [] /\
  dicts (world_of r) = <[metadata n := <[q := v]> m]> (dicts w) /\
  current_changes (world_of r)
    = PropertyChangeTracker._changes t ++
        [PropertyChangeTracker.Change "add" None (Some p) VNone v;
         PropertyChangeTracker.Change "rename" (Some p) (Some q) v v] /\
  current_logs (world_of r) = PropertyChangeTracker._logs t.
Proof.
  intros Hn Hm Ht Hp Hne r. subst r.
  rewrite (bind_ret_l _ _ _ _ _ _ (add_absent _ _ _ _ _ v Hn Hm Ht Hp)).
  destruct (after_operation w n (<[p := v]> m)
              (PropertyChangeTracker.add_change "add" None (Some p) VNone v t) Hn)
    as (Hn1 & Hm1 & Ht1).
  set (w1 := with_trackers _ (with_dicts _ w)) in *.
  rewrite (rename_present _ _ _ _ _ q _ Hn1 Hm1 Ht1 (lookup_insert_eq _ _ _)).
  unfold world_of, result_of, log_of, current_changes, current_logs. cbn.
  rewrite !lookup_insert_eq. cbn. rewrite <- app_assoc. cbn.
  repeat split.
  rewrite insert_insert_eq. f_equal.
  apply map_eq. intros k.
  destruct (decide (k = p)) as [->|Hkp].
  - rewrite lookup_delete_eq, lookup_insert_ne by congruence. congruence.
  - rewrite lookup_delete_ne by congruence.
    destruct (decide (k = q)) as [->|Hkq]; [by rewrite !lookup_insert_eq|].
    rewrite !lookup_insert_ne by congruence. reflexivity.
Qed.

Lemma add_then_rename_witness :
  (_current_note Sample.visiting_a = Some Sample.note_a /\
   dicts Sample.visiting_a !! metadata Sample.note_a = Some Sample.frontmatter_a /\
   trackers Sample.visiting_a !! _change_tracker Sample.visiting_a
     = Some (PropertyChangeTracker.__init__ "" 2 3) /\
   Sample.frontmatter_a !! "owner" = None /\
   "owner" <> "author") /\
  dicts (world_of ((_add_property "owner" (VStr "me") ;;;
                    _rename_property "owner" "author") Sample.visiting_a))
    = <[metadata Sample.note_a := <["author" := VStr "me"]> Sample.frontmatter_a]>
        (dicts Sample.visiting_a).
Proof.
  assert (H1 : _current_note Sample.visiting_a = Some Sample.note_a) by reflexivity.
  assert (H2 : dicts Sample.visiting_a !! metadata Sample.note_a = Some Sample.frontmatter_a)
    by (vm_compute; reflexivity).
  assert (H3 : trackers Sample.visiting_a !! _change_tracker Sample.visiting_a
               = Some (PropertyChangeTracker.__init__ "" 2 3))
    by (vm_compute; reflexivity).
  assert (H4 : Sample.frontmatter_a !! "owner" = None) by (vm_compute; reflexivity).
  assert (H5 : "owner" <> "author") by discriminate.
  split; [auto 6|].
  exact (proj1 (proj2 (proj2
           (add_then_rename _ _ _ _ "owner" "author" (VStr "me") H1 H2 H3 H4 H5)))).
Defined.

(** ** Validation as a filter *)

(** X5. [_validate_properties] is a filter: for a tag entry whose properties
    are a list of mappings it never raises, the surviving operations are
    exactly the entries that pass the four tests, in their original order, and
    exactly one diagnostic is printed for each entry that is dropped. *)
Theorem validate_properties_is_filter (entry : list (string * pyvalue))
    (props : list pyvalue) :
  assoc "properties" entry = Some (VList props) ->
  forallb is_dict props = true ->
  exists ds,
    _validate_properties (VDict entry) = (Ret (List.filter valid_property props), ds) /\
    length ds = length props - length (List.filter valid_property props) /\
    List.filter valid_property props `sublist_of` props.
Proof.
  intros Hp Hd. destruct (validate_properties_filter entry props Hp Hd) as (ds & H & L).
  exists ds. split; [exact H|split; [exact L|]].
  clear. induction props as [|p props IH]; [constructor|]. cbn.
    destruct (valid_property p); [by apply sublist_skip|by apply sublist_cons].
Qed.

Lemma validate_properties_is_filter_witness :
  (assoc "properties"
     [("tag", VStr "draft");
      ("properties",
       VList [Sample.rename_status; VDict [("action", VStr "add")];
              VDict [("action", VStr "remove"); ("old", VStr "x")]])]
     = Some (VList [Sample.rename_status; VDict [("action", VStr "add")];
                    VDict [("action", VStr "remove"); ("old", VStr "x")]]) /\
   forallb is_dict [Sample.rename_status; VDict [("action", VStr "add")];
                    VDict [("action", VStr "remove"); ("old", VStr "x")]] = true) /\
  exists ds,
    _validate_properties
      (VDict [("tag", VStr "draft");
              ("properties",
               VList [Sample.rename_status; VDict [("action", VStr "add")];
                      VDict [("action", VStr "remove"); ("old", VStr "x")]])])
      = (Ret [Sample.rename_status; VDict [("action", VStr "remove"); ("old", VStr "x")]], ds) /\
    length ds = 1.
Proof.
  split; [split; reflexivity|].
  destruct (validate_properties_is_filter
              [("tag", VStr "draft");
               ("properties",
                VList [Sample.rename_status; VDict [("action", VStr "add")];
                       VDict [("action", VStr "remove"); ("old", VStr "x")]])]
              [Sample.rename_status; VDict [("action", VStr "add")];
               VDict [("action", VStr "remove"); ("old", VStr "x")]]
              eq_refl eq_refl) as (ds & H & L & _).
  exists ds. split; [exact H|exact L].
Defined.

(** X6. [_validate_tag] on a mapping never raises: it accepts the entry
    exactly when the tag name is non-empty and the properties are a list of
    mappings, printing nothing, and rejects it with exactly one error line
    otherwise.  On a tag entry that is not a mapping it raises
    [AttributeError] before printing anything. *)
Theorem validate_tag_decides :
  (forall entry,
     exists ds,
       _validate_tag (VDict entry) = (Ret (valid_tag (VDict entry)), ds) /\
       length ds = (if valid_tag (VDict entry) then 0 else 1) /\
       forallb (fun d => match fst d with ERROR => true | WARNING => false end) ds = true) /\
  (forall tag, is_dict tag = false -> _validate_tag tag = (Raise AttributeError, [])).
Proof.
  split.
  - exact validate_tag_mapping.
  - intros tag Ht. destruct tag; try discriminate; reflexivity.
Qed.

(** X7. For a configuration whose [tags] are a list of mappings the
    generator is exhausted without an exception, and it yields, in the order
    of the configuration, one pair for each tag entry that passes
    [_validate_tag]: the tag name with the operations that pass
    [_validate_properties]; an entry that fails yields nothing. *)
Theorem get_next_tag_is_filter (yaml : list (string * pyvalue)) (tags : list pyvalue) :
  assoc "tags" yaml = Some (VList tags) ->
  forallb is_dict tags = true ->
  snd (get_next_tag (VDict yaml)) = None /\
  yields (get_next_tag (VDict yaml)) = map rule_of (List.filter valid_tag tags) /\
  length (yields (get_next_tag (VDict yaml))) <= length tags.
Proof.
  intros Hy Hd. rewrite (get_next_tag_list _ _ Hy).
  destruct (tags_loop_filter tags Hd) as [Hs Hys].
  split; [exact Hs|]. split; [exact Hys|].
  rewrite Hys, length_map. clear. induction tags as [|t tags IH]; cbn; [lia|].
  destruct (valid_tag t); cbn; lia.
Qed.

Lemma get_next_tag_is_filter_witness :
  (assoc "tags" MoreSamples.mixed_config = Some (VList MoreSamples.mixed_tags) /\
   forallb is_dict MoreSamples.mixed_tags = true) /\
  yields (get_next_tag (VDict MoreSamples.mixed_config))
    = map rule_of (List.filter valid_tag MoreSamples.mixed_tags).
Proof.
  split; [split; reflexivity|].
  exact (proj1 (proj2 (get_next_tag_is_filter MoreSamples.mixed_config
                         MoreSamples.mixed_tags eq_refl eq_refl))).
Defined.

(** ** Configurations that stop the run *)

(** X8. A configuration whose [tags] key is present but empty reports "No
    tags found.", and then the loop of [run] raises [TypeError] (the
    generator iterates over [None]): the run ends there, with the processor
    as it was.  A configuration that is not a mapping at all (an empty file
    loads as [None]) raises [AttributeError] before anything is printed. *)
Theorem degenerate_configurations (env : Env) (w : World) :
  (forall yaml, assoc "tags" yaml = Some VNone ->
     run env (VDict yaml) w = (Raise TypeError, w, [EvDiag (ERROR, NoTagsFound)])) /\
  (forall yaml, is_dict yaml = false ->
     run env yaml w = (Raise AttributeError, w, [])).
Proof.
  split.
  - intros yaml H. unfold run, get_next_tag, py_get. rewrite H. reflexivity.
  - intros yaml H. destruct yaml; try discriminate; reflexivity.
Qed.

Lemma degenerate_configurations_witness :
  (assoc "tags" MoreSamples.null_tags = Some VNone /\ is_dict VNone = false) /\
  run Sample.confirm (VDict MoreSamples.null_tags) (__init__ Sample.vault)
    = (Raise TypeError, __init__ Sample.vault, [EvDiag (ERROR, NoTagsFound)]) /\
  run Sample.confirm VNone (__init__ Sample.vault)
    = (Raise AttributeError, __init__ Sample.vault, []).
Proof.
  split; [split; reflexivity|].
  destruct (degenerate_configurations Sample.confirm (__init__ Sample.vault)) as [H1 H2].
  split; [exact (H1 MoreSamples.null_tags eq_refl)|exact (H2 VNone eq_refl)].
Defined.

Lemma run_loop_stops g w e :
  snd g = Some e -> exists e', result_of (run_loop g w) = Raise e'.
Proof.
  intros H. unfold run_loop. rewrite bind_result, H.
  destruct (result_of (run_items (fst g) w)) as [[]|e1]; eauto.
Qed.

(** X9. When the generator stops with an exception (a tag entry that is not
    a mapping, [tags] that cannot be iterated), [run] raises: [_finish] is
    never entered, so nothing but diagnostics is printed, no summary is
    shown, no archive is made and nothing is persisted, although the pairs
    yielded before have been applied to the notes in memory. *)
Theorem generator_exception_aborts_run (env : Env) (yaml : pyvalue) (w : World) (e : exn) :
  snd (get_next_tag yaml) = Some e ->
  (exists e', result_of (run env yaml w) = Raise e') /\
  world_of (run env yaml w) = world_of (run_items (fst (get_next_tag yaml)) w) /\
  forallb is_diag (log_of (run env yaml w)) = true /\
  disk (world_of (run env yaml w)) = disk w /\
  archive (world_of (run env yaml w)) = archive w.
Proof.
  intros Hs.
  destruct (run_loop_stops (get_next_tag yaml) w e Hs) as [e' He'].
  destruct (run_loop_keeps (get_next_tag yaml) w) as [(Hd & Ha & _) Hl].
  assert (Hw : world_of (run_loop (get_next_tag yaml) w)
               = world_of (run_items (fst (get_next_tag yaml)) w)).
  { unfold run_loop. rewrite bind_world, Hs.
    destruct (result_of (run_items (fst (get_next_tag yaml)) w)); reflexivity. }
  unfold run. rewrite bind_result, bind_world, bind_log, He'.
  split; [eauto|]. split; [exact Hw|]. split; [exact Hl|]. split; assumption.
Qed.

Lemma generator_exception_aborts_run_witness :
  snd (get_next_tag MoreSamples.broken_config) = Some AttributeError /\
  forallb is_diag
    (log_of (run Sample.confirm MoreSamples.broken_config (__init__ Sample.vault))) = true.
Proof.
  split; [reflexivity|].
  exact (proj1 (proj2 (proj2
           (generator_exception_aborts_run Sample.confirm MoreSamples.broken_config
              (__init__ Sample.vault) AttributeError eq_refl)))).
Defined.

(** X10. Only [KeyboardInterrupt] is handled at the prompt of [_finish]: any
    other exception of [input] (the end of the input stream, for one) leaves
    [run] as that exception; [make_archive] is not called, nothing is
    persisted, and files and archive are as before the run. *)
Theorem other_exception_at_prompt (env : Env) (yaml : pyvalue) (w : World) (e : exn) :
  on_input env = Some e ->
  e <> KeyboardInterrupt ->
  let r := run env yaml w in
  (In EvPrompt (log_of r) -> result_of r = Raise e /\ ~ In EvCancelled (log_of r)) /\
  existsb is_make_archive (log_of r) = false /\
  existsb is_persistence (log_of r) = false /\
  archive (world_of r) = archive w /\
  disk (world_of r) = disk w.
Proof.
  intros Hin Hne r. subst r.
  destruct (run_split env yaml w) as (o1 & w1 & l1 & Hloop & HR & HL & ->).
  destruct HR as (Hd & Ha & _ & _).
  destruct o1 as [[]|e1].
  - destruct (finish_eval env w1) as (ls & Hls%summaries_console & [[e0 Hf]|Hf]).
    + rewrite Hf. unfold log_of, world_of, result_of. cbn [fst snd].
      rewrite <- (app_nil_r ls).
      rewrite !console_no_make_archive, !console_no_persistence by assumption.
      repeat split; try assumption.
      all: do 2 (apply console_in in H; [|assumption|reflexivity]); destruct H.
    + rewrite Hin in Hf.
      assert (Hf' : _finish env w1 = (Raise e, w1, ls ++ [EvPrompt]))
        by (destruct e; try exact Hf; congruence).
      rewrite Hf'. unfold log_of, world_of, result_of. cbn [fst snd].
      rewrite !console_no_make_archive, !console_no_persistence by assumption.
      repeat split; try assumption.
      intros Hc. do 2 (apply console_in in Hc; [|assumption|reflexivity]).
      destruct Hc as [Hc|[]]. discriminate.
  - unfold log_of, world_of, result_of. cbn [fst snd].
    rewrite <- (app_nil_r l1).
    rewrite !console_no_make_archive, !console_no_persistence by assumption.
    repeat split; try assumption.
    all: apply console_in in H; [|assumption|reflexivity]; destruct H.
Qed.

Lemma other_exception_at_prompt_witness :
  (on_input (mkEnv (Some EOFError) None id) = Some EOFError /\ EOFError <> KeyboardInterrupt) /\
  disk (world_of (run (mkEnv (Some EOFError) None id) Sample.config (__init__ Sample.vault)))
    = disk (__init__ Sample.vault).
Proof.
  split; [split; [reflexivity|discriminate]|].
  exact (proj2 (proj2 (proj2 (proj2
           (other_exception_at_prompt (mkEnv (Some EOFError) None id) Sample.config
              (__init__ Sample.vault) EOFError eq_refl
              (fun H => eq_ind EOFError
                          (fun x => match x with EOFError => True | _ => False end)
                          I KeyboardInterrupt H)))))).
Defined.

(** ** Every operation leaves one trace *)

Lemma is_str_field k d :
  is_str (field k (VDict d)) = true ->
  exists s, default VNone (assoc k d) = VStr s.
Proof. unfold field. destruct (default VNone (assoc k d)); try discriminate. eauto. Qed.

Lemma ready_after_dict w n m1 :
  _current_note w = Some n ->
  is_Some (trackers w !! _change_tracker w) ->
  ready (with_dicts <[metadata n := m1]> w).
Proof.
  intros Hn [t Ht]. exists n, m1, t. split; [exact Hn|].
  split; [cbn; apply lookup_insert_eq|exact Ht].
Qed.

(** One operation on a ready processor: it returns, prints nothing, and
    appends either one change record or one log entry to the current
    tracker. *)
Lemma operation_trace (op : M unit) w :
  ready w ->
  (forall n m t,
     _current_note w = Some n -> dicts w !! metadata n = Some m ->
     trackers w !! _change_tracker w = Some t ->
     exists m1 t1,
       op w = (Ret tt,
               with_trackers <[_change_tracker w := t1]>
                 (with_dicts <[metadata n := m1]> w), []) /\
       ((exists c, PropertyChangeTracker._changes t1 = PropertyChangeTracker._changes t ++ [c] /\
                   PropertyChangeTracker._logs t1 = PropertyChangeTracker._logs t) \/
        (exists msg, PropertyChangeTracker._changes t1 = PropertyChangeTracker._changes t /\
                     PropertyChangeTracker._logs t1 = PropertyChangeTracker._logs t ++ [msg]))) ->
  result_of (op w) = Ret tt /\ log_of (op w) = [] /\ ready (world_of (op w)) /\
  ((exists c, current_changes (world_of (op w)) = current_changes w ++ [c] /\
              current_logs (world_of (op w)) = current_logs w) \/
   (exists msg, current_changes (world_of (op w)) = current_changes w /\
                current_logs (world_of (op w)) = current_logs w ++ [msg])).
Proof.
  intros (n & m & t & Hn & Hm & Ht) H.
  destruct (H n m t Hn Hm Ht) as (m1 & t1 & -> & Htr).
  unfold result_of, log_of, world_of. cbn [fst snd].
  split; [reflexivity|]. split; [reflexivity|]. split.
  - exists n, m1, t1. split; [exact Hn|]. split; cbn; apply lookup_insert_eq.
  - unfold current_changes, current_logs. cbn. rewrite lookup_insert_eq, Ht. exact Htr.
Qed.

Lemma same_dict w n m :
  dicts w !! metadata n = Some m -> with_dicts <[metadata n := m]> w = w.
Proof.
  intros H. destruct w. unfold with_dicts. cbn in *. f_equal. apply insert_id, H.
Qed.

Lemma add_property_trace prop value w :
  ready w ->
  let r := _add_property prop value w in
  result_of r = Ret tt /\ log_of r = [] /\ ready (world_of r) /\
  ((exists c, current_changes (world_of r) = current_changes w ++ [c] /\
              current_logs (world_of r) = current_logs w) \/
   (exists msg, current_changes (world_of r) = current_changes w /\
                current_logs (world_of r) = current_logs w ++ [msg])).
Proof.
  intros Hr. apply operation_trace; [exact Hr|]. intros n m t Hn Hm Ht.
  destruct (m !! prop) as [v|] eqn:Hv.
  - exists m, (PropertyChangeTracker.add_log ("Property '" +:+ prop +:+ "' already exists.") t).
    rewrite (same_dict _ _ _ Hm). split; [apply (add_present _ _ _ _ _ _ v Hn Hm Ht Hv)|].
    right. eexists. split; reflexivity.
  - eexists _, _. split; [apply (add_absent _ _ _ _ _ _ Hn Hm Ht Hv)|].
    left. eexists. split; reflexivity.
Qed.

Lemma rename_property_trace old new w :
  ready w ->
  let r := _rename_property old new w in
  result_of r = Ret tt /\ log_of r = [] /\ ready (world_of r) /\
  ((exists c, current_changes (world_of r) = current_changes w ++ [c] /\
              current_logs (world_of r) = current_logs w) \/
   (exists msg, current_changes (world_of r) = current_changes w /\
                current_logs (world_of r) = current_logs w ++ [msg])).
Proof.
  intros Hr. apply operation_trace; [exact Hr|]. intros n m t Hn Hm Ht.
  destruct (m !! old) as [v|] eqn:Hv.
  - eexists _, _. split; [apply (rename_present _ _ _ _ _ _ _ Hn Hm Ht Hv)|].
    left. eexists. split; reflexivity.
  - exists m, (PropertyChangeTracker.add_log ("Property '" +:+ old +:+ "' not found.") t).
    rewrite (same_dict _ _ _ Hm). split; [apply (rename_absent _ _ _ _ _ _ Hn Hm Ht Hv)|].
    right. eexists. split; reflexivity.
Qed.

Lemma remove_property_trace prop w :
  ready w ->
  let r := _remove_property prop w in
  result_of r = Ret tt /\ log_of r = [] /\ ready (world_of r) /\
  ((exists c, current_changes (world_of r) = current_changes w ++ [c] /\
              current_logs (world_of r) = current_logs w) \/
   (exists msg, current_changes (world_of r) = current_changes w /\
                current_logs (world_of r) = current_logs w ++ [msg])).
Proof.
  intros Hr. apply operation_trace; [exact Hr|]. intros n m t Hn Hm Ht.
  destruct (m !! prop) as [v|] eqn:Hv.
  - eexists _, _. split; [apply (remove_present _ _ _ _ _ _ Hn Hm Ht Hv)|].
    left. eexists. split; reflexivity.
  - exists m, (PropertyChangeTracker.add_log ("Property '" +:+ prop +:+ "' not found.") t).
    rewrite (same_dict _ _ _ Hm). split; [apply (remove_absent _ _ _ _ _ Hn Hm Ht Hv)|].
    right. eexists. split; reflexivity.
Qed.

Lemma process_property_trace prop w :
  ready w ->
  well_typed prop = true ->
  let r := process_property prop w in
  result_of r = Ret tt /\ log_of r = [] /\ ready (world_of r) /\
  if dispatched prop then
    (exists c, current_changes (world_of r) = current_changes w ++ [c] /\
               current_logs (world_of r) = current_logs w) \/
    (exists msg, current_changes (world_of r) = current_changes w /\
                 current_logs (world_of r) = current_logs w ++ [msg])
  else world_of r = w.
Proof.
  intros Hr Hwt r. subst r. unfold well_typed in Hwt.
  apply andb_prop in Hwt as [Hd Hwt]. destruct prop as [| | | | |d]; try discriminate.
  unfold dispatched. unfold process_property, lift, py_get.
  change (default VNone (assoc "action" d)) with (field "action" (VDict d)).
  rewrite (bind_ret_nil _ _ _ _ _ eq_refl).
  destruct (py_eq (field "action" (VDict d)) (VStr "add")).
  { destruct (is_str_field _ _ Hwt) as [s Hs].
    rewrite (bind_ret_nil _ _ _ _ _ eq_refl), (bind_ret_nil _ _ _ _ _ eq_refl), Hs.
    unfold as_name. rewrite (bind_ret_nil _ _ _ _ _ eq_refl).
    apply add_property_trace, Hr. }
  destruct (py_eq (field "action" (VDict d)) (VStr "rename")).
  { apply andb_prop in Hwt as [Ho Hn].
    destruct (is_str_field _ _ Ho) as [so Hso]. destruct (is_str_field _ _ Hn) as [sn Hsn].
    rewrite (bind_ret_nil _ _ _ _ _ eq_refl), (bind_ret_nil _ _ _ _ _ eq_refl), Hso, Hsn.
    unfold as_name. rewrite (bind_ret_nil _ _ _ _ _ eq_refl), (bind_ret_nil _ _ _ _ _ eq_refl).
    apply rename_property_trace, Hr. }
  destruct (py_eq (field "action" (VDict d)) (VStr "remove")).
  { destruct (is_str_field _ _ Hwt) as [s Hs].
    rewrite (bind_ret_nil _ _ _ _ _ eq_refl), Hs.
    unfold as_name. rewrite (bind_ret_nil _ _ _ _ _ eq_refl).
    apply remove_property_trace, Hr. }
  cbn. repeat split. exact Hr.
Qed.

Lemma process_properties_trace (props : list pyvalue) (w : World) :
  ready w ->
  forallb well_typed props = true ->
  let r := _process_properties (VList props) w in
  result_of r = Ret tt /\ log_of r = [] /\ ready (world_of r) /\
  exists cs ls,
    current_changes (world_of r) = current_changes w ++ cs /\
    current_logs (world_of r) = current_logs w ++ ls /\
    length cs + length ls = length (List.filter dispatched props).
Proof.
  intros Hr Hwt r. subst r. rewrite process_properties_list.
  revert w Hr. induction props as [|p props IH]; intros w Hr.
  - cbn. repeat split; [exact Hr|]. exists [], []. rewrite !app_nil_r. repeat split.
  - cbn [forallb] in Hwt. apply andb_prop in Hwt as [Hp Hwt].
    destruct (process_property_trace p w Hr Hp) as (H1 & H2 & H3 & H4).
    cbn [for_each]. rewrite bind_result, bind_world, bind_log, H1, H2.
    destruct (IH Hwt _ H3) as (I1 & I2 & I3 & cs & ls & Ic & Il & Ilen).
    split; [exact I1|]. split; [exact I2|]. split; [exact I3|].
    cbn [List.filter]. destruct (dispatched p).
    + destruct H4 as [(c & Hc & Hl)|(msg & Hc & Hl)].
      * exists (c :: cs), ls. rewrite Ic, Il, Hc, Hl, <- app_assoc. cbn.
        repeat split. lia.
      * exists cs, (msg :: ls). rewrite Ic, Il, Hc, Hl, <- app_assoc. cbn.
        repeat split. lia.
    + rewrite H4 in *. exists cs, ls. repeat split; assumption.
Qed.

(** X11. Every operation is accounted for exactly once.  With a current note
    and a current tracker, a list of operations with string names is applied
    without an exception and without output; the changes and the logs of the
    tracker are only extended, and the number of entries added to the two
    together is the number of operations with action [add], [rename] or
    [remove]. *)
Theorem operations_leave_one_trace (props : list pyvalue) (w : World) :
  ready w ->
  forallb well_typed props = true ->
  let r := _process_properties (VList props) w in
  result_of r = Ret tt /\ log_of r = [] /\ ready (world_of r) /\
  exists cs ls,
    current_changes (world_of r) = current_changes w ++ cs /\
    current_logs (world_of r) = current_logs w ++ ls /\
    length cs + length ls = length (List.filter dispatched props).
Proof.
  exact (process_properties_trace props w).
Qed.

Lemma operations_leave_one_trace_witness :
  (ready Sample.visiting_a /\ forallb well_typed MoreSamples.three_ops = true) /\
  result_of (_process_properties (VList MoreSamples.three_ops) Sample.visiting_a) = Ret tt.
Proof.
  assert (Hr : ready Sample.visiting_a).
  { exists Sample.note_a, Sample.frontmatter_a, (PropertyChangeTracker.__init__ "" 2 3).
    split; [reflexivity|]. split; vm_compute; reflexivity. }
  split; [split; [exact Hr|reflexivity]|].
  exact (proj1 (operations_leave_one_trace MoreSamples.three_ops Sample.visiting_a
                  Hr eq_refl)).
Defined.

(** ** What a rule touches *)

Lemma process_note_visit properties n w :
  session_sound w ->
  In n (coll w) ->
  let r := process_note properties n w in
  (forall l, is_Some (dicts w !! l) -> l <> metadata n ->
     dicts (world_of r) !! l = dicts w !! l) /\
  (forall l, is_Some (dicts w !! l) -> is_Some (dicts (world_of r) !! l)) /\
  (forall props, properties = VList props -> forallb well_typed props = true ->
     result_of r = Ret tt).
Proof.
  intros Hs Hin r. pose proof Hs as [Hlive Hsess].
  destruct (Hlive n Hin) as [m Hm]. subst r.
  pose proof (process_note_ops properties n w m Hs Hin Hm) as Hops. cbv zeta in Hops.
  rewrite (process_note_start properties n w m Hm). cbv zeta.
  set (w0 := mkWorld _ _ _ _ _ _ _ _ _) in *.
  rewrite bind_world, bind_result.
  destruct Hops
    as (Hcn & Hct & Hac & Hcoll & Hl & Hd & Hc & Hcm & Hnc & Ht & (t' & Ht' & Ho)).
  assert (Hready : ready w0).
  { exists n, m, (PropertyChangeTracker.Tracker (path n)
                   (fresh (dom (<[fresh (dom (<[fresh (dom (dicts w)):=∅]> (dicts w))):=∅]>
                                  (<[fresh (dom (dicts w)):=∅]> (dicts w)))))
                   (fresh (dom (<[fresh (dom (dicts w)):=∅]> (dicts w)))) [] []).
    split; [reflexivity|]. split; [|subst w0; cbn; apply lookup_insert_eq].
    subst w0. cbn. rewrite lookup_insert_ne by congruence.
    rewrite !lookup_insert_ne; [exact Hm|apply fresh_ne; eauto|].
    apply fresh_ne. apply lookup_insert_is_Some'. right. eauto. }
  set (w1 := world_of (_process_properties properties w0)) in *.
  destruct (Hl (metadata n)) as [m' Hm']; [eauto|].
  rewrite <- Hct in Ht'.
  pose proof (process_note_end w1 n m' t' Hcn Hm' Ht') as Hend.
  split; [|split].
  - intros l Hsome Hne.
    destruct (result_of (_process_properties properties w0)); [|apply Hd; assumption].
    rewrite Hend. unfold world_of. cbn [fst snd dicts].
    rewrite lookup_insert_ne by (apply fresh_ne, Hl, Hsome). apply Hd; assumption.
  - intros l Hsome.
    destruct (result_of (_process_properties properties w0)); [|apply Hl; assumption].
    rewrite Hend. unfold world_of. cbn [fst snd dicts].
    apply lookup_insert_is_Some'. right. apply Hl, Hsome.
  - intros props -> Hwt.
    destruct (process_properties_trace props w0 Hready Hwt) as (Hres & _).
    rewrite Hres, Hend. reflexivity.
Qed.

Lemma for_each_process_note_visit properties ns w :
  session_sound w ->
  (forall n, In n ns -> In n (coll w)) ->
  let r := for_each ns (process_note properties) w in
  (forall l, is_Some (dicts w !! l) -> (forall n, In n ns -> metadata n <> l) ->
     dicts (world_of r) !! l = dicts w !! l) /\
  (forall props, properties = VList props -> forallb well_typed props = true ->
     result_of r = Ret tt /\
     length (_all_changes (world_of r)) = length (_all_changes w) + length ns).
Proof.
  revert w. induction ns as [|n ns IH]; intros w Hs Hns r; subst r.
  - split; [reflexivity|]. intros. cbn. split; [reflexivity|lia].
  - cbn [for_each]. rewrite bind_world, bind_result.
    assert (Hn : In n (coll w)) by (apply Hns; by left).
    destruct (process_note_session properties n w Hs Hn) as (Hs1 & _ & Hc1 & Hn1 & Happ).
    destruct (process_note_visit properties n w Hs Hn) as (Hd1 & Hl1 & Hr1).
    set (w1 := world_of (process_note properties n w)) in *.
    assert (Hns1 : forall n', In n' ns -> In n' (coll w1)).
    { intros n' Hn'. unfold coll. rewrite Hn1, Hc1. apply Hns. by right. }
    destruct (IH w1 Hs1 Hns1) as [IHd IHr].
    split.
    + intros l Hsome Hne.
      assert (H1 : dicts w1 !! l = dicts w !! l)
        by (apply Hd1; [exact Hsome|apply not_eq_sym, Hne; by left]).
      destruct (result_of (process_note properties n w)); [|exact H1].
      rewrite IHd; [exact H1|apply Hl1, Hsome|intros n' Hn'; apply Hne; by right].
    + intros props Hp Hwt. rewrite (Hr1 props Hp Hwt).
      destruct (IHr props Hp Hwt) as [-> ->].
      destruct (Happ (Hr1 props Hp Hwt)) as (tl & t & m & m' & _ & _ & -> & _).
      split; [reflexivity|]. rewrite length_app. cbn. lia.
Qed.

Lemma rule_visit (tag : pyvalue) (props : list pyvalue) (w : World) :
  session_sound w ->
  is_Some (collections w !! _notes w) ->
  let selected :=
    List.filter (note_matches (dicts w) (tag_criterion tag)) (coll w) in
  let r := rule tag (VList props) w in
  (forall l, is_Some (dicts w !! l) ->
     (forall n, In n selected -> metadata n <> l) ->
     dicts (world_of r) !! l = dicts w !! l) /\
  (forallb well_typed props = true ->
   result_of r = Ret tt /\
   length (_all_changes (world_of r))
     = length (_all_changes w) +
       (if truthy tag && truthy (VList props) then length selected else 0)).
Proof.
  intros Hs [ns Hc] selected r. subst r.
  destruct (truthy tag) eqn:Ht;
    [|unfold rule; rewrite Ht; cbn; split; [reflexivity|intros; split; [reflexivity|lia]]].
  destruct (truthy (VList props)) eqn:Hp;
    [|unfold rule; rewrite Ht, Hp; cbn; split; [reflexivity|intros; split; [reflexivity|lia]]].
  destruct (rule_live tag (VList props) w ns Ht Hp Hc) as [-> _]. cbv zeta.
  set (sel := filter _ ns).
  set (w0 := with_collections _ w).
  assert (Hsel : forall n, In n sel <-> In n selected).
  { intros n. subst sel selected. unfold coll. rewrite Hc. change (default [] (Some ns)) with ns.
    rewrite <- list_elem_of_In, list_elem_of_filter, list_elem_of_In, filter_In. tauto. }
  assert (Hlen : length sel = length selected).
  { subst sel selected. unfold coll. rewrite Hc. change (default [] (Some ns)) with ns. clear.
    induction ns as [|n ns IH]; [reflexivity|]. cbn [List.filter].
    rewrite filter_cons.
    destruct (note_matches (dicts w) (tag_criterion tag) n) eqn:Hm.
    - rewrite decide_True by reflexivity. cbn [length]. f_equal. exact IH.
    - rewrite decide_False by congruence. exact IH. }
  assert (Hc0 : coll w0 = sel)
    by (unfold coll; subst w0; cbn; by rewrite lookup_insert_eq).
  destruct (session_shrink w w0) as [Hs0 _]; try done.
  { intros n. rewrite Hc0, Hsel. subst selected. rewrite filter_In. tauto. }
  destruct (for_each_process_note_visit (VList props) sel w0 Hs0) as [Hd Hr].
  { intros n. by rewrite Hc0. }
  split.
  - intros l Hsome Hne. apply (Hd l Hsome). intros n Hn. apply Hne, Hsel, Hn.
  - intros Hwt. destruct (Hr props eq_refl Hwt) as [H1 H2].
    split; [exact H1|]. rewrite H2, Hlen. reflexivity.
Qed.

(** X12. A rule changes only the notes it selects.  From a sound state, the
    mapping objects that are not the front-matter of a note selected by the
    rule (the other notes, and the snapshots of earlier trackers) are after
    the rule what they were before; and when the operations have string
    names the rule returns and appends one tracker for each selected note. *)
Theorem rule_touches_selected_notes_only (tag : pyvalue) (props : list pyvalue) (w : World) :
  session_sound w ->
  is_Some (collections w !! _notes w) ->
  let selected :=
    List.filter (note_matches (dicts w) (tag_criterion tag)) (coll w) in
  let r := rule tag (VList props) w in
  (forall l, is_Some (dicts w !! l) ->
     (forall n, In n selected -> metadata n <> l) ->
     dicts (world_of r) !! l = dicts w !! l) /\
  (forallb well_typed props = true ->
   result_of r = Ret tt /\
   length (_all_changes (world_of r))
     = length (_all_changes w) +
       (if truthy tag && truthy (VList props) then length selected else 0)).
Proof.
  exact (rule_visit tag props w).
Qed.

Lemma rule_touches_selected_notes_only_witness :
  (session_sound (__init__ Sample.vault) /\
   is_Some (collections (__init__ Sample.vault) !! _notes (__init__ Sample.vault))) /\
  dicts (world_of (rule (VStr "draft") (VList [Sample.rename_status])
                     (__init__ Sample.vault))) !! 1
    = dicts (__init__ Sample.vault) !! 1.
Proof.
  assert (H1 : session_sound (__init__ Sample.vault)) by apply init_sound.
  assert (H2 : is_Some (collections (__init__ Sample.vault)
                          !! _notes (__init__ Sample.vault)))
    by (vm_compute; eauto).
  split; [split; assumption|].
  refine (proj1 (rule_touches_selected_notes_only (VStr "draft") [Sample.rename_status]
                   (__init__ Sample.vault) H1 H2) 1 _ _).
  - vm_compute. eauto.
  - vm_compute. intros n [<-|[]]. cbn. discriminate.
Defined.

(** ** The summaries and the prompt *)

Lemma show_summary_at w tl :
  session_sound w ->
  In tl (_all_changes w) ->
  exists ev,
    summary_at w tl = Some ev /\
    (t <- gets (fun w => trackers w !! tl) ;;
     t <- attr t ;;
     old <- gets (fun w => dicts w !! PropertyChangeTracker._old_frontmatter t) ;;
     old <- attr old ;;
     new <- gets (fun w => dicts w !! PropertyChangeTracker._new_frontmatter t) ;;
     new <- attr new ;;
     emit (EvSummary (PropertyChangeTracker.show_summary t old new))) w
      = (Ret tt, w, [ev]).
Proof.
  intros [_ Hsess] Hin.
  destruct (Hsess tl Hin) as (t & Ht & [old Ho] & [new Hn] & _).
  exists (EvSummary (PropertyChangeTracker.show_summary t old new)). split.
  - unfold summary_at. rewrite Ht. cbn. rewrite Ho. cbn. rewrite Hn. reflexivity.
  - unfold bind, gets, attr, emit, ret. rewrite Ht, Ho, Hn. reflexivity.
Qed.

Lemma show_summaries_sound w :
  session_sound w ->
  exists evs,
    Forall2 (fun tl ev => summary_at w tl = Some ev) (_all_changes w) evs /\
    show_summaries w = (Ret tt, w, evs).
Proof.
  intros Hs. unfold show_summaries.
  rewrite (bind_ret_nil (gets _all_changes) _ w (_all_changes w) w eq_refl).
  assert (H : forall cs, (forall tl, In tl cs -> In tl (_all_changes w)) ->
            exists evs,
              Forall2 (fun tl ev => summary_at w tl = Some ev) cs evs /\
              for_each cs (fun l =>
                t <- gets (fun w => trackers w !! l) ;;
                t <- attr t ;;
                old <- gets (fun w => dicts w !! PropertyChangeTracker._old_frontmatter t) ;;
                old <- attr old ;;
                new <- gets (fun w => dicts w !! PropertyChangeTracker._new_frontmatter t) ;;
                new <- attr new ;;
                emit (EvSummary (PropertyChangeTracker.show_summary t old new))) w
                = (Ret tt, w, evs)).
  { induction cs as [|tl cs IH]; intros Hcs.
    - exists []. split; [constructor|reflexivity].
    - destruct (show_summary_at w tl Hs (Hcs tl (or_introl eq_refl))) as (ev & Hev & Hb).
      destruct IH as (evs & Hall & Hf); [intros; apply Hcs; by right|].
      exists (ev :: evs). split; [by constructor|].
      cbn [for_each]. rewrite (bind_ret_l _ _ _ _ _ _ Hb), Hf. reflexivity. }
  apply H. auto.
Qed.

Lemma finish_log env w :
  session_sound w ->
  exists evs tail,
    Forall2 (fun tl ev => summary_at w tl = Some ev) (_all_changes w) evs /\
    log_of (_finish env w) = evs ++ EvPrompt :: tail.
Proof.
  intros Hs. destruct (show_summaries_sound w Hs) as (evs & Hall & Heq).
  exists evs. eexists. split; [exact Hall|].
  unfold _finish. rewrite bind_log, Heq. cbn [result_of log_of world_of fst snd].
  rewrite bind_log. cbn [emit result_of log_of world_of fst snd app]. reflexivity.
Qed.

(** X13. From a sound state, [_finish] shows one summary for each tracker of
    the session, in the order in which the notes were visited, each built
    from the tracker and its two snapshots, and then always reaches the
    prompt: showing the summaries never fails. *)
Theorem finish_shows_every_tracker (env : Env) (w : World) :
  session_sound w ->
  exists evs tail,
    Forall2 (fun tl ev => summary_at w tl = Some ev) (_all_changes w) evs /\
    length evs = length (_all_changes w) /\
    log_of (_finish env w) = evs ++ EvPrompt :: tail.
Proof.
  intros Hs. destruct (finish_log env w Hs) as (evs & tail & Hall & Heq).
  exists evs, tail. split; [exact Hall|].
  split; [symmetry; eapply Forall2_length; exact Hall|exact Heq].
Qed.

Lemma finish_shows_every_tracker_witness :
  session_sound (world_of (run_items Sample.draft_rule (__init__ Sample.two_tags))) /\
  exists evs tail,
    length evs = length (_all_changes
                           (world_of (run_items Sample.draft_rule (__init__ Sample.two_tags)))) /\
    log_of (_finish Sample.confirm
              (world_of (run_items Sample.draft_rule (__init__ Sample.two_tags))))
      = evs ++ EvPrompt :: tail.
Proof.
  assert (Hs : session_sound
                 (world_of (run_items Sample.draft_rule (__init__ Sample.two_tags))))
    by (apply run_items_session, init_sound).
  split; [exact Hs|].
  destruct (finish_shows_every_tracker Sample.confirm _ Hs) as (evs & tail & _ & H1 & H2).
  exists evs, tail. split; assumption.
Defined.

(** ** A well-formed run reaches the prompt *)

Lemma rule_keeps_collection tag properties w :
  is_Some (collections w !! _notes w) ->
  is_Some (collections (world_of (rule tag properties w))
             !! _notes (world_of (rule tag properties w))).
Proof.
  intros [ns Hc].
  destruct (truthy tag) eqn:Ht; [|unfold rule; rewrite Ht; cbn; eauto].
  destruct (truthy properties) eqn:Hp; [|unfold rule; rewrite Ht, Hp; cbn; eauto].
  destruct (rule_live tag properties w ns Ht Hp Hc) as [-> _]. cbv zeta.
  match goal with
  | |- context [for_each ?sel _ ?w0] =>
      destruct (for_each_process_note_frame properties sel w0) as (_ & _ & -> & ->)
  end.
  cbn. rewrite lookup_insert_eq. eauto.
Qed.

Lemma forallb_filter_well_typed props :
  forallb well_typed props = true ->
  forallb well_typed (List.filter valid_property props) = true.
Proof.
  induction props as [|p props IH]; [reflexivity|]. cbn.
  intros [Hp Hps]%andb_prop. destruct (valid_property p); cbn; [rewrite Hp|]; auto.
Qed.

Lemma well_formed_rules_return tags w :
  session_sound w ->
  is_Some (collections w !! _notes w) ->
  forallb (fun tag => forallb well_typed (properties_of tag)) tags = true ->
  result_of (run_items (map (fun tp => GYield (fst tp) (snd tp)) (map rule_of tags)) w)
    = Ret tt.
Proof.
  revert w. induction tags as [|tag tags IH]; intros w Hs Hc Hwt; [reflexivity|].
  cbn [forallb] in Hwt. apply andb_prop in Hwt as [Ht Hwt].
  cbn [map run_items rule_of fst snd]. rewrite bind_result.
  destruct (rule_visit (field "tag" tag)
              (List.filter valid_property (properties_of tag)) w Hs Hc) as [_ Hr].
  destruct (Hr (forallb_filter_well_typed _ Ht)) as [-> _].
  apply IH; [apply rule_session, Hs|apply rule_keeps_collection, Hc|exact Hwt].
Qed.

(** X14. With a configuration whose [tags] are a list of mappings and whose
    operations have string property names, the loop of [run] started from a
    sound state never raises, whatever the tags and whatever the notes: the
    run always reaches the prompt of [_finish]. *)
Theorem well_formed_run_reaches_prompt (env : Env) (yaml : list (string * pyvalue))
    (tags : list pyvalue) (w : World) :
  session_sound w ->
  is_Some (collections w !! _notes w) ->
  assoc "tags" yaml = Some (VList tags) ->
  forallb is_dict tags = true ->
  forallb (fun tag => forallb well_typed (properties_of tag)) tags = true ->
  result_of (run_loop (get_next_tag (VDict yaml)) w) = Ret tt /\
  In EvPrompt (log_of (run env (VDict yaml) w)).
Proof.
  intros Hs Hc Hy Hd Hwt.
  destruct (tags_loop_filter tags Hd) as [Hstop Hys].
  rewrite <- (get_next_tag_list _ _ Hy) in Hstop, Hys.
  assert (Hloop : result_of (run_loop (get_next_tag (VDict yaml)) w) = Ret tt).
  { unfold run_loop. rewrite bind_result, Hstop.
    destruct (get_next_tag (VDict yaml)) as [items stop] eqn:Hg. cbn [fst snd] in *.
    destruct (run_items_yields items stop w) as [-> _]. rewrite Hys.
    rewrite well_formed_rules_return; [reflexivity|exact Hs|exact Hc|].
    clear -Hwt. induction tags as [|t tags IH]; [reflexivity|]. cbn in *.
    apply andb_prop in Hwt as [H1 H2]. destruct (valid_tag t); cbn; [rewrite H1|]; auto. }
  split; [exact Hloop|].
  unfold run. rewrite bind_log, Hloop.
  destruct (run_loop_session (get_next_tag (VDict yaml)) w Hs) as [Hs1 _].
  destruct (finish_log env _ Hs1) as (evs & tail & _ & ->).
  apply in_or_app. right. apply in_or_app. right. by left.
Qed.

Lemma well_formed_run_reaches_prompt_witness :
  (session_sound (__init__ Sample.vault) /\
   is_Some (collections (__init__ Sample.vault) !! _notes (__init__ Sample.vault)) /\
   assoc "tags" MoreSamples.mixed_config = Some (VList MoreSamples.mixed_tags) /\
   forallb is_dict MoreSamples.mixed_tags = true /\
   forallb (fun tag => forallb well_typed (properties_of tag)) MoreSamples.mixed_tags = true) /\
  In EvPrompt (log_of (run Sample.cancel (VDict MoreSamples.mixed_config)
                         (__init__ Sample.vault))).
Proof.
  assert (H1 : session_sound (__init__ Sample.vault)) by apply init_sound.
  assert (H2 : is_Some (collections (__init__ Sample.vault)
                          !! _notes (__init__ Sample.vault)))
    by (vm_compute; eauto).
  split; [split; [exact H1|split; [exact H2|repeat split]]|].
  exact (proj2 (well_formed_run_reaches_prompt Sample.cancel MoreSamples.mixed_config
                  MoreSamples.mixed_tags (__init__ Sample.vault) H1 H2
                  eq_refl eq_refl eq_refl)).
Defined.

(** ** The prompt loop *)




(** ** Validating twice, and what the loop prints *)

Lemma filter_valid_twice props :
  List.filter valid_property (List.filter valid_property props)
    = List.filter valid_property props.
Proof.
  induction props as [|p props IH]; [reflexivity|]. cbn.
  destruct (valid_property p) eqn:Hp; [cbn; rewrite Hp, IH|]; auto.
Qed.

(** X16. Validation is idempotent: the operations that survive
    [_validate_properties] all pass it again, in the same order and without a
    single diagnostic. *)
Theorem validation_is_idempotent (entry entry' : list (string * pyvalue))
    (props : list pyvalue) :
  assoc "properties" entry = Some (VList props) ->
  forallb is_dict props = true ->
  assoc "properties" entry' = Some (VList (List.filter valid_property props)) ->
  fst (_validate_properties (VDict entry)) = Ret (List.filter valid_property props) /\
  _validate_properties (VDict entry') = (Ret (List.filter valid_property props), []).
Proof.
  intros Hp Hd Hp'.
  destruct (validate_properties_filter entry props Hp Hd) as (ds & -> & _).
  split; [reflexivity|].
  assert (Hd' : forallb is_dict (List.filter valid_property props) = true).
  { clear -Hd. induction props as [|p props IH]; [reflexivity|]. cbn in *.
    apply andb_prop in Hd as [H1 H2]. destruct (valid_property p); cbn; [rewrite H1|]; auto. }
  destruct (validate_properties_filter entry' _ Hp' Hd') as (ds' & H & L).
  rewrite filter_valid_twice in H, L. rewrite H.
  destruct ds'; [reflexivity|]. cbn in L. lia.
Qed.

Lemma validation_is_idempotent_witness :
  (assoc "properties" [("tag", VStr "t"); ("properties", VList MoreSamples.three_ops)]
     = Some (VList MoreSamples.three_ops) /\
   forallb is_dict MoreSamples.three_ops = true /\
   assoc "properties"
     [("tag", VStr "t");
      ("properties", VList (List.filter valid_property MoreSamples.three_ops))]
     = Some (VList (List.filter valid_property MoreSamples.three_ops))) /\
  _validate_properties
    (VDict [("tag", VStr "t");
            ("properties", VList (List.filter valid_property MoreSamples.three_ops))])
    = (Ret (List.filter valid_property MoreSamples.three_ops), []).
Proof.
  split; [repeat split|].
  exact (proj2 (validation_is_idempotent
                  [("tag", VStr "t"); ("properties", VList MoreSamples.three_ops)]
                  [("tag", VStr "t");
                   ("properties", VList (List.filter valid_property MoreSamples.three_ops))]
                  MoreSamples.three_ops eq_refl eq_refl eq_refl)).
Defined.

Lemma process_note_silent properties n w :
  session_sound w ->
  In n (coll w) ->
  log_of (process_note properties n w) = [].
Proof.
  intros Hs Hin. pose proof Hs as [Hlive _].
  destruct (Hlive n Hin) as [m Hm].
  pose proof (process_note_ops properties n w m Hs Hin Hm) as Hops. cbv zeta in Hops.
  rewrite (process_note_start properties n w m Hm). cbv zeta.
  set (w0 := mkWorld _ _ _ _ _ _ _ _ _) in *.
  destruct Hops as (Hcn & Hct & _ & _ & Hl & _ & _ & _ & _ & _ & (t' & Ht' & _)).
  destruct (process_properties_ops properties w0) as [_ Hsil%silent_nil].
  rewrite bind_log, Hsil.
  destruct (result_of (_process_properties properties w0)); [|reflexivity].
  destruct (Hl (metadata n)) as [m' Hm']; [eauto|].
  rewrite <- Hct in Ht'.
  rewrite (process_note_end _ n m' t' Hcn Hm' Ht'). reflexivity.
Qed.

Lemma for_each_process_note_silent properties ns w :
  session_sound w ->
  (forall n, In n ns -> In n (coll w)) ->
  log_of (for_each ns (process_note properties) w) = [].
Proof.
  revert w. induction ns as [|n ns IH]; intros w Hs Hns; [reflexivity|].
  cbn [for_each]. rewrite bind_log.
  assert (Hn : In n (coll w)) by (apply Hns; by left).
  rewrite (process_note_silent properties n w Hs Hn).
  destruct (result_of (process_note properties n w)); [|reflexivity].
  destruct (process_note_session properties n w Hs Hn) as (Hs1 & _ & Hc1 & Hn1 & _).
  apply IH; [exact Hs1|].
  intros n' Hn'. unfold coll. rewrite Hn1, Hc1. apply Hns. by right.
Qed.

Lemma rule_silent tag properties w :
  session_sound w -> log_of (rule tag properties w) = [].
Proof.
  intros Hs.
  destruct (truthy tag) eqn:Ht; [|unfold rule; rewrite Ht; reflexivity].
  destruct (truthy properties) eqn:Hp; [|unfold rule; rewrite Ht, Hp; reflexivity].
  destruct (collections w !! _notes w) as [ns|] eqn:Hc.
  - destruct (rule_live tag properties w ns Ht Hp Hc) as [-> _]. cbv zeta.
    set (sel := filter _ ns). set (w0 := with_collections _ w).
    assert (Hc0 : coll w0 = sel)
      by (unfold coll; subst w0; cbn; by rewrite lookup_insert_eq).
    destruct (session_shrink w w0) as [Hs0 _]; try done.
    { intros n. rewrite Hc0. unfold coll. rewrite Hc. cbn. subst sel.
      rewrite <- !list_elem_of_In. intros Hn%list_elem_of_filter. apply Hn. }
    apply for_each_process_note_silent; [exact Hs0|]. intros n. by rewrite Hc0.
  - unfold rule. rewrite Ht, Hp. cbn [negb orb].
    rewrite (bind_raise_l _ _ _ _ _ _ (get_filtered_notes_dangling _ w Hc)). reflexivity.
Qed.

Lemma run_items_log items stop w :
  session_sound w ->
  (exists later, map EvDiag (printed (items, stop)) = log_of (run_items items w) ++ later) /\
  (result_of (run_items items w) = Ret tt ->
   log_of (run_items items w) = map EvDiag (printed (items, stop))).
Proof.
  revert w. induction items as [|[d|tag properties] items IH]; intros w Hs.
  - split; [exists []; reflexivity|reflexivity].
  - change (printed (GPrint d :: items, stop)) with (d :: printed (items, stop)).
    cbn [run_items map]. rewrite bind_log, bind_result. cbn [emit result_of log_of world_of fst snd].
    destruct (IH w Hs) as [[later Hl] Hr]. split.
    + exists later. cbn [app]. rewrite Hl. reflexivity.
    + intros H. cbn [app]. rewrite (Hr H). reflexivity.
  - change (printed (GYield tag properties :: items, stop)) with (printed (items, stop)).
    cbn [run_items]. rewrite bind_log, bind_result, (rule_silent _ _ _ Hs).
    destruct (result_of (rule tag properties w)).
    + destruct (IH _ (proj1 (rule_session tag properties w Hs))) as [Hl Hr].
      split; [exact Hl|exact Hr].
    + split; [eexists; reflexivity|discriminate].
Qed.

(** X17. From a sound state the loop of [run] prints the diagnostics of the
    generator, in the order of the configuration, and nothing else: the
    operations on the notes are silent.  What is on the console when the loop
    ends is a prefix of the generator's diagnostics, and all of them when
    every yielded pair was processed. *)
Theorem loop_prints_the_diagnostics (g : generator) (w : World) :
  session_sound w ->
  (exists later, map EvDiag (printed g) = log_of (run_loop g w) ++ later) /\
  (result_of (run_items (fst g) w) = Ret tt ->
   log_of (run_loop g w) = map EvDiag (printed g)).
Proof.
  intros Hs. destruct g as [items stop].
  destruct (run_items_log items stop w Hs) as [[later Hl] Hr].
  unfold run_loop. cbn [fst snd]. rewrite bind_log.
  destruct (result_of (run_items items w)) as [[]|e] eqn:Hres.
  - rewrite (Hr eq_refl).
    assert (Hnil : log_of ((match stop with Some e => raise e | None => ret tt end)
                             (world_of (run_items items w))) = [])
      by (destruct stop; reflexivity).
    rewrite Hnil, app_nil_r. split; [exists []; by rewrite app_nil_r|reflexivity].
  - split; [exists later; exact Hl|discriminate].
Qed.

Lemma loop_prints_the_diagnostics_witness :
  session_sound (__init__ Sample.vault) /\
  exists later,
    map EvDiag (printed (get_next_tag (VDict MoreSamples.mixed_config)))
      = log_of (run_loop (get_next_tag (VDict MoreSamples.mixed_config))
                  (__init__ Sample.vault)) ++ later.
Proof.
  assert (H1 : session_sound (__init__ Sample.vault)) by apply init_sound.
  split; [exact H1|].
  exact (proj1 (loop_prints_the_diagnostics _ _ H1)).
Defined.
